(** * Partial-score computation of the Cartola FC client

    A shallow embedding of [Api._calculate_parcial] and
    [Api._calculate_parcial_2] (cartolafc/api.py) together with the records
    of cartolafc/models.py they read and write, followed by the properties
    of the scoring pass.

    Conventions of the embedding.
    - A Python float is a [float] of the standard library: a binary64
      number with the arithmetic of the hardware, so that every sum and
      product is rounded as Python rounds it, and a decimal literal is the
      nearest double, as a literal of Python is.  A score is a float or
      [None] (a JSON [null]).  A score that JSON writes without a fraction
      is an [int] in Python; it stands here for the float of the same
      value, which is what the arithmetic of the pass makes of it
      ([int + float] and [int * 1.5] convert the [int] first, exactly so
      below 2^53).
    - A dict is a [gmap]; the live feed is keyed by [Chave] because the code
      itself tests [isinstance(key, int)].
    - The objects are mutated in place by the code; here every loop passes
      the state on explicitly and the final state of the argument is
      returned next to the outcome, also when an exception ends the call:
      the argument is then in the state that the statements executed so
      far left.  The athletes of a roster and those of the feed are
      objects of their own ([from_dict] builds each one), so no two
      entries share a record.
    - The exceptions of the pass are the [CartolaFCError] of its check,
      the [AttributeError] of [atleta.clube.nome] on a club that is [None]
      and the [TypeError] of arithmetic on a score that is [None]; the
      messages of the last two are not kept.
    - The two network reads at the top of the function
      ([Api().mercado().rodada_atual], [Api().partidas(rodada_atual)])
      are the parameter [partidas]. *)

From Stdlib Require Import ZArith String Floats.
From stdpp Require Import base gmap strings list.

Set Warnings "-inexact-float".

Local Open Scope Z_scope.

(** ** Records of models.py *)

Module Posicao.
(** [Posicao = namedtuple('Posicao', ['id', 'nome', 'abreviacao'])] *)
Record t := Build { id : Z; nome : string; abreviacao : string }.
End Posicao.

(** The table [_posicoes]; indexing with another key raises [KeyError]. *)
Definition _posicoes (posicao_id : Z) : option Posicao.t :=
  match posicao_id with
  | 1 => Some (Posicao.Build 1 "Goleiro" "GOL")
  | 2 => Some (Posicao.Build 2 "Lateral" "LAT")
  | 3 => Some (Posicao.Build 3 "Zagueiro" "ZAG")
  | 4 => Some (Posicao.Build 4 "Meia" "MEI")
  | 5 => Some (Posicao.Build 5 "Atacante" "ATA")
  | 6 => Some (Posicao.Build 6 "Técnico" "TEC")
  | _ => None
  end.

Module Clube.
(** [escudos] is left out: the pass does not read it. *)
Record t := Build { id : Z; nome : string; abreviacao : string }.
End Clube.

(** [Atleta.clube] as [Atleta.from_dict] leaves it (models.py, line 122):
    the [Clube] that [clubes.get] finds, the empty string for
    [clube_id == 1], or the [None] that [clubes.get] answers for an id
    that is not in the table. *)
Inductive ClubeRef :=
| ClubeDe (c : Clube.t)
| ClubeVazio
| ClubeNone.

(** [Atleta.scout]: the constructor keeps a non-empty dict and replaces
    anything falsy by [''] ; the scoring pass stores [{}]. *)
Inductive Scout :=
| ScoutStr
| ScoutDict (d : gmap string Z).

(** A score: a float, or [None]. *)
Definition Pontos := option float.

Module Atleta.
(** The attributes of [Atleta] that the scoring pass reads or writes.
    [nome] is not set by [__init__]: it exists once the pass has assigned
    it.  [pontos] is the score of the payload, [None] for a [null].
    [entrou_em_campo] is [None] when the payload has no such key, and
    [is_capitao] is [Optional[bool]]. *)
Record t := Build {
  id : Z;
  apelido : string;
  nome : option string;
  pontos : Pontos;
  scout : Scout;
  posicao : Posicao.t;
  entrou_em_campo : option bool;
  clube : ClubeRef;
  is_capitao : option bool
}.
End Atleta.

Module Partida.
(** The attributes of [Partida] that the scan of the matches reads, next
    to the venue and the score.  The two clubs are [Clube] objects:
    [Partida.from_dict] indexes the table of the clubs. *)
Record t := Build {
  local : string;
  valida : bool;
  clube_casa : Clube.t;
  placar_casa : option Z;
  clube_visitante : Clube.t;
  placar_visitante : option Z;
  fim_de_jogo : string;
  status_transmissao_tr : string
}.
End Partida.

Module Time.
(** [reservas] is [None] when the payload has no ['reservas'] key.
    [jogados] is not set by [__init__]: it exists once a scoring pass
    has assigned it.  [info] is left out: the pass does not read it. *)
Record t := Build {
  patrimonio : float;
  valor_time : float;
  ultima_pontuacao : float;
  atletas : list Atleta.t;
  reservas : option (list Atleta.t);
  pontos : Pontos;
  rodada_atual : Z;
  jogados : option Z
}.
End Time.

(** ** Dynamically typed arguments *)

(** A key of the [parciais] dict: an [int], or something else (the JSON
    file read by [time_parcial_2] has [str] keys). *)
Inductive Chave :=
| KInt (k : Z)
| KStr (s : string).

#[global] Instance Chave_eq_dec : EqDecision Chave.
Proof. solve_decision. Defined.

#[global] Instance Chave_countable : Countable Chave.
Proof.
  refine (inj_countable'
            (fun c => match c with KInt k => inl k | KStr s => inr s end)
            (fun x => match x with inl k => KInt k | inr s => KStr s end) _).
  intros []; reflexivity.
Defined.

(** A value of the [parciais] dict: an [Atleta], or any other object. *)
Inductive Valor :=
| VAtleta (a : Atleta.t)
| VOutro.

(** The object passed as [time]: a [Time], or any other object. *)
Inductive Objeto :=
| OTime (t : Time.t)
| OOutro.

Inductive Erro :=
| CartolaFCError (msg : string)
| AttributeError
| TypeError.

(** How a call ends.  [Retorna] is [return time]: the value returned is the
    argument object itself, whose final state is given next to it. *)
Inductive Desfecho :=
| Retorna
| Levanta (e : Erro).

(** ** Python primitives *)

(** [bool(x)] of an [Optional[bool]]. *)
Definition truthy (b : option bool) : bool :=
  match b with Some true => true | _ => false end.

(** [isinstance(key, int)], [isinstance(v, Atleta)], [isinstance(time, Time)] *)
Definition isinstance_int (k : Chave) : bool :=
  match k with KInt _ => true | KStr _ => false end.

Definition isinstance_Atleta (v : option Valor) : bool :=
  match v with Some (VAtleta _) => true | _ => false end.

Definition isinstance_Time (o : Objeto) : bool :=
  match o with OTime _ => true | OOutro => false end.

(** [x.attr if isinstance(x, Atleta) else d] *)
Definition attr_ou {A} (x : option Valor) (attr : Atleta.t -> A) (d : A) : A :=
  match x with Some (VAtleta a) => attr a | _ => d end.

(** [parciais.get(id_)] *)
Definition dict_get (parciais : gmap Chave Valor) (id_ : Z) : option Valor :=
  parciais !! KInt id_.

(** [total += x] for a number [total]: [TypeError] when [x] is [None]. *)
Definition mais_igual (total : float) (x : Pontos) : Erro + float :=
  match x with
  | Some v => inr (total + v)%float
  | None => inl TypeError
  end.

(** [x *= y] for a float [y]: [TypeError] when [x] is [None]. *)
Definition vezes_igual (x : Pontos) (y : float) : Erro + Pontos :=
  match x with
  | Some v => inr (Some (v * y)%float)
  | None => inl TypeError
  end.

(** [x >= y] for a float [y]: [TypeError] when [x] is [None]. *)
Definition maior_igual (x : Pontos) (y : float) : Erro + bool :=
  match x with
  | Some v => inr (y <=? v)%float
  | None => inl TypeError
  end.

(** ** The scoring pass *)

Definition _teste (parciais : gmap Chave Valor) (id_ : Z) : option Valor :=
  dict_get parciais id_.

Definition _teste_2 (parciais_2 : gmap Chave Valor) (id_ : Z) : option Valor :=
  dict_get parciais_2 id_.

(** [any(not isinstance(key, int) or not isinstance(parciais[key], Atleta)
        for key in parciais.keys())] *)
Definition parciais_invalidos (parciais : gmap Chave Valor) : bool :=
  existsb (fun kv => negb (isinstance_int kv.1) || negb (isinstance_Atleta (Some kv.2)))
          (map_to_list parciais).

(** The mutable state of one pass apart from the athletes themselves:
    [time.pontos], [time.jogados] and the locals [foundRes] and
    [reserva_usado].  (The locals [reserva_pontos] and [reserva_cap] are
    assigned and never read.) *)
Record Estado := MkEstado {
  time_pontos : float;
  time_jogados : Z;
  foundRes : bool;
  reserva_usado : list string
}.

Definition com_pontos (st : Estado) (p : float) : Estado :=
  MkEstado p (time_jogados st) (foundRes st) (reserva_usado st).

Definition com_jogados (st : Estado) (j : Z) : Estado :=
  MkEstado (time_pontos st) j (foundRes st) (reserva_usado st).

Definition com_foundRes (st : Estado) (b : bool) : Estado :=
  MkEstado (time_pontos st) (time_jogados st) b (reserva_usado st).

Definition com_reserva_usado (st : Estado) (l : list string) : Estado :=
  MkEstado (time_pontos st) (time_jogados st) (foundRes st) l.

(** How the body of a loop ends: the loop goes on with the next item, a
    [break] leaves the loop, or an exception leaves the function. *)
Inductive Controle :=
| Proximo
| Break
| Raise (e : Erro).

(** How a loop ends: the statement after it is next, or an exception
    leaves the function. *)
Inductive Fim :=
| Segue
| Excecao (e : Erro).

(** Lines 486-493: the starter takes its live fields from the feed. *)
Definition atualiza_atleta (atleta : Atleta.t) (atleta_parcial : option Valor) : Atleta.t :=
  Atleta.Build
    (Atleta.id atleta)
    (Atleta.apelido atleta)
    (Some (attr_ou atleta_parcial Atleta.apelido ""%string))
    (attr_ou atleta_parcial Atleta.pontos (Some 0%float))
    (attr_ou atleta_parcial Atleta.scout (ScoutDict ∅))
    (Atleta.posicao atleta)
    (attr_ou atleta_parcial Atleta.entrou_em_campo (Some false))
    (Atleta.clube atleta)
    (Atleta.is_capitao atleta).

(** Lines 512-515: a reserve takes its live score and scout from the feed. *)
Definition atualiza_reserva (reserva : Atleta.t) (reserva_parcial : option Valor) : Atleta.t :=
  Atleta.Build
    (Atleta.id reserva)
    (Atleta.apelido reserva)
    (Atleta.nome reserva)
    (attr_ou reserva_parcial Atleta.pontos (Some 0%float))
    (attr_ou reserva_parcial Atleta.scout (ScoutDict ∅))
    (Atleta.posicao reserva)
    (Atleta.entrou_em_campo reserva)
    (Atleta.clube reserva)
    (Atleta.is_capitao reserva).

(** The athlete with another score. *)
Definition com_pontos_atleta (atleta : Atleta.t) (p : Pontos) : Atleta.t :=
  Atleta.Build
    (Atleta.id atleta)
    (Atleta.apelido atleta)
    (Atleta.nome atleta)
    p
    (Atleta.scout atleta)
    (Atleta.posicao atleta)
    (Atleta.entrou_em_campo atleta)
    (Atleta.clube atleta)
    (Atleta.is_capitao atleta).

(** Line 540: [atleta.pontos *= 1.5]. *)
Definition vezes_capitao (atleta : Atleta.t) : Erro + Atleta.t :=
  match vezes_igual (Atleta.pontos atleta) 1.5 with
  | inl e => inl e
  | inr p => inr (com_pontos_atleta atleta p)
  end.

(** The test of line 499-500 for one [partida]: [atleta.clube != ''] is
    true of [None] as well, and [None.nome] raises. *)
Definition clube_na_partida (clube : ClubeRef) (partida : Partida.t) : Erro + bool :=
  match clube with
  | ClubeVazio => inr false
  | ClubeNone => inl AttributeError
  | ClubeDe c =>
      inr (bool_decide (Clube.nome c = Clube.nome (Partida.clube_casa partida))
           || bool_decide (Clube.nome c = Clube.nome (Partida.clube_visitante partida)))
  end.

(** The test of line 503-504 for one [partida]. *)
Definition partida_encerrada (partida : Partida.t) : bool :=
  (bool_decide (Partida.fim_de_jogo partida = "veja como foi"%string)
   || bool_decide (Partida.status_transmissao_tr partida = "ENCERRADA"%string))
  || negb (Partida.valida partida).

(** Lines 496-507: [jogo_finalizou = False], then the loop over
    [partidas], which never breaks. *)
Fixpoint laco_partidas (clube : ClubeRef) (partidas : list Partida.t)
         (jogo_finalizou : bool) : Erro + bool :=
  match partidas with
  | [] => inr jogo_finalizou
  | partida :: resto =>
      match clube_na_partida clube partida with
      | inl e => inl e
      | inr joga =>
          laco_partidas clube resto
            (if joga
             then (if partida_encerrada partida then true else false)
             else jogo_finalizou)
      end
  end.

Definition jogo_finalizou (clube : ClubeRef) (partidas : list Partida.t) : Erro + bool :=
  laco_partidas clube partidas false.

(** Lines 512-537: the body of the loop over [time.reservas] for one
    starter and one reserve.  The result is the reserve, the state and
    how the body ends. *)
Definition corpo_reserva (parciais : gmap Chave Valor) (atleta : Atleta.t)
           (jogo_finalizou : bool) (reserva0 : Atleta.t) (st : Estado)
  : Atleta.t * Estado * Controle :=
  let reserva_parcial := dict_get parciais (Atleta.id reserva0) in
  let reserva := atualiza_reserva reserva0 reserva_parcial in
  if negb (truthy (Atleta.entrou_em_campo atleta)) then
    let st := com_foundRes st false in
    if bool_decide (Posicao.nome (Atleta.posicao atleta) ∈ reserva_usado st) then
      (reserva, st, Break)
    else
      match
        (if truthy (Atleta.is_capitao atleta)
            && bool_decide (Posicao.nome (Atleta.posicao atleta)
                            = Posicao.nome (Atleta.posicao reserva))
            && jogo_finalizou
         then match mais_igual (time_pontos st) (Atleta.pontos reserva) with
              | inl e => inl e
              | inr p => inr (com_pontos st p)
              end
         else inr st)
      with
      | inl e => (reserva, st, Raise e)
      | inr st =>
          match
            (if bool_decide (Posicao.nome (Atleta.posicao atleta)
                             = Posicao.nome (Atleta.posicao reserva))
                && negb (foundRes st) && jogo_finalizou
             then maior_igual (Atleta.pontos reserva) 0.1
             else inr false)
          with
          | inl e => (reserva, st, Raise e)
          | inr false => (reserva, st, Proximo)
          | inr true =>
              match mais_igual (time_pontos st) (Atleta.pontos reserva) with
              | inl e => (reserva, st, Raise e)
              | inr p =>
                  let st := com_pontos st p in
                  let st := com_foundRes st true in
                  let st := com_reserva_usado st
                              (reserva_usado st
                               ++ [Posicao.nome (Atleta.posicao reserva)]) in
                  (reserva, st, Break)
              end
          end
      end
  else
    (reserva, st, Break).

(** Line 510: [for reserva in time.reservas].  The result is the list of
    reserves after the loop, the state and how the loop ends; a [break]
    or an exception leaves the remaining reserves as they are. *)
Fixpoint laco_reservas (parciais : gmap Chave Valor) (atleta : Atleta.t)
         (jogo_finalizou : bool) (reservas : list Atleta.t) (st : Estado)
  : list Atleta.t * Estado * Fim :=
  match reservas with
  | [] => ([], st, Segue)
  | reserva0 :: resto =>
      match corpo_reserva parciais atleta jogo_finalizou reserva0 st with
      | (reserva, st, Proximo) =>
          let '(resto', st', fim) :=
            laco_reservas parciais atleta jogo_finalizou resto st in
          (reserva :: resto', st', fim)
      | (reserva, st, Break) => (reserva :: resto, st, Segue)
      | (reserva, st, Raise e) => (reserva :: resto, st, Excecao e)
      end
  end.

(** Lines 509-510: [if time.reservas:] skips [None] and the empty list. *)
Definition se_reservas (parciais : gmap Chave Valor) (atleta : Atleta.t)
           (jogo_finalizou : bool) (reservas : option (list Atleta.t)) (st : Estado)
  : option (list Atleta.t) * Estado * Fim :=
  match reservas with
  | None => (None, st, Segue)
  | Some [] => (Some [], st, Segue)
  | Some rs =>
      let '(rs', st', fim) := laco_reservas parciais atleta jogo_finalizou rs st in
      (Some rs', st', fim)
  end.

(** Lines 481-542: the body of the loop over [time.atletas] in
    [_calculate_parcial].  The executor runs [teste] on one item and the
    loop over its single future runs the body once.  The result is the
    starter, the reserves, the state and whether an exception ended the
    body. *)
Definition corpo_atleta (teste : gmap Chave Valor -> Z -> option Valor)
           (parciais : gmap Chave Valor) (partidas : list Partida.t)
           (atleta0 : Atleta.t) (reservas : option (list Atleta.t)) (st : Estado)
  : Atleta.t * option (list Atleta.t) * Estado * Fim :=
  let atleta_parcial := teste parciais (Atleta.id atleta0) in
  let tem_parcial := isinstance_Atleta atleta_parcial in
  let atleta := atualiza_atleta atleta0 atleta_parcial in
  let st := com_jogados st (time_jogados st + (if tem_parcial then 1 else 0)) in
  match jogo_finalizou (Atleta.clube atleta) partidas with
  | inl e => (atleta, reservas, st, Excecao e)
  | inr jogo_finalizou =>
      match se_reservas parciais atleta jogo_finalizou reservas st with
      | (reservas', st, Excecao e) => (atleta, reservas', st, Excecao e)
      | (reservas', st, Segue) =>
          match (if truthy (Atleta.is_capitao atleta)
                 then vezes_capitao atleta
                 else inr atleta) with
          | inl e => (atleta, reservas', st, Excecao e)
          | inr atleta =>
              match mais_igual (time_pontos st) (Atleta.pontos atleta) with
              | inl e => (atleta, reservas', st, Excecao e)
              | inr p => (atleta, reservas', com_pontos st p, Segue)
              end
          end
      end
  end.

(** Line 475: [for atleta in time.atletas]. *)
Fixpoint laco_atletas (teste : gmap Chave Valor -> Z -> option Valor)
         (parciais : gmap Chave Valor) (partidas : list Partida.t)
         (atletas : list Atleta.t) (reservas : option (list Atleta.t)) (st : Estado)
  : list Atleta.t * option (list Atleta.t) * Estado * Fim :=
  match atletas with
  | [] => ([], reservas, st, Segue)
  | atleta :: resto =>
      match corpo_atleta teste parciais partidas atleta reservas st with
      | (atleta', reservas', st', Excecao e) =>
          (atleta' :: resto, reservas', st', Excecao e)
      | (atleta', reservas', st', Segue) =>
          let '(resto', reservas'', st'', fim) :=
            laco_atletas teste parciais partidas resto reservas' st' in
          (atleta' :: resto', reservas'', st'', fim)
      end
  end.

(** Lines 469-473: the state at the start of the loop. *)
Definition estado_inicial : Estado := MkEstado 0 0 false [].

Definition grava (t : Time.t) (atletas : list Atleta.t)
           (reservas : option (list Atleta.t)) (st : Estado) : Time.t :=
  Time.Build (Time.patrimonio t) (Time.valor_time t) (Time.ultima_pontuacao t)
             atletas reservas (Some (time_pontos st)) (Time.rodada_atual t)
             (Some (time_jogados st)).

Definition mensagem_invalido : string := "Time ou parciais não são válidos.".

(** [return time] after the loop, or the exception that left it. *)
Definition desfecho_de (fim : Fim) : Desfecho :=
  match fim with
  | Segue => Retorna
  | Excecao e => Levanta e
  end.

(** [Api._calculate_parcial(time, parciais)] with [teste] left at its
    default [_teste]. *)
Definition _calculate_parcial (time : Objeto) (parciais : gmap Chave Valor)
           (partidas : list Partida.t) : Desfecho * Objeto :=
  if parciais_invalidos parciais || negb (isinstance_Time time) then
    (Levanta (CartolaFCError mensagem_invalido), time)
  else
    match time with
    | OOutro => (Levanta (CartolaFCError mensagem_invalido), time)
    | OTime t =>
        let '(atletas', reservas', st, fim) :=
          laco_atletas _teste parciais partidas (Time.atletas t) (Time.reservas t)
                       estado_inicial in
        (desfecho_de fim, OTime (grava t atletas' reservas' st))
    end.

(** ** The second pipeline

    [Api._calculate_parcial_2(time, parciais_2)] is a second copy of the
    same text, with [teste] left at its default [_teste_2].  Its loops are
    embedded on their own, from lines 546-629, with the bodies and the
    arithmetic written out in place. *)

Module Parcial2.

(** Lines 581-592. *)
Fixpoint laco_partidas (clube : ClubeRef) (partidas : list Partida.t)
         (jogo_finalizou : bool) : Erro + bool :=
  match partidas with
  | [] => inr jogo_finalizou
  | partida :: resto =>
      match clube with
      | ClubeVazio => laco_partidas clube resto jogo_finalizou
      | ClubeNone => inl AttributeError
      | ClubeDe c =>
          if bool_decide (Clube.nome c = Clube.nome (Partida.clube_casa partida))
             || bool_decide (Clube.nome c = Clube.nome (Partida.clube_visitante partida))
          then
            if (bool_decide (Partida.fim_de_jogo partida = "veja como foi"%string)
                || bool_decide (Partida.status_transmissao_tr partida
                                = "ENCERRADA"%string))
               || negb (Partida.valida partida)
            then laco_partidas clube resto true
            else laco_partidas clube resto false
          else laco_partidas clube resto jogo_finalizou
      end
  end.

(** Lines 595-622. *)
Fixpoint laco_reservas (parciais_2 : gmap Chave Valor) (atleta : Atleta.t)
         (jogo_finalizou : bool) (reservas : list Atleta.t) (st : Estado)
  : list Atleta.t * Estado * Fim :=
  match reservas with
  | [] => ([], st, Segue)
  | reserva0 :: resto =>
      let reserva_parcial := dict_get parciais_2 (Atleta.id reserva0) in
      let reserva := atualiza_reserva reserva0 reserva_parcial in
      if negb (truthy (Atleta.entrou_em_campo atleta)) then
        let st := com_foundRes st false in
        if bool_decide (Posicao.nome (Atleta.posicao atleta) ∈ reserva_usado st) then
          (reserva :: resto, st, Segue)
        else
          match
            (if truthy (Atleta.is_capitao atleta)
                && bool_decide (Posicao.nome (Atleta.posicao atleta)
                                = Posicao.nome (Atleta.posicao reserva))
                && jogo_finalizou
             then match Atleta.pontos reserva with
                  | Some v => inr (com_pontos st (time_pontos st + v)%float)
                  | None => inl TypeError
                  end
             else inr st)
          with
          | inl e => (reserva :: resto, st, Excecao e)
          | inr st =>
              if bool_decide (Posicao.nome (Atleta.posicao atleta)
                              = Posicao.nome (Atleta.posicao reserva))
                 && negb (foundRes st) && jogo_finalizou
              then
                match Atleta.pontos reserva with
                | None => (reserva :: resto, st, Excecao TypeError)
                | Some v =>
                    if (0.1 <=? v)%float then
                      let st := com_pontos st (time_pontos st + v)%float in
                      let st := com_foundRes st true in
                      let st := com_reserva_usado st
                                  (reserva_usado st
                                   ++ [Posicao.nome (Atleta.posicao reserva)]) in
                      (reserva :: resto, st, Segue)
                    else
                      let '(resto', st', fim) :=
                        laco_reservas parciais_2 atleta jogo_finalizou resto st in
                      (reserva :: resto', st', fim)
                end
              else
                let '(resto', st', fim) :=
                  laco_reservas parciais_2 atleta jogo_finalizou resto st in
                (reserva :: resto', st', fim)
          end
      else
        (reserva :: resto, st, Segue)
  end.

(** Lines 560-627. *)
Fixpoint laco_atletas (teste : gmap Chave Valor -> Z -> option Valor)
         (parciais_2 : gmap Chave Valor) (partidas : list Partida.t)
         (atletas : list Atleta.t) (reservas : option (list Atleta.t)) (st : Estado)
  : list Atleta.t * option (list Atleta.t) * Estado * Fim :=
  match atletas with
  | [] => ([], reservas, st, Segue)
  | atleta0 :: resto =>
      let atleta_parcial_2 := teste parciais_2 (Atleta.id atleta0) in
      let tem_parcial := isinstance_Atleta atleta_parcial_2 in
      let atleta := atualiza_atleta atleta0 atleta_parcial_2 in
      let st := com_jogados st (time_jogados st + (if tem_parcial then 1 else 0)) in
      match laco_partidas (Atleta.clube atleta) partidas false with
      | inl e => (atleta :: resto, reservas, st, Excecao e)
      | inr jogo_finalizou =>
          let '(reservas', st, fim) :=
            match reservas with
            | None => (None, st, Segue)
            | Some [] => (Some [], st, Segue)
            | Some rs =>
                let '(rs', st', fim) :=
                  laco_reservas parciais_2 atleta jogo_finalizou rs st in
                (Some rs', st', fim)
            end in
          match fim with
          | Excecao e => (atleta :: resto, reservas', st, Excecao e)
          | Segue =>
              if truthy (Atleta.is_capitao atleta) then
                match Atleta.pontos atleta with
                | None => (atleta :: resto, reservas', st, Excecao TypeError)
                | Some v =>
                    let atleta := com_pontos_atleta atleta (Some (v * 1.5)%float) in
                    let st := com_pontos st (time_pontos st + (v * 1.5))%float in
                    let '(resto', reservas'', st'', fim) :=
                      laco_atletas teste parciais_2 partidas resto reservas' st in
                    (atleta :: resto', reservas'', st'', fim)
                end
              else
                match Atleta.pontos atleta with
                | None => (atleta :: resto, reservas', st, Excecao TypeError)
                | Some v =>
                    let st := com_pontos st (time_pontos st + v)%float in
                    let '(resto', reservas'', st'', fim) :=
                      laco_atletas teste parciais_2 partidas resto reservas' st in
                    (atleta :: resto', reservas'', st'', fim)
                end
          end
      end
  end.

End Parcial2.

Definition _calculate_parcial_2 (time : Objeto) (parciais_2 : gmap Chave Valor)
           (partidas : list Partida.t) : Desfecho * Objeto :=
  if parciais_invalidos parciais_2 || negb (isinstance_Time time) then
    (Levanta (CartolaFCError mensagem_invalido), time)
  else
    match time with
    | OOutro => (Levanta (CartolaFCError mensagem_invalido), time)
    | OTime t =>
        let '(atletas', reservas', st, fim) :=
          Parcial2.laco_atletas _teste_2 parciais_2 partidas
                                (Time.atletas t) (Time.reservas t)
                                (MkEstado 0 0 false []) in
        (match fim with Segue => Retorna | Excecao e => Levanta e end,
         OTime (Time.Build (Time.patrimonio t) (Time.valor_time t)
                           (Time.ultima_pontuacao t) atletas' reservas'
                           (Some (time_pontos st)) (Time.rodada_atual t)
                           (Some (time_jogados st))))
    end.

(** ** The pass with a register of its credits

    The same loops, which in addition write down every execution of
    [time.pontos += reserva.pontos] (lines 527 and 531) that adds a
    number: for which starter, at which position, from which reserve, how
    much, and whether it is the credit of line 531, which records the
    position in [reserva_usado].  [laco_atletas_reg_apaga] below shows
    that dropping the register gives back the loops above. *)

Record Credito := MkCredito {
  cr_titular : Z;
  cr_posicao : string;
  cr_reserva : Z;
  cr_pontos : float;
  cr_marca : bool
}.

(** The number that [total += x] adds when it does not raise. *)
Definition parcela (x : Pontos) : float := default 0%float x.

Definition corpo_reserva_reg (parciais : gmap Chave Valor) (atleta : Atleta.t)
           (jogo_finalizou : bool) (reserva0 : Atleta.t) (st : Estado)
  : Atleta.t * Estado * Controle * list Credito :=
  let reserva_parcial := dict_get parciais (Atleta.id reserva0) in
  let reserva := atualiza_reserva reserva0 reserva_parcial in
  let credito := MkCredito (Atleta.id atleta) (Posicao.nome (Atleta.posicao reserva))
                           (Atleta.id reserva) (parcela (Atleta.pontos reserva)) in
  if negb (truthy (Atleta.entrou_em_campo atleta)) then
    let st := com_foundRes st false in
    if bool_decide (Posicao.nome (Atleta.posicao atleta) ∈ reserva_usado st) then
      (reserva, st, Break, [])
    else
      match
        (if truthy (Atleta.is_capitao atleta)
            && bool_decide (Posicao.nome (Atleta.posicao atleta)
                            = Posicao.nome (Atleta.posicao reserva))
            && jogo_finalizou
         then match mais_igual (time_pontos st) (Atleta.pontos reserva) with
              | inl e => inl e
              | inr p => inr (com_pontos st p, [credito false])
              end
         else inr (st, []))
      with
      | inl e => (reserva, st, Raise e, [])
      | inr (st, reg) =>
          match
            (if bool_decide (Posicao.nome (Atleta.posicao atleta)
                             = Posicao.nome (Atleta.posicao reserva))
                && negb (foundRes st) && jogo_finalizou
             then maior_igual (Atleta.pontos reserva) 0.1
             else inr false)
          with
          | inl e => (reserva, st, Raise e, reg)
          | inr false => (reserva, st, Proximo, reg)
          | inr true =>
              match mais_igual (time_pontos st) (Atleta.pontos reserva) with
              | inl e => (reserva, st, Raise e, reg)
              | inr p =>
                  let st := com_pontos st p in
                  let st := com_foundRes st true in
                  let st := com_reserva_usado st
                              (reserva_usado st
                               ++ [Posicao.nome (Atleta.posicao reserva)]) in
                  (reserva, st, Break, reg ++ [credito true])
              end
          end
      end
  else
    (reserva, st, Break, []).

Fixpoint laco_reservas_reg (parciais : gmap Chave Valor) (atleta : Atleta.t)
         (jogo_finalizou : bool) (reservas : list Atleta.t) (st : Estado)
  : list Atleta.t * Estado * Fim * list Credito :=
  match reservas with
  | [] => ([], st, Segue, [])
  | reserva0 :: resto =>
      match corpo_reserva_reg parciais atleta jogo_finalizou reserva0 st with
      | (reserva, st, Proximo, reg) =>
          let '(resto', st', fim, reg') :=
            laco_reservas_reg parciais atleta jogo_finalizou resto st in
          (reserva :: resto', st', fim, reg ++ reg')
      | (reserva, st, Break, reg) => (reserva :: resto, st, Segue, reg)
      | (reserva, st, Raise e, reg) => (reserva :: resto, st, Excecao e, reg)
      end
  end.

Definition se_reservas_reg (parciais : gmap Chave Valor) (atleta : Atleta.t)
           (jogo_finalizou : bool) (reservas : option (list Atleta.t)) (st : Estado)
  : option (list Atleta.t) * Estado * Fim * list Credito :=
  match reservas with
  | None => (None, st, Segue, [])
  | Some [] => (Some [], st, Segue, [])
  | Some rs =>
      let '(rs', st', fim, reg) :=
        laco_reservas_reg parciais atleta jogo_finalizou rs st in
      (Some rs', st', fim, reg)
  end.

Definition corpo_atleta_reg (teste : gmap Chave Valor -> Z -> option Valor)
           (parciais : gmap Chave Valor) (partidas : list Partida.t)
           (atleta0 : Atleta.t) (reservas : option (list Atleta.t)) (st : Estado)
  : Atleta.t * option (list Atleta.t) * Estado * Fim * list Credito :=
  let atleta_parcial := teste parciais (Atleta.id atleta0) in
  let tem_parcial := isinstance_Atleta atleta_parcial in
  let atleta := atualiza_atleta atleta0 atleta_parcial in
  let st := com_jogados st (time_jogados st + (if tem_parcial then 1 else 0)) in
  match jogo_finalizou (Atleta.clube atleta) partidas with
  | inl e => (atleta, reservas, st, Excecao e, [])
  | inr jogo_finalizou =>
      match se_reservas_reg parciais atleta jogo_finalizou reservas st with
      | (reservas', st, Excecao e, reg) => (atleta, reservas', st, Excecao e, reg)
      | (reservas', st, Segue, reg) =>
          match (if truthy (Atleta.is_capitao atleta)
                 then vezes_capitao atleta
                 else inr atleta) with
          | inl e => (atleta, reservas', st, Excecao e, reg)
          | inr atleta =>
              match mais_igual (time_pontos st) (Atleta.pontos atleta) with
              | inl e => (atleta, reservas', st, Excecao e, reg)
              | inr p => (atleta, reservas', com_pontos st p, Segue, reg)
              end
          end
      end
  end.

Fixpoint laco_atletas_reg (teste : gmap Chave Valor -> Z -> option Valor)
         (parciais : gmap Chave Valor) (partidas : list Partida.t)
         (atletas : list Atleta.t) (reservas : option (list Atleta.t)) (st : Estado)
  : list Atleta.t * option (list Atleta.t) * Estado * Fim * list Credito :=
  match atletas with
  | [] => ([], reservas, st, Segue, [])
  | atleta :: resto =>
      match corpo_atleta_reg teste parciais partidas atleta reservas st with
      | (atleta', reservas', st', Excecao e, reg) =>
          (atleta' :: resto, reservas', st', Excecao e, reg)
      | (atleta', reservas', st', Segue, reg) =>
          let '(resto', reservas'', st'', fim, reg') :=
            laco_atletas_reg teste parciais partidas resto reservas' st' in
          (atleta' :: resto', reservas'', st'', fim, reg ++ reg')
      end
  end.

(** The credits of one call of [_calculate_parcial]; none when the call
    raises at the check. *)
Definition creditos_do_passe (time : Objeto) (parciais : gmap Chave Valor)
           (partidas : list Partida.t) : list Credito :=
  if parciais_invalidos parciais || negb (isinstance_Time time) then []
  else
    match time with
    | OOutro => []
    | OTime t =>
        (laco_atletas_reg _teste parciais partidas (Time.atletas t) (Time.reservas t)
                          estado_inicial).2
    end.

(** The credits added to a total one after the other, in the order of the
    register and with the rounding of each addition. *)
Definition soma_em (total : float) (reg : list Credito) : float :=
  fold_left (fun t c => (t + cr_pontos c)%float) reg total.

(** ** The rules of the specification

    The operations as the specification words them (sections 4.2 to 4.4),
    to compare the loops above with.  A position is identified by its
    name, the finished signal of a match is its pair of transmission
    fields, and the set of positions already substituted is a finite
    set.  The points to add are kept as the list of the amounts, in the
    order in which they are credited, because the sum of floats depends
    on the order; a live score that is null counts as 0, which is the
    score of a player without live update (section 3). *)

Module Spec.

(** Section 4.2: a match references the club when its home or away club
    is the given club. *)
Definition referencesClub (club : Clube.t) (m : Partida.t) : bool :=
  bool_decide (Clube.nome club = Clube.nome (Partida.clube_casa m))
  || bool_decide (Clube.nome club = Clube.nome (Partida.clube_visitante m)).

Definition signalFinished (m : Partida.t) : bool :=
  bool_decide (Partida.fim_de_jogo m = "veja como foi"%string)
  || bool_decide (Partida.status_transmissao_tr m = "ENCERRADA"%string).

(** Section 4.2: false for an unresolved or empty club or when no match
    references the club; otherwise the last referencing match decides. *)
Definition isMatchFinished (club : ClubeRef) (matches : list Partida.t) : bool :=
  match club with
  | ClubeVazio => false
  | ClubeNone => false
  | ClubeDe c =>
      match last (List.filter (referencesClub c) matches) with
      | None => false
      | Some m => signalFinished m || negb (Partida.valida m)
      end
  end.

(** The live score of a record as a number. *)
Definition score (r : Atleta.t) : float := default 0%float (Atleta.pontos r).

(** Section 4.3, rule 2: the scan of the reserves for a starter who did
    not enter play and whose position is still free.  The result is the
    points to add and whether the position was marked. *)
Fixpoint scanReserves (captain matchFinished : bool) (position : string)
         (reserves : list Atleta.t) : list float * bool :=
  match reserves with
  | [] => ([], false)
  | r :: rest =>
      if bool_decide (position = Posicao.nome (Atleta.posicao r)) then
        let a := if captain && matchFinished then [score r] else [] in
        if matchFinished && (0.1 <=? score r)%float then
          (a ++ [score r], true)
        else
          let '(q, m) := scanReserves captain matchFinished position rest in
          (a ++ q, m)
      else scanReserves captain matchFinished position rest
  end.

(** Section 4.3: [resolveSubstitution]. *)
Definition resolveSubstitution (starter : Atleta.t) (reserves : list Atleta.t)
           (matchFinished : bool) (positionsAlreadySubstituted : gset string)
  : list float * option string :=
  let position := Posicao.nome (Atleta.posicao starter) in
  if truthy (Atleta.entrou_em_campo starter) then ([], None)
  else if bool_decide (position ∈ positionsAlreadySubstituted) then ([], None)
  else
    let '(q, m) := scanReserves (truthy (Atleta.is_capitao starter)) matchFinished
                                position reserves in
    (q, if m then Some position else None).

(** Section 4.1: [get(id) -> Player | absent]. *)
Definition liveRecord (liveFeed : gmap Chave Valor) (id : Z) : option Atleta.t :=
  match liveFeed !! KInt id with
  | Some (VAtleta a) => Some a
  | _ => None
  end.

(** The live score as the feed has it (possibly null), 0 without a
    record; and as a number. *)
Definition liveValue (liveFeed : gmap Chave Valor) (id : Z) : Pontos :=
  match liveRecord liveFeed id with
  | Some a => Atleta.pontos a
  | None => Some 0%float
  end.

Definition liveScore (liveFeed : gmap Chave Valor) (id : Z) : float :=
  default 0%float (liveValue liveFeed id).

(** The entered-play flag as the feed has it, false without a record; and
    as a truth value. *)
Definition liveFlag (liveFeed : gmap Chave Valor) (id : Z) : option bool :=
  match liveRecord liveFeed id with
  | Some a => Atleta.entrou_em_campo a
  | None => Some false
  end.

Definition enteredPlay (liveFeed : gmap Chave Valor) (id : Z) : bool :=
  truthy (liveFlag liveFeed id).

Definition liveScout (liveFeed : gmap Chave Valor) (id : Z) : Scout :=
  match liveRecord liveFeed id with
  | Some a => Atleta.scout a
  | None => ScoutDict ∅
  end.

Definition liveName (liveFeed : gmap Chave Valor) (id : Z) : string :=
  match liveRecord liveFeed id with
  | Some a => Atleta.apelido a
  | None => ""%string
  end.

(** Section 4.4, step 2a: display name, live score, scout breakdown and
    entered-play flag are copied from the feed, or cleared. *)
Definition liveStarter (liveFeed : gmap Chave Valor) (s : Atleta.t) : Atleta.t :=
  Atleta.Build (Atleta.id s) (Atleta.apelido s)
               (Some (liveName liveFeed (Atleta.id s)))
               (liveValue liveFeed (Atleta.id s))
               (liveScout liveFeed (Atleta.id s))
               (Atleta.posicao s) (liveFlag liveFeed (Atleta.id s))
               (Atleta.clube s) (Atleta.is_capitao s).

(** Section 4.4, step 2c: live score and scout of a reserve are refreshed
    from the feed. *)
Definition liveReserve (liveFeed : gmap Chave Valor) (r : Atleta.t) : Atleta.t :=
  Atleta.Build (Atleta.id r) (Atleta.apelido r) (Atleta.nome r)
               (liveValue liveFeed (Atleta.id r))
               (liveScout liveFeed (Atleta.id r))
               (Atleta.posicao r) (Atleta.entrou_em_campo r)
               (Atleta.clube r) (Atleta.is_capitao r).

(** Section 4.4, steps 2e and 2f: the starter's live score, times 1.5
    for the captain. *)
Definition ownScore (liveFeed : gmap Chave Valor) (s : Atleta.t) : float :=
  if truthy (Atleta.is_capitao s)
  then (liveScore liveFeed (Atleta.id s) * 1.5)%float
  else liveScore liveFeed (Atleta.id s).

(** Amounts added to a total one after the other. *)
Definition addAll (total : float) (amounts : list float) : float :=
  fold_left (fun t x => (t + x)%float) amounts total.

(** Section 4.4, step 2d over the whole starter loop: the credits of
    section 4.3, with the set of substituted positions growing. *)
Fixpoint substitutionCredits (liveFeed : gmap Chave Valor) (matches : list Partida.t)
         (reserves : list Atleta.t) (starters : list Atleta.t)
         (positionsAlreadySubstituted : gset string) : list float :=
  match starters with
  | [] => []
  | s :: rest =>
      let '(q, m) :=
        resolveSubstitution (liveStarter liveFeed s)
                            (map (liveReserve liveFeed) reserves)
                            (isMatchFinished (Atleta.clube s) matches)
                            positionsAlreadySubstituted in
      q ++ substitutionCredits liveFeed matches reserves rest
             (match m with
              | Some p => {[p]} ∪ positionsAlreadySubstituted
              | None => positionsAlreadySubstituted
              end)
  end.

(** Section 4.4, steps 2d to 2f over the whole starter loop: for each
    starter in stored order the credits of section 4.3 and then the
    starter's own score are added to the running total. *)
Fixpoint teamTotal (liveFeed : gmap Chave Valor) (matches : list Partida.t)
         (reserves : list Atleta.t) (starters : list Atleta.t)
         (positionsAlreadySubstituted : gset string) (total : float) : float :=
  match starters with
  | [] => total
  | s :: rest =>
      let '(q, m) :=
        resolveSubstitution (liveStarter liveFeed s)
                            (map (liveReserve liveFeed) reserves)
                            (isMatchFinished (Atleta.clube s) matches)
                            positionsAlreadySubstituted in
      teamTotal liveFeed matches reserves rest
                (match m with
                 | Some p => {[p]} ∪ positionsAlreadySubstituted
                 | None => positionsAlreadySubstituted
                 end)
                (addAll total q + ownScore liveFeed s)%float
  end.

(** The starters' own scores added to a total in stored order. *)
Definition addOwnScores (liveFeed : gmap Chave Valor) (total : float)
           (starters : list Atleta.t) : float :=
  fold_left (fun t s => (t + ownScore liveFeed s)%float) starters total.

(** Section 4.4: the starters with a live-feed entry. *)
Definition countPlayed (liveFeed : gmap Chave Valor) (starters : list Atleta.t) : Z :=
  Z.of_nat (length (List.filter
                      (fun s => bool_decide (is_Some (liveFeed !! KInt (Atleta.id s))))
                      starters)).

(** Section 4.1: every key is an integer and every value a Player. *)
Definition wellFormedFeed (liveFeed : gmap Chave Valor) : Prop :=
  forall k v, liveFeed !! k = Some v ->
              (exists z, k = KInt z) /\ (exists a, v = VAtleta a).

End Spec.

(** ** Notions used by the statements *)

(** No record of the feed has a null score. *)
Definition feed_sem_nulo (parciais : gmap Chave Valor) : Prop :=
  forall k a, parciais !! k = Some (VAtleta a) -> is_Some (Atleta.pontos a).

(** The same as a test. *)
Definition feed_sem_nulo_b (parciais : gmap Chave Valor) : bool :=
  forallb (fun kv => match kv.2 with
                     | VAtleta a => match Atleta.pontos a with
                                    | Some _ => true
                                    | None => false
                                    end
                     | VOutro => true
                     end)
          (map_to_list parciais).

(** No starter has a club that is [None], unless there is no match to
    scan. *)
Definition clubes_resolvidos (atletas : list Atleta.t) (partidas : list Partida.t)
  : Prop :=
  partidas = [] \/ Forall (fun a => Atleta.clube a <> ClubeNone) atletas.

(** What one credit of the register says about the iteration that made
    it: the starter and its position, the raw live score of the reserve,
    the branch, and the conditions under which the code reaches either
    credit. *)
Definition credito_de (parciais : gmap Chave Valor) (atleta : Atleta.t)
           (jf : bool) (usado : list string) (c : Credito) : Prop :=
  cr_titular c = Atleta.id atleta
  /\ cr_posicao c = Posicao.nome (Atleta.posicao atleta)
  /\ Spec.liveValue parciais (cr_reserva c) = Some (cr_pontos c)
  /\ cr_pontos c = Spec.liveScore parciais (cr_reserva c)
  /\ (cr_marca c = false -> truthy (Atleta.is_capitao atleta) = true)
  /\ (cr_marca c = true -> (0.1 <=? cr_pontos c)%float = true)
  /\ truthy (Atleta.entrou_em_campo atleta) = false
  /\ jf = true
  /\ Posicao.nome (Atleta.posicao atleta) ∉ usado.

(** The starter as one complete iteration of the loop leaves it. *)
Definition atleta_final (parciais : gmap Chave Valor) (atleta0 : Atleta.t) : Atleta.t :=
  let atleta := atualiza_atleta atleta0 (_teste parciais (Atleta.id atleta0)) in
  if truthy (Atleta.is_capitao atleta)
  then match vezes_capitao atleta with
       | inr a => a
       | inl _ => atleta
       end
  else atleta.

(** The starters counted by [time.jogados += 1 if tem_parcial else 0]. *)
Definition conta_parciais (parciais : gmap Chave Valor) (atletas : list Atleta.t) : Z :=
  Z.of_nat (length (List.filter
                      (fun a => isinstance_Atleta (_teste parciais (Atleta.id a)))
                      atletas)).

(** No credit for a position follows a credit that recorded it. *)
Fixpoint sem_credito_depois (reg : list Credito) : Prop :=
  match reg with
  | [] => True
  | c :: resto =>
      (cr_marca c = true -> Forall (fun c' => cr_posicao c' <> cr_posicao c) resto)
      /\ sem_credito_depois resto
  end.

(** A credit of the register comes from an iteration for one of the
    starters. *)
Definition credito_do_passe (parciais : gmap Chave Valor) (partidas : list Partida.t)
           (atletas : list Atleta.t) (c : Credito) : Prop :=
  exists a, a ∈ atletas
            /\ credito_de parciais (Spec.liveStarter parciais a)
                          (Spec.isMatchFinished (Atleta.clube a) partidas) [] c.

(** "At most one reserve is credited per starter position": two credits
    of the register for one position are credits of one reserve. *)
Definition um_reserva_por_posicao (reg : list Credito) : Prop :=
  forall c1 c2, c1 ∈ reg -> c2 ∈ reg ->
                cr_posicao c1 = cr_posicao c2 -> cr_reserva c1 = cr_reserva c2.

(** The home or away club of the match has the name of the club (the
    comparison of lines 499-500). *)
Definition clube_joga (c : Clube.t) (p : Partida.t) : Prop :=
  Clube.nome c = Clube.nome (Partida.clube_casa p)
  \/ Clube.nome c = Clube.nome (Partida.clube_visitante p).

(** [time.pontos] and [time.jogados] of the object, when it is a [Time]. *)
Definition pontos_de (o : Objeto) : option Pontos :=
  match o with OTime t => Some (Time.pontos t) | OOutro => None end.

Definition jogados_de (o : Objeto) : option Z :=
  match o with OTime t => Time.jogados t | OOutro => None end.

(** The roster with other values in [time.pontos] and [time.jogados]. *)
Definition com_contadores (t : Time.t) (p : Pontos) (j : option Z) : Time.t :=
  Time.Build (Time.patrimonio t) (Time.valor_time t) (Time.ultima_pontuacao t)
             (Time.atletas t) (Time.reservas t) p (Time.rodada_atual t) j.

(** What a pass never writes: of a starter the id, the nickname, the
    position, the club and the captain flag; of a reserve everything but
    [pontos] and [scout]. *)
Definition ficha_titular (a : Atleta.t)
  : Z * string * Posicao.t * ClubeRef * option bool :=
  (Atleta.id a, Atleta.apelido a, Atleta.posicao a, Atleta.clube a, Atleta.is_capitao a).

Definition ficha_reserva (r : Atleta.t)
  : Z * string * option string * Posicao.t * option bool * ClubeRef * option bool :=
  (Atleta.id r, Atleta.apelido r, Atleta.nome r, Atleta.posicao r,
   Atleta.entrou_em_campo r, Atleta.clube r, Atleta.is_capitao r).

Definition fichas (o : Objeto) :=
  match o with
  | OOutro => None
  | OTime t =>
      Some (Time.patrimonio t, Time.valor_time t, Time.ultima_pontuacao t,
            Time.rodada_atual t,
            map ficha_titular (Time.atletas t),
            option_map (map ficha_reserva) (Time.reservas t))
  end.

(** What a pass reads of a reserve: the id, under which the feed is
    asked, and the position. *)
Definition chave_reserva (r : Atleta.t) : Z * Posicao.t :=
  (Atleta.id r, Atleta.posicao r).

(** The bench with its first [k] reserves refreshed from the feed and the
    others as they were. *)
Definition reservas_ate (parciais : gmap Chave Valor) (k : nat) (rs : list Atleta.t)
  : list Atleta.t :=
  map (Spec.liveReserve parciais) (take k rs) ++ drop k rs.

(** The two credits that the scan of the bench can make for a starter
    from a reserve: that of line 527, which records nothing, and that of
    line 531, which records the position. *)
Definition credito_capitao (parciais : gmap Chave Valor) (atleta x : Atleta.t) : Credito :=
  MkCredito (Atleta.id atleta) (Posicao.nome (Atleta.posicao x)) (Atleta.id x)
            (Spec.liveScore parciais (Atleta.id x)) false.

Definition credito_marcado (parciais : gmap Chave Valor) (atleta x : Atleta.t) : Credito :=
  MkCredito (Atleta.id atleta) (Posicao.nome (Atleta.posicao x)) (Atleta.id x)
            (Spec.liveScore parciais (Atleta.id x)) true.

Definition mesma_posicao (atleta x : Atleta.t) : bool :=
  bool_decide (Posicao.nome (Atleta.posicao atleta) = Posicao.nome (Atleta.posicao x)).

(** A reserve that the scan for [atleta] passes over without recording a
    substitution: another position, or a live score (a number) below
    0.1; and, for the scan of a match that is over, a reserve of the
    position of the starter has a number as live score. *)
Definition nao_substitui (parciais : gmap Chave Valor) (atleta x : Atleta.t) : Prop :=
  Posicao.nome (Atleta.posicao atleta) <> Posicao.nome (Atleta.posicao x)
  \/ exists v, Spec.liveValue parciais (Atleta.id x) = Some v
               /\ (0.1 <=? v)%float = false.

(** ** Sample rounds

    Concrete rosters, feeds and match lists on which the statements below
    are evaluated. *)

Module Exemplo.

Definition atacante : Posicao.t := Posicao.Build 5 "Atacante" "ATA".
Definition meia : Posicao.t := Posicao.Build 4 "Meia" "MEI".

Definition flamengo : Clube.t := Clube.Build 262 "Flamengo" "FLA".
Definition botafogo : Clube.t := Clube.Build 263 "Botafogo" "BOT".
Definition palmeiras : Clube.t := Clube.Build 275 "Palmeiras" "PAL".
Definition santos : Clube.t := Clube.Build 277 "Santos" "SAN".

(** A finished match and one that is being played. *)
Definition encerrada : Partida.t :=
  Partida.Build "Maracana" true flamengo (Some 2) botafogo (Some 1)
                "veja como foi" "ENCERRADA".

Definition em_andamento : Partida.t :=
  Partida.Build "Allianz Parque" true palmeiras None santos None
                "acompanhe" "EM_ANDAMENTO".

Definition rodada : list Partida.t := [encerrada; em_andamento].

(** An athlete of a roster, as [Time.from_dict] builds it; [pontos] is the
    score of the payload. *)
Definition escalado (id : Z) (apelido : string) (posicao : Posicao.t) (clube : Clube.t)
           (capitao : bool) (pontos : float) : Atleta.t :=
  Atleta.Build id apelido None (Some pontos) ScoutStr posicao (Some false)
               (ClubeDe clube) (Some capitao).

(** An athlete of the feed, as [Api.parciais] builds it. *)
Definition pontuado (id : Z) (apelido : string) (posicao : Posicao.t) (clube : Clube.t)
           (pontos : float) (entrou : bool) : Valor :=
  VAtleta (Atleta.Build id apelido None (Some pontos) (ScoutDict {["DS" := 1]}) posicao
                        (Some entrou) (ClubeDe clube) None).

Definition time_de (atletas : list Atleta.t) (reservas : option (list Atleta.t)) : Time.t :=
  Time.Build 120 110 55.5 atletas reservas (Some 812.3%float) 7 None.

(** Scenario 6 of section 8 of the specification: a captain forward with
    live score 8.0 who did not enter play, his match finished, and a
    reserve forward with live score 4.0. *)
Definition parciais_capitao : gmap Chave Valor :=
  <[KInt 1 := pontuado 1 "Pedro" atacante flamengo 8 false]>
    (<[KInt 2 := pontuado 2 "Tiquinho" atacante botafogo 4 true]> ∅).

Definition time_capitao : Time.t :=
  time_de [escalado 1 "Pedro" atacante flamengo true 3.2]
          (Some [escalado 2 "Tiquinho" atacante botafogo false 6.1]).

(** A captain forward without live data whose match is finished, and two
    reserve forwards: the first with a negative live score, the second
    with 3.0. *)
Definition parciais_dois_reservas : gmap Chave Valor :=
  <[KInt 2 := pontuado 2 "Tiquinho" atacante botafogo (-1) true]>
    (<[KInt 3 := pontuado 3 "Gabigol" atacante flamengo 3 true]> ∅).

Definition time_dois_reservas : Time.t :=
  time_de [escalado 1 "Pedro" atacante flamengo true 3.2]
          (Some [escalado 2 "Tiquinho" atacante botafogo false 6.1;
                 escalado 3 "Gabigol" atacante flamengo false 2.4]).

(** A forward who entered play, and two reserves who both have live
    data. *)
Definition parciais_entrou : gmap Chave Valor :=
  <[KInt 1 := pontuado 1 "Pedro" atacante flamengo 8 true]>
    (<[KInt 2 := pontuado 2 "Savarino" meia botafogo 4 true]>
       (<[KInt 3 := pontuado 3 "Tiquinho" atacante botafogo 5 true]> ∅)).

Definition time_entrou : Time.t :=
  time_de [escalado 1 "Pedro" atacante flamengo false 3.2]
          (Some [escalado 2 "Savarino" meia botafogo false 6.1;
                 escalado 3 "Tiquinho" atacante botafogo false 9]).

(** A forward and a midfielder without live data, their match finished,
    and one reserve for each position. *)
Definition parciais_duas_posicoes : gmap Chave Valor :=
  <[KInt 3 := pontuado 3 "Tiquinho" atacante botafogo 5 true]>
    (<[KInt 4 := pontuado 4 "Savarino" meia botafogo 4 true]> ∅).

Definition time_duas_posicoes : Time.t :=
  time_de [escalado 1 "Arrascaeta" meia flamengo false 3.2;
           escalado 2 "Pedro" atacante flamengo false 1.1]
          (Some [escalado 4 "Savarino" meia botafogo false 6.1;
                 escalado 3 "Tiquinho" atacante botafogo false 9]).

(** The same starters without a bench. *)
Definition time_sem_reservas : Time.t :=
  time_de [escalado 1 "Pedro" atacante flamengo true 3.2;
           escalado 2 "Savarino" meia botafogo false 1.1]
          None.

(** A feed with the [str] keys and plain dict values of the JSON file, as
    [time_parcial_2] hands it on. *)
Definition parciais_json : gmap Chave Valor :=
  <[KStr "1" := VOutro]> (<[KStr "2" := VOutro]> ∅).

(** Two matches of one club in the list: the finished one first. *)
Definition adiada : Partida.t :=
  Partida.Build "Nilton Santos" true botafogo None flamengo None
                "acompanhe" "CRIADA".

Definition rodada_repetida : list Partida.t := [encerrada; em_andamento; adiada].

(** A starter whose club [clubes.get] did not find, next to a starter of
    a club of the table. *)
Definition sem_clube : Atleta.t :=
  Atleta.Build 2 "Savarino" None (Some 1.1%float) ScoutStr meia (Some false)
               ClubeNone (Some false).

Definition time_sem_clube : Time.t :=
  time_de [escalado 1 "Pedro" atacante flamengo false 3.2; sem_clube] None.

(** A feed whose record for the midfielder has a null score. *)
Definition parciais_nulo : gmap Chave Valor :=
  <[KInt 1 := pontuado 1 "Pedro" atacante flamengo 8 true]>
    (<[KInt 2 := VAtleta (Atleta.Build 2 "Savarino" None None (ScoutDict ∅) meia
                                       (Some true) (ClubeDe botafogo) None)]> ∅).

(** Scores that are no binary fractions: a captain with 0.7 and a
    midfielder with 0.3, both on the field. *)
Definition parciais_decimais : gmap Chave Valor :=
  <[KInt 1 := pontuado 1 "Pedro" atacante flamengo 0.7 true]>
    (<[KInt 2 := pontuado 2 "Savarino" meia botafogo 0.3 true]> ∅).

End Exemplo.

Module Exemplo2.

(** A midfielder without live data whose match is being played, and two
    reserves with live data. *)
Definition parciais_em_jogo : gmap Chave Valor :=
  <[KInt 2 := Exemplo.pontuado 2 "Savarino" Exemplo.meia Exemplo.botafogo 4 true]>
    (<[KInt 3 := Exemplo.pontuado 3 "Tiquinho" Exemplo.atacante Exemplo.botafogo 5 true]> ∅).

Definition veiga : Atleta.t :=
  Exemplo.escalado 1 "Veiga" Exemplo.meia Exemplo.palmeiras false 3.2.

Definition time_em_jogo : Time.t :=
  Exemplo.time_de
    [veiga]
    (Some [Exemplo.escalado 2 "Savarino" Exemplo.meia Exemplo.botafogo false 6.1;
           Exemplo.escalado 3 "Tiquinho" Exemplo.atacante Exemplo.botafogo false 9]).

End Exemplo2.

Module Exemplo3.

(** The second starter and the bench of [Exemplo.time_duas_posicoes], and
    the state in which the first iteration leaves the pass. *)
Definition pedro : Atleta.t :=
  Exemplo.escalado 2 "Pedro" Exemplo.atacante Exemplo.flamengo false 1.1.

Definition savarino : Atleta.t :=
  Exemplo.escalado 4 "Savarino" Exemplo.meia Exemplo.botafogo false 6.1.

Definition tiquinho : Atleta.t :=
  Exemplo.escalado 3 "Tiquinho" Exemplo.atacante Exemplo.botafogo false 9.

Definition apos_o_meia : Estado := MkEstado 4 0 true ["Meia"%string].

(** The captain and the bench of [Exemplo.time_dois_reservas]. *)
Definition capitao : Atleta.t :=
  Exemplo.escalado 1 "Pedro" Exemplo.atacante Exemplo.flamengo true 3.2.

Definition reserva_negativo : Atleta.t :=
  Exemplo.escalado 2 "Tiquinho" Exemplo.atacante Exemplo.botafogo false 6.1.

Definition reserva_apto : Atleta.t :=
  Exemplo.escalado 3 "Gabigol" Exemplo.atacante Exemplo.flamengo false 2.4.

End Exemplo3.

Module Exemplo6.

(** The captain of [Exemplo.time_dois_reservas] with the first reserve
    only: the one credit of the pass is that of line 527. *)
Definition time_um_reserva : Time.t :=
  Exemplo.time_de [Exemplo3.capitao] (Some [Exemplo3.reserva_negativo]).

End Exemplo6.

(** ** [Api.time_parcial_2]

    Lines 414-441.  The market status that [self.mercado()] reports, the
    dict under ['atletas'] of the JSON file [static/dict_parciais.json],
    the roster that [self.time(time_id)] returns and the matches that
    [_calculate_parcial_2] fetches are parameters, and so is the constant
    [MERCADO_FECHADO] of constants.py.  The keys of a dict read by
    [json.loads] are [str] and its values are plain JSON values, none of
    them an [Atleta]. *)

(** The value passed as [parciais_2]: [None], a dict, or another object. *)
Inductive Argumento :=
| ArgNone
| ArgDict (d : gmap Chave Valor)
| ArgOutro.

Definition is_None (x : Argumento) : bool :=
  match x with ArgNone => true | _ => false end.

Definition mensagem_mercado : string :=
  "As pontuações parciais só ficam disponíveis com o mercado fechado.".

#[global] Instance KStr_inj : Inj (=) (=) KStr.
Proof. intros s1 s2 H. by injection H. Qed.

(** Lines 419-430: [parciais_2 = {}], then [parciais_2[key] = valor] for
    every item of the file. *)
Definition parciais_do_arquivo {J} (arquivo_atletas : gmap string J) : gmap Chave Valor :=
  kmap KStr ((fun _ : J => VOutro) <$> arquivo_atletas).

(** The result is the outcome and the state of the roster that
    [self.time(time_id)] returns; the guard of line 416 raises before the
    roster is asked for.  After line 420 [parciais_2] is a dict, so the
    [else] of line 439 is never taken. *)
Definition time_parcial_2 {J} (MERCADO_FECHADO : Z) (status_id : Z)
           (arquivo_atletas : gmap string J) (time : Time.t)
           (partidas : list Partida.t) (parciais_2 : Argumento) : Desfecho * Objeto :=
  if is_None parciais_2 && negb (status_id =? MERCADO_FECHADO) then
    (Levanta (CartolaFCError mensagem_mercado), OTime time)
  else
    let parciais_2 := parciais_do_arquivo arquivo_atletas in
    _calculate_parcial_2 (OTime time) parciais_2 partidas.

(** ** [Api.__init__] and [Api._request]

    Lines 48-74 and 631-671.  One HTTP exchange of [_request]
    ([requests.get] followed by [parse_and_check_cartolafc], which is in
    util.py) ends in one of three ways: parsed data, the overload error
    that the loop catches, or another exception.  The exchanges that the
    server would answer are given as a list, in order.  The Redis server
    is the map of the entries it holds at the time of the call;
    [json.dumps] followed by [json.loads] gives the data back, and an
    entry, being the output of [json.dumps], is never empty. *)

(** The [attempts] argument: an [int], or another object. *)
Inductive ArgInt :=
| AInt (n : Z)
| ANaoInt.

Module Api.
(** The attributes that [_request] reads: [_attempts], and whether
    [_redis] is a connection or [None]. *)
Record t := Build { _attempts : Z; _redis : bool }.
End Api.

(** Line 68 of [__init__]; [redis] tells whether [set_redis] left a
    connection. *)
Definition Api_init (attempts : ArgInt) (redis : bool) : Api.t :=
  Api.Build (match attempts with
             | AInt n => if 0 <? n then n else 1
             | ANaoInt => 1
             end)
            redis.

Inductive Resposta (D : Type) :=
| RDados (d : D)
| RSobrecarga
| RErro (e : string).
Arguments RDados {D} d.
Arguments RSobrecarga {D}.
Arguments RErro {D} e.

(** How [_request] ends: it returns data, it falls out of the loop and
    returns [None], it raises the overload error or another exception.
    [SemResposta] is not an end of the code: the list of exchanges was
    used up. *)
Inductive Saida (D : Type) :=
| Devolve (d : D)
| DevolveNone
| LevantaSobrecarga
| LevantaErro (e : string)
| SemResposta.
Arguments Devolve {D} d.
Arguments DevolveNone {D}.
Arguments LevantaSobrecarga {D}.
Arguments LevantaErro {D} e.
Arguments SemResposta {D}.

(** Lines 641-660: [while attempts:].  The result is the end of the loop
    and the exchanges that were not used. *)
Fixpoint laco_tentativas {D} (attempts : Z) (respostas : list (Resposta D))
  : Saida D * list (Resposta D) :=
  if attempts =? 0 then (DevolveNone, respostas)
  else
    match respostas with
    | [] => (SemResposta, [])
    | RDados d :: resto => (Devolve d, resto)
    | RErro e :: resto => (LevantaErro e, resto)
    | RSobrecarga :: resto =>
        let attempts := attempts - 1 in
        if attempts =? 0 then (LevantaSobrecarga, resto)
        else laco_tentativas attempts resto
    end.

(** Lines 662-666. *)
Definition _get {D} (api : Api.t) (redis : gmap string D) (url : string) : option D :=
  if Api._redis api then redis !! url else None.

(** Lines 668-671: the new content of the server and the value returned. *)
Definition _set {D} (api : Api.t) (redis : gmap string D) (url : string) (data : D)
  : gmap string D * D :=
  (if Api._redis api then <[url := data]> redis else redis, data).

(** Lines 631-660.  The result is the end of the call, the content of the
    server after it and the exchanges that were not used. *)
Definition _request {D} (api : Api.t) (redis : gmap string D) (url : string)
           (respostas : list (Resposta D))
  : Saida D * gmap string D * list (Resposta D) :=
  match _get api redis url with
  | Some cached => (Devolve cached, redis, respostas)
  | None =>
      match laco_tentativas (Api._attempts api) respostas with
      | (Devolve parsed, resto) =>
          let '(redis', data) := _set api redis url parsed in
          (Devolve data, redis', resto)
      | (fim, resto) => (fim, redis, resto)
      end
  end.

(** The number of HTTP exchanges that a call made. *)
Definition pedidos_feitos {D} (respostas resto : list (Resposta D)) : nat :=
  length respostas - length resto.

Definition eh_sobrecarga {D} (r : Resposta D) : bool :=
  match r with RSobrecarga => true | _ => false end.

(** The end of [_request] that an exchange leads to when the loop reaches
    it with attempts left. *)
Definition fim_de {D} (r : Resposta D) : Saida D :=
  match r with
  | RDados d => Devolve d
  | RSobrecarga => LevantaSobrecarga
  | RErro e => LevantaErro e
  end.

Module Exemplo4.

(** The file with two athletes, as [json.loads] reads it; the payload of
    an athlete is kept as its nickname only. *)
Definition arquivo : gmap string string :=
  <["1" := "Pedro"]> (<["2" := "Tiquinho"]> ∅).

(** A server that is overloaded twice and then answers. *)
Definition respostas : list (Resposta string) :=
  [RSobrecarga; RSobrecarga; RDados "rodada 7"; RDados "rodada 8"].

Definition url_mercado : string := "https://api.cartolafc.globo.com/mercado/status".

End Exemplo4.

(** ** [Atleta.__init__], [Atleta.from_dict] and [Time.from_dict]

    models.py, lines 91-141 and 352-385.  A payload is the dict that
    [json.loads] gives for one athlete; the keys that [from_dict] reads
    unconditionally are fields, the keys that it tests with [in] or reads
    with [get] are options ([None] for an absent key), and a JSON [null]
    is an option as well, except in the two score keys, where the value
    is kept apart from the key: [None] is the absent key and [Some None]
    the key with a [null].  The attributes [jogos_num], [media_num] and
    [minimo_para_valorizar], which are copied and never tested, and the
    [info] of the roster are left out: the ['time'] entry of a roster
    payload is taken to have the keys that [TimeInfo.from_dict] reads.
    [Time.from_dict] sorts the two lists of the payload in place; the
    payload is not used after the call, and the sorted lists are local
    here. *)

Module Status.
(** [Status = namedtuple('Status', ['id', 'nome'])] *)
Record t := Build { id : Z; nome : string }.
End Status.

(** The table [_atleta_status]. *)
Definition _atleta_status (status_id : Z) : option Status.t :=
  match status_id with
  | 2 => Some (Status.Build 2 "Dúvida")
  | 3 => Some (Status.Build 3 "Suspenso")
  | 5 => Some (Status.Build 5 "Contundido")
  | 6 => Some (Status.Build 6 "Nulo")
  | 7 => Some (Status.Build 7 "Provável")
  | _ => None
  end.

Module Dados.
(** The payload of one athlete. *)
Record t := Build {
  atleta_id : Z;
  apelido : string;
  foto : option string;
  pontos_num : option Pontos;
  pontuacao : option Pontos;
  scout : option (gmap string Z);
  posicao_id : Z;
  clube_id : Z;
  entrou_em_campo : option bool;
  status_id : option Z
}.
End Dados.

Module DadosTime.
(** The payload of a roster; [reservas] is [None] without the key. *)
Record t := Build {
  atletas : list Dados.t;
  reservas : option (list Dados.t);
  patrimonio : float;
  valor_time : float;
  pontos : float;
  pontos_campeonato : Pontos;
  rodada_atual : Z
}.
End DadosTime.

Module Construido.
(** An [Atleta] as the constructor leaves it.  [clube] is [ClubeNone]
    when [clubes.get] finds no club, [pontos] is [None] for a [null], and
    [entrou_em_campo] is [None] when the payload has no such key. *)
Record t := Build {
  id : Z;
  apelido : string;
  foto : string;
  pontos : Pontos;
  scout : Scout;
  posicao : Posicao.t;
  entrou_em_campo : option bool;
  clube : ClubeRef;
  status : option Status.t;
  is_capitao : option bool
}.
End Construido.

Module TimeConstruido.
(** A [Time] as the constructor leaves it. *)
Record t := Build {
  patrimonio : float;
  valor_time : float;
  ultima_pontuacao : float;
  atletas : list Construido.t;
  reservas : option (list Construido.t);
  pontos : Pontos;
  rodada_atual : Z
}.
End TimeConstruido.

(** [KeyError]: of a dict indexed by a missing [str] key, or of a table
    indexed by a missing [int]. *)
Inductive KeyError :=
| ChaveAusente (chave : string)
| IndiceAusente (indice : Z).

(** [Atleta.__init__], lines 94-110. *)
Definition Atleta_init (atleta_id : Z) (apelido : string) (foto : string) (pontos : Pontos)
           (scout : option (gmap string Z)) (posicao_id : Z)
           (entrou_em_campo : option bool) (clube : ClubeRef)
           (status_id : option Z) (is_capitao : option bool)
  : KeyError + Construido.t :=
  let scout :=
    match scout with
    | Some d => if bool_decide (d = ∅) then ScoutStr else ScoutDict d
    | None => ScoutStr
    end in
  match _posicoes posicao_id with
  | None => inl (IndiceAusente posicao_id)
  | Some posicao =>
      let status :=
        match status_id with
        | None => inr None
        | Some s =>
            if s =? 0 then inr None
            else match _atleta_status s with
                 | None => inl (IndiceAusente s)
                 | Some st => inr (Some st)
                 end
        end in
      match status with
      | inl e => inl e
      | inr status =>
          inr (Construido.Build atleta_id apelido foto pontos scout posicao
                                entrou_em_campo clube status is_capitao)
      end
  end.

(** [Atleta.from_dict], lines 115-141. *)
Definition Atleta_from_dict (data : Dados.t) (clubes : gmap Z Clube.t)
           (atleta_id : option Z) (is_capitao : option bool)
  : KeyError + Construido.t :=
  let atleta_id :=
    match atleta_id with
    | Some i => if i =? 0 then Dados.atleta_id data else i
    | None => Dados.atleta_id data
    end in
  let foto := default ""%string (Dados.foto data) in
  let pontos :=
    match Dados.pontos_num data with
    | Some p => inr p
    | None => match Dados.pontuacao data with
              | Some p => inr p
              | None => inl (ChaveAusente "pontuacao")
              end
    end in
  match pontos with
  | inl e => inl e
  | inr pontos =>
      let clube :=
        if bool_decide (Dados.clube_id data <> 1)
        then match clubes !! Dados.clube_id data with
             | Some c => ClubeDe c
             | None => ClubeNone
             end
        else ClubeVazio in
      Atleta_init atleta_id (Dados.apelido data) foto pontos (Dados.scout data)
                  (Dados.posicao_id data) (Dados.entrou_em_campo data) clube
                  (Dados.status_id data) is_capitao
  end.

(** [list.sort(key=lambda a: a['posicao_id'])]: the sort of Python is
    stable and ascending, and the result of a stable sort is determined by
    the list and the key; it is written here as an insertion sort that
    puts an element before the first one whose key is not smaller. *)
Fixpoint insere_por_posicao (x : Dados.t) (l : list Dados.t) : list Dados.t :=
  match l with
  | [] => [x]
  | y :: resto =>
      if Dados.posicao_id x <=? Dados.posicao_id y then x :: y :: resto
      else y :: insere_por_posicao x resto
  end.

Fixpoint sort_por_posicao (l : list Dados.t) : list Dados.t :=
  match l with
  | [] => []
  | x :: resto => insere_por_posicao x (sort_por_posicao resto)
  end.

(** A list comprehension whose element expression can raise: the first
    exception ends it. *)
Fixpoint compreensao {A B E} (f : A -> E + B) (l : list A) : E + list B :=
  match l with
  | [] => inr []
  | x :: resto =>
      match f x with
      | inl e => inl e
      | inr y => match compreensao f resto with
                 | inl e => inl e
                 | inr ys => inr (y :: ys)
                 end
      end
  end.

(** [Time.from_dict], lines 367-385; [capitao] is [data['capitao_id']],
    [None] for a JSON [null]. *)
Definition Time_from_dict (data : DadosTime.t) (clubes : gmap Z Clube.t)
           (capitao : option Z) : KeyError + TimeConstruido.t :=
  let constroi (atleta : Dados.t) :=
    Atleta_from_dict atleta clubes None
                     (Some (bool_decide (Some (Dados.atleta_id atleta) = capitao))) in
  match compreensao constroi (sort_por_posicao (DadosTime.atletas data)) with
  | inl e => inl e
  | inr atletas =>
      let reservas :=
        match DadosTime.reservas data with
        | Some rs =>
            match compreensao constroi (sort_por_posicao rs) with
            | inl e => inl e
            | inr reservas => inr (Some reservas)
            end
        | None => inr None
        end in
      match reservas with
      | inl e => inl e
      | inr reservas =>
          inr (TimeConstruido.Build (DadosTime.patrimonio data)
                                    (DadosTime.valor_time data)
                                    (DadosTime.pontos data) atletas reservas
                                    (DadosTime.pontos_campeonato data)
                                    (DadosTime.rodada_atual data))
      end
  end.

(** The built objects as the scoring pass sees them: the attributes that
    the pass reads or writes, [nome] and [jogados] not yet set. *)
Definition atleta_do_passe (a : Construido.t) : Atleta.t :=
  Atleta.Build (Construido.id a) (Construido.apelido a) None (Construido.pontos a)
               (Construido.scout a) (Construido.posicao a)
               (Construido.entrou_em_campo a) (Construido.clube a)
               (Construido.is_capitao a).

Definition time_do_passe (t : TimeConstruido.t) : Time.t :=
  Time.Build (TimeConstruido.patrimonio t) (TimeConstruido.valor_time t)
             (TimeConstruido.ultima_pontuacao t)
             (map atleta_do_passe (TimeConstruido.atletas t))
             (map atleta_do_passe <$> TimeConstruido.reservas t)
             (TimeConstruido.pontos t) (TimeConstruido.rodada_atual t) None.

(** The payload from which [from_dict] builds an athlete: one of the two
    score keys (whatever its value), a position of the table and a status
    that is absent, falsy or of the table. *)
Definition construivel (data : Dados.t) : Prop :=
  (is_Some (Dados.pontos_num data) \/ is_Some (Dados.pontuacao data))
  /\ is_Some (_posicoes (Dados.posicao_id data))
  /\ match Dados.status_id data with
     | None => True
     | Some s => s = 0 \/ is_Some (_atleta_status s)
     end.

(** Ascending. *)
Fixpoint crescente (l : list Z) : Prop :=
  match l with
  | [] => True
  | x :: resto => Forall (fun y => x <= y) resto /\ crescente resto
  end.

(** What a list of built athletes has of the payload list it was built
    from: the same athletes, in ascending order of position, the athletes
    of one position in the order of the payload, and the captain flag on
    the athlete whose id is [capitao]. *)
Definition construida_de (capitao : option Z) (dados : list Dados.t)
           (atletas : list Construido.t) : Prop :=
  map Construido.id atletas ≡ₚ map Dados.atleta_id dados
  /\ crescente (map (fun a => Posicao.id (Construido.posicao a)) atletas)
  /\ (forall k : Z,
        map Construido.id
            (filter (fun a => Posicao.id (Construido.posicao a) = k) atletas)
        = map Dados.atleta_id (filter (fun d => Dados.posicao_id d = k) dados))
  /\ Forall (fun a => Construido.is_capitao a
                      = Some (bool_decide (Some (Construido.id a) = capitao)))
            atletas.

Module Exemplo5.

Definition clubes : gmap Z Clube.t :=
  <[262 := Exemplo.flamengo]> (<[263 := Exemplo.botafogo]> ∅).

Definition dados (id : Z) (apelido : string) (posicao_id clube_id : Z) : Dados.t :=
  Dados.Build id apelido None (Some (Some 3.5%float)) None None posicao_id clube_id
              (Some false) (Some 7).

(** A forward, a goalkeeper, a second forward and a midfielder without
    club, and a bench. *)
Definition data : DadosTime.t :=
  DadosTime.Build [dados 10 "Pedro" 5 262; dados 11 "John" 1 263;
                   dados 12 "Tiquinho" 5 263; dados 13 "Livre" 4 1]
                  (Some [dados 14 "Savarino" 4 263; dados 15 "Rossi" 1 262])
                  120 110 55.5 (Some 812.3%float) 7.

(** The same roster with a coach of an unknown position. *)
Definition data_invalida : DadosTime.t :=
  DadosTime.Build [dados 10 "Pedro" 5 262; dados 16 "Auxiliar" 9 262]
                  None 120 110 55.5 (Some 812.3%float) 7.

(** A roster of two whose forward has a club id that is not in the table
    of the clubs. *)
Definition data_sem_clube : DadosTime.t :=
  DadosTime.Build [dados 10 "Pedro" 4 262; dados 17 "Novato" 5 999]
                  None 120 110 55.5 (Some 812.3%float) 7.

(** A payload whose ['pontos_num'] is [null], with no ['pontuacao']. *)
Definition dados_nulo : Dados.t :=
  Dados.Build 18 "Reserva" None (Some None) None None 5 262 (Some false) (Some 7).

Definition data_nulo : DadosTime.t :=
  DadosTime.Build [dados_nulo] None 120 110 55.5 (Some 812.3%float) 7.

(** A feed for the two starters of [data_sem_clube]. *)
Definition parciais : gmap Chave Valor :=
  <[KInt 10 := Exemplo.pontuado 10 "Pedro" Exemplo.meia Exemplo.flamengo 8 true]>
    (<[KInt 17 := Exemplo.pontuado 17 "Novato" Exemplo.atacante Exemplo.botafogo 4 true]> ∅).

End Exemplo5.

(** * Properties of the scoring pass *)

Section Lacos.

Variable parciais : gmap Chave Valor.
Variable partidas : list Partida.t.

(** ** Dropping the register *)

Lemma corpo_reserva_reg_apaga atleta jf r st :
  (corpo_reserva_reg parciais atleta jf r st).1 = corpo_reserva parciais atleta jf r st.
Proof.
  unfold corpo_reserva_reg, corpo_reserva.
  destruct (negb _); [|reflexivity].
  destruct (bool_decide (_ ∈ _)); [reflexivity|].
  destruct (_ && _ && jf); [destruct (mais_igual _ _) as [e|p]; [reflexivity|]|];
    (destruct (_ && _ && jf); [destruct (maior_igual _ _) as [e|[]];
                               [reflexivity| |reflexivity]|reflexivity]);
    by destruct (mais_igual _ _).
Qed.

Lemma laco_reservas_reg_apaga atleta jf rs st :
  (laco_reservas_reg parciais atleta jf rs st).1
  = laco_reservas parciais atleta jf rs st.
Proof.
  revert st. induction rs as [|r rs IH]; intros st; [reflexivity|].
  cbn [laco_reservas_reg laco_reservas].
  rewrite <- corpo_reserva_reg_apaga.
  destruct (corpo_reserva_reg parciais atleta jf r st) as [[[r1 st1] [| |e]] reg1];
    cbn [fst]; try reflexivity.
  rewrite <- IH.
  by destruct (laco_reservas_reg parciais atleta jf rs st1) as [[[rs' st'] fim] reg'].
Qed.

Lemma se_reservas_reg_apaga atleta jf rs st :
  (se_reservas_reg parciais atleta jf rs st).1
  = se_reservas parciais atleta jf rs st.
Proof.
  destruct rs as [[|r rs]|]; try reflexivity.
  unfold se_reservas_reg, se_reservas.
  rewrite <- laco_reservas_reg_apaga.
  by destruct (laco_reservas_reg _ _ _ _ _) as [[[rs' st'] fim] reg'].
Qed.

Lemma corpo_atleta_reg_apaga teste atleta rs st :
  (corpo_atleta_reg teste parciais partidas atleta rs st).1
  = corpo_atleta teste parciais partidas atleta rs st.
Proof.
  unfold corpo_atleta_reg, corpo_atleta.
  destruct (jogo_finalizou _ _) as [e|jf]; [reflexivity|].
  rewrite <- se_reservas_reg_apaga.
  destruct (se_reservas_reg _ _ _ _ _) as [[[rs' st'] [|e]] reg']; [|reflexivity].
  cbn [fst].
  destruct (if truthy _ then _ else _) as [e|a]; [reflexivity|].
  by destruct (mais_igual _ _).
Qed.

Lemma laco_atletas_reg_apaga teste atletas rs st :
  (laco_atletas_reg teste parciais partidas atletas rs st).1
  = laco_atletas teste parciais partidas atletas rs st.
Proof.
  revert rs st. induction atletas as [|a atletas IH]; intros rs st; [reflexivity|].
  cbn [laco_atletas_reg laco_atletas].
  rewrite <- corpo_atleta_reg_apaga.
  destruct (corpo_atleta_reg _ _ _ _ _ _) as [[[[a' rs'] st'] [|e]] reg];
    cbn [fst]; [|reflexivity].
  rewrite <- IH.
  by destruct (laco_atletas_reg _ _ _ _ _ _) as [[[[as' rs''] st''] fim] reg'].
Qed.

(** ** The refreshes are those of the specification *)

Lemma attr_ou_pontos id_ :
  attr_ou (dict_get parciais id_) Atleta.pontos (Some 0%float)
  = Spec.liveValue parciais id_.
Proof.
  unfold attr_ou, dict_get, Spec.liveValue, Spec.liveRecord.
  destruct (parciais !! KInt id_) as [[a|]|]; reflexivity.
Qed.

Lemma atualiza_reserva_live r :
  atualiza_reserva r (dict_get parciais (Atleta.id r)) = Spec.liveReserve parciais r.
Proof.
  unfold atualiza_reserva, Spec.liveReserve, Spec.liveValue, Spec.liveScout,
    Spec.liveRecord, attr_ou, dict_get.
  destruct (parciais !! KInt (Atleta.id r)) as [[a|]|]; reflexivity.
Qed.

Lemma atualiza_atleta_live a :
  atualiza_atleta a (_teste parciais (Atleta.id a)) = Spec.liveStarter parciais a.
Proof.
  unfold atualiza_atleta, Spec.liveStarter, Spec.liveValue, Spec.liveScout,
    Spec.liveName, Spec.liveFlag, Spec.liveRecord, attr_ou, _teste, dict_get.
  destruct (parciais !! KInt (Atleta.id a)) as [[x|]|]; reflexivity.
Qed.

Lemma liveReserve_idem r :
  Spec.liveReserve parciais (Spec.liveReserve parciais r) = Spec.liveReserve parciais r.
Proof. reflexivity. Qed.

(** ** The body of the loop over the reserves, case by case *)

Lemma corpo_reserva_reg_casos atleta jf r st :
  corpo_reserva_reg parciais atleta jf r st
  = let r1 := Spec.liveReserve parciais r in
    let st0 := com_foundRes st false in
    if truthy (Atleta.entrou_em_campo atleta) then (r1, st, Break, [])
    else if bool_decide (Posicao.nome (Atleta.posicao atleta) ∈ reserva_usado st)
    then (r1, st0, Break, [])
    else if mesma_posicao atleta r && jf then
      match Spec.liveValue parciais (Atleta.id r) with
      | None => (r1, st0, Raise TypeError, [])
      | Some v =>
          let st1 := if truthy (Atleta.is_capitao atleta)
                     then com_pontos st0 (time_pontos st0 + v)%float
                     else st0 in
          let reg1 := if truthy (Atleta.is_capitao atleta)
                      then [credito_capitao parciais atleta r]
                      else [] in
          if (0.1 <=? v)%float then
            (r1,
             MkEstado (time_pontos st1 + v)%float (time_jogados st) true
                      (reserva_usado st ++ [Posicao.nome (Atleta.posicao r)]),
             Break, reg1 ++ [credito_marcado parciais atleta r])
          else (r1, st1, Proximo, reg1)
      end
    else (r1, st0, Proximo, []).
Proof.
  unfold corpo_reserva_reg. rewrite atualiza_reserva_live.
  cbn [Spec.liveReserve Atleta.posicao Atleta.pontos Atleta.id].
  fold (mesma_posicao atleta r). fold (Spec.liveReserve parciais r).
  cbv zeta.
  destruct (truthy (Atleta.entrou_em_campo atleta)); cbn [negb]; [reflexivity|].
  cbn [reserva_usado com_foundRes].
  destruct (bool_decide (_ ∈ _)); [reflexivity|].
  unfold credito_capitao, credito_marcado, Spec.liveScore, parcela.
  destruct (mesma_posicao atleta r), jf; cbn [andb];
    rewrite ?andb_false_r; cbn [andb]; try reflexivity;
    try (by destruct (truthy _)).
  destruct (Spec.liveValue parciais (Atleta.id r)) as [v|];
    destruct (truthy (Atleta.is_capitao atleta));
    cbn [mais_igual maior_igual foundRes com_pontos com_foundRes negb andb default];
    try reflexivity; by destruct (0.1 <=? v)%float.
Qed.


Lemma soma_em_app total reg1 reg2 :
  soma_em total (reg1 ++ reg2) = soma_em (soma_em total reg1) reg2.
Proof. unfold soma_em. apply fold_left_app. Qed.

Lemma liveScore_liveValue id_ v :
  Spec.liveValue parciais id_ = Some v -> Spec.liveScore parciais id_ = v.
Proof. unfold Spec.liveScore. by intros ->. Qed.

Lemma corpo_reserva_reg_fatos atleta jf r st r' st' c reg :
  corpo_reserva_reg parciais atleta jf r st = (r', st', c, reg) ->
  r' = Spec.liveReserve parciais r
  /\ time_jogados st' = time_jogados st
  /\ time_pontos st' = soma_em (time_pontos st) reg
  /\ reserva_usado st' = reserva_usado st ++ map cr_posicao (List.filter cr_marca reg)
  /\ Forall (credito_de parciais atleta jf (reserva_usado st)) reg
  /\ (c = Proximo -> Forall (fun x => cr_marca x = false) reg)
  /\ (forall l1 x l2, reg = l1 ++ x :: l2 -> cr_marca x = true -> l2 = []).
Proof.
  rewrite corpo_reserva_reg_casos. cbv zeta.
  destruct (truthy (Atleta.entrou_em_campo atleta)) eqn:Hentrou.
  { intros [= <- <- <- <-]. cbn. rewrite app_nil_r.
    repeat split; try done. intros [|??] ?? ?; discriminate. }
  destruct (bool_decide _) eqn:Husado.
  { intros [= <- <- <- <-]. cbn. rewrite app_nil_r.
    repeat split; try done. intros [|??] ?? ?; discriminate. }
  apply bool_decide_eq_false in Husado.
  destruct (mesma_posicao atleta r && jf) eqn:Hpj.
  2:{ intros [= <- <- <- <-]. cbn. rewrite app_nil_r.
      repeat split; try done. intros [|??] ?? ?; discriminate. }
  apply andb_true_iff in Hpj. destruct Hpj as [Hpos ->].
  apply bool_decide_eq_true in Hpos.
  destruct (Spec.liveValue parciais (Atleta.id r)) as [v|] eqn:Hv.
  2:{ intros [= <- <- <- <-]. cbn. rewrite app_nil_r.
      repeat split; try done. intros [|??] ?? ?; discriminate. }
  pose proof (liveScore_liveValue _ _ Hv) as Hs.
  assert (Hcap : truthy (Atleta.is_capitao atleta) = true ->
                  credito_de parciais atleta true (reserva_usado st)
                             (credito_capitao parciais atleta r)).
  { intros Hc. unfold credito_de, credito_capitao. cbn. rewrite Hs.
    repeat split; try done. }
  assert (Hm : (0.1 <=? v)%float = true ->
                credito_de parciais atleta true (reserva_usado st)
                           (credito_marcado parciais atleta r)).
  { intros Hle. unfold credito_de, credito_marcado. cbn. rewrite Hs.
    repeat split; try done. }
  assert (Hult : forall (x y : Credito) l1 l2,
             [x] = l1 ++ y :: l2 -> l2 = []).
  { intros x y [|? [|??]] l2; cbn; intros [= ]; by subst. }
  destruct (0.1 <=? v)%float eqn:Hle;
    destruct (truthy (Atleta.is_capitao atleta)) eqn:Hc;
    intros [= <- <- <- <-]; cbn; rewrite ?Hs, ?app_nil_r.
  - split; [done|]. split; [done|]. split; [done|]. split; [done|].
    split; [|split; [done|]].
    + apply Forall_cons. split; [by apply Hcap|].
      apply Forall_cons. split; [by apply Hm|]. constructor.
    + intros [|c1 l1] x l2; cbn; intros [= ]; subst; [done|].
      intros _. eapply Hult. eassumption.
  - split; [done|]. split; [done|]. split; [done|]. split; [done|].
    split; [|split; [done|]].
    + apply Forall_cons. split; [by apply Hm|]. constructor.
    + intros l1 x l2 Heq _. eapply Hult. exact Heq.
  - split; [done|]. split; [done|]. split; [done|]. split; [done|].
    split; [|split].
    + apply Forall_cons. split; [by apply Hcap|]. constructor.
    + intros _. by repeat constructor.
    + intros l1 x l2 Heq _. eapply Hult. exact Heq.
  - split; [done|]. split; [done|]. split; [done|]. split; [done|].
    split; [constructor|]. split; [by constructor|].
    intros [|??] ?? ?; discriminate.
Qed.


(** ** The loop over the reserves *)

Lemma filter_sem_marca reg :
  Forall (fun x => cr_marca x = false) reg -> List.filter cr_marca reg = [].
Proof.
  induction 1 as [|x reg Hx _ IH]; [reflexivity|]. cbn [List.filter].
  by rewrite Hx.
Qed.

Lemma marca_depois reg1 reg2 l1 (c : Credito) l2 :
  Forall (fun x => cr_marca x = false) reg1 ->
  reg1 ++ reg2 = l1 ++ c :: l2 ->
  cr_marca c = true ->
  exists l1', reg2 = l1' ++ c :: l2.
Proof.
  intros Hf. revert l1. induction Hf as [|x reg1 Hx _ IH]; intros l1 Heq Hm.
  - by exists l1.
  - destruct l1 as [|y l1]; cbn in Heq; injection Heq as Hxy Heq.
    + subst. congruence.
    + by apply (IH l1).
Qed.

Lemma laco_reservas_reg_fatos atleta jf rs st rs' st' fim reg :
  laco_reservas_reg parciais atleta jf rs st = (rs', st', fim, reg) ->
  time_jogados st' = time_jogados st
  /\ time_pontos st' = soma_em (time_pontos st) reg
  /\ reserva_usado st' = reserva_usado st ++ map cr_posicao (List.filter cr_marca reg)
  /\ Forall (credito_de parciais atleta jf (reserva_usado st)) reg
  /\ (forall l1 c l2, reg = l1 ++ c :: l2 -> cr_marca c = true -> l2 = []).
Proof.
  revert st rs' st' fim reg. induction rs as [|r rs IH]; intros st rs' st' fim reg.
  { cbn. intros [= <- <- <- <-]. cbn. rewrite app_nil_r.
    repeat split; try done. intros [|??] ?? ?; discriminate. }
  cbn [laco_reservas_reg].
  destruct (corpo_reserva_reg parciais atleta jf r st) as [[[r1 st1] c] reg1] eqn:Hcorpo.
  apply corpo_reserva_reg_fatos in Hcorpo.
  destruct Hcorpo as (_ & Hj & Hp & Hu & Hf & Hprox & Hult).
  destruct c as [| |e].
  - specialize (Hprox eq_refl).
    rewrite (filter_sem_marca _ Hprox) in Hu. cbn in Hu. rewrite app_nil_r in Hu.
    destruct (laco_reservas_reg parciais atleta jf rs st1)
      as [[[rs2 st2] fim2] reg2] eqn:Hrec.
    intros [= <- <- <- <-]. apply IH in Hrec.
    destruct Hrec as (Hj2 & Hp2 & Hu2 & Hf2 & Hult2).
    split; [congruence|]. split; [by rewrite Hp2, Hp, soma_em_app|].
    split.
    { rewrite Hu2, Hu, List.filter_app, (filter_sem_marca _ Hprox). reflexivity. }
    split.
    { apply Forall_app. split; [exact Hf|]. by rewrite <- Hu. }
    intros l1 x l2 Heq Hm.
    destruct (marca_depois _ _ _ _ _ Hprox Heq Hm) as [l1' Hl1']. eauto.
  - by intros [= <- <- <- <-].
  - by intros [= <- <- <- <-].
Qed.

Lemma se_reservas_reg_fatos atleta jf rs st rs' st' fim reg :
  se_reservas_reg parciais atleta jf rs st = (rs', st', fim, reg) ->
  time_jogados st' = time_jogados st
  /\ time_pontos st' = soma_em (time_pontos st) reg
  /\ reserva_usado st' = reserva_usado st ++ map cr_posicao (List.filter cr_marca reg)
  /\ Forall (credito_de parciais atleta jf (reserva_usado st)) reg
  /\ (forall l1 c l2, reg = l1 ++ c :: l2 -> cr_marca c = true -> l2 = []).
Proof.
  destruct rs as [[|r rs]|]; cbn [se_reservas_reg].
  1,3: intros [= <- <- <- <-]; cbn; rewrite app_nil_r;
       repeat split; try done; intros [|??] ?? ?; discriminate.
  destruct (laco_reservas_reg _ _ _ _ _) as [[[rs1 st1] fim1] reg1] eqn:Hrec.
  intros [= <- <- <- <-]. eapply laco_reservas_reg_fatos, Hrec.
Qed.


(** ** The match scan is the resolver of section 4.2, but for [None] *)

Lemma laco_partidas_ultimo clube ps b :
  laco_partidas clube ps b
  = match clube with
    | ClubeVazio => inr b
    | ClubeNone => match ps with [] => inr b | _ :: _ => inl AttributeError end
    | ClubeDe c =>
        inr (match last (List.filter (Spec.referencesClub c) ps) with
             | None => b
             | Some m => Spec.signalFinished m || negb (Partida.valida m)
             end)
    end.
Proof.
  revert b. induction ps as [|p ps IH]; intros b.
  { destruct clube; reflexivity. }
  cbn [laco_partidas]. destruct clube as [c| |]; cbn [clube_na_partida]; [|apply IH|done].
  rewrite IH. cbn [List.filter]. fold (Spec.referencesClub c p).
  destruct (Spec.referencesClub c p); [|reflexivity].
  rewrite last_cons.
  destruct (last (List.filter (Spec.referencesClub c) ps)); [reflexivity|].
  unfold partida_encerrada, Spec.signalFinished.
  destruct (_ || negb _); reflexivity.
Qed.

Lemma jogo_finalizou_spec clube ps :
  clube <> ClubeNone \/ ps = [] ->
  jogo_finalizou clube ps = inr (Spec.isMatchFinished clube ps).
Proof.
  intros H. unfold jogo_finalizou. rewrite laco_partidas_ultimo.
  destruct clube; try reflexivity.
  destruct H as [H| ->]; [done|reflexivity].
Qed.

Lemma jogo_finalizou_None p ps :
  jogo_finalizou ClubeNone (p :: ps) = inl AttributeError.
Proof. reflexivity. Qed.

Lemma jogo_finalizou_inr clube ps jf :
  jogo_finalizou clube ps = inr jf ->
  jf = Spec.isMatchFinished clube ps /\ (clube <> ClubeNone \/ ps = []).
Proof.
  unfold jogo_finalizou. rewrite laco_partidas_ultimo.
  destruct clube as [c| |].
  - intros [= <-]. split; [reflexivity|by left].
  - intros [= <-]. split; [reflexivity|by left].
  - destruct ps; [|discriminate]. intros [= <-]. split; [reflexivity|by right].
Qed.

Lemma jogo_finalizou_inl clube ps e :
  jogo_finalizou clube ps = inl e ->
  e = AttributeError /\ clube = ClubeNone /\ ps <> [].
Proof.
  unfold jogo_finalizou. rewrite laco_partidas_ultimo.
  destruct clube as [c| |]; try discriminate.
  destruct ps; [discriminate|]. by intros [= <-].
Qed.

(** ** One scan of the reserves is rule 2 of section 4.3 *)

Lemma laco_reservas_reg_scan atleta jf rs st rs' st' reg :
  truthy (Atleta.entrou_em_campo atleta) = false ->
  Posicao.nome (Atleta.posicao atleta) ∉ reserva_usado st ->
  laco_reservas_reg parciais atleta jf rs st = (rs', st', Segue, reg) ->
  map cr_pontos reg
  = (Spec.scanReserves (truthy (Atleta.is_capitao atleta)) jf
       (Posicao.nome (Atleta.posicao atleta))
       (map (Spec.liveReserve parciais) rs)).1
  /\ map cr_posicao (List.filter cr_marca reg)
     = if (Spec.scanReserves (truthy (Atleta.is_capitao atleta)) jf
             (Posicao.nome (Atleta.posicao atleta))
             (map (Spec.liveReserve parciais) rs)).2
       then [Posicao.nome (Atleta.posicao atleta)] else [].
Proof.
  intros Hentrou. revert st rs' st' reg.
  induction rs as [|r rs IH]; intros st rs' st' reg Husado.
  { cbn. by intros [= <- <- <-]. }
  cbn [laco_reservas_reg map Spec.scanReserves].
  rewrite corpo_reserva_reg_casos. cbv zeta.
  rewrite Hentrou, (bool_decide_eq_false_2 _ Husado).
  unfold Spec.score. cbn [Spec.liveReserve Atleta.posicao Atleta.pontos].
  fold (mesma_posicao atleta r).
  destruct (mesma_posicao atleta r) eqn:Hpos; cbn [andb].
  2:{ destruct (laco_reservas_reg _ _ _ _ _) as [[[rs1 st1] fim1] reg1] eqn:Hrec.
      intros [= <- <- -> <-]. cbn [app]. eapply IH; [|exact Hrec]. exact Husado. }
  apply bool_decide_eq_true in Hpos.
  destruct jf; cbn [andb].
  2:{ rewrite andb_false_r.
      destruct (laco_reservas_reg _ _ _ _ _) as [[[rs1 st1] fim1] reg1] eqn:Hrec.
      intros [= <- <- -> <-]. cbn [app].
      apply IH in Hrec; [|exact Husado].
      by destruct (Spec.scanReserves _ _ _ _) as [q m]. }
  rewrite andb_true_r.
  destruct (Spec.liveValue parciais (Atleta.id r)) as [v|] eqn:Hv; [|discriminate].
  cbn [default].
  pose proof (liveScore_liveValue _ _ Hv) as Hs.
  destruct (0.1 <=? v)%float eqn:Hle.
  - intros [= <- <- <-].
    destruct (truthy (Atleta.is_capitao atleta)); cbn; rewrite ?Hs, ?Hpos, ?Hle; done.
  - match goal with
    | |- context [laco_reservas_reg _ _ _ rs ?s] =>
        destruct (laco_reservas_reg parciais atleta true rs s)
          as [[[rs1 st1] fim1] reg1] eqn:Hrec
    end.
    intros [= <- <- -> <-].
    apply IH in Hrec; [|by destruct (truthy (Atleta.is_capitao atleta))].
    destruct (Spec.scanReserves _ _ _ _) as [q m]. cbn [fst snd] in *.
    destruct Hrec as [Hq Hm].
    destruct (truthy (Atleta.is_capitao atleta)); cbn; rewrite ?Hs, ?Hle;
      cbn; by subst.
Qed.

Lemma se_reservas_reg_scan atleta jf rs st rs' st' reg :
  truthy (Atleta.entrou_em_campo atleta) = false ->
  Posicao.nome (Atleta.posicao atleta) ∉ reserva_usado st ->
  se_reservas_reg parciais atleta jf rs st = (rs', st', Segue, reg) ->
  map cr_pontos reg
  = (Spec.scanReserves (truthy (Atleta.is_capitao atleta)) jf
       (Posicao.nome (Atleta.posicao atleta))
       (map (Spec.liveReserve parciais) (default [] rs))).1
  /\ map cr_posicao (List.filter cr_marca reg)
     = if (Spec.scanReserves (truthy (Atleta.is_capitao atleta)) jf
             (Posicao.nome (Atleta.posicao atleta))
             (map (Spec.liveReserve parciais) (default [] rs))).2
       then [Posicao.nome (Atleta.posicao atleta)] else [].
Proof.
  intros Hentrou Husado.
  destruct rs as [[|r rs]|]; cbn [se_reservas_reg default].
  1,3: by intros [= <- <- <-].
  destruct (laco_reservas_reg _ _ _ _ _) as [[[rs1 st1] fim1] reg1] eqn:Hrec.
  intros [= <- <- -> <-]. eapply laco_reservas_reg_scan; eauto.
Qed.


(** ** One iteration of the loop over the starters *)

Lemma corpo_atleta_reg_casos a rs st :
  corpo_atleta_reg _teste parciais partidas a rs st
  = let a1 := Spec.liveStarter parciais a in
    let st0 := com_jogados st
                 (time_jogados st
                  + (if isinstance_Atleta (_teste parciais (Atleta.id a)) then 1 else 0)) in
    match jogo_finalizou (Atleta.clube a) partidas with
    | inl e => (a1, rs, st0, Excecao e, [])
    | inr jf =>
        match se_reservas_reg parciais a1 jf rs st0 with
        | (rs', st1, Excecao e, reg) => (a1, rs', st1, Excecao e, reg)
        | (rs', st1, Segue, reg) =>
            match Spec.liveValue parciais (Atleta.id a) with
            | None => (a1, rs', st1, Excecao TypeError, reg)
            | Some v =>
                (atleta_final parciais a, rs',
                 com_pontos st1 (time_pontos st1 + Spec.ownScore parciais a)%float,
                 Segue, reg)
            end
        end
    end.
Proof.
  unfold corpo_atleta_reg, atleta_final, Spec.ownScore, Spec.liveScore.
  rewrite atualiza_atleta_live. cbv zeta.
  cbn [Spec.liveStarter Atleta.clube Atleta.is_capitao].
  fold (Spec.liveStarter parciais a).
  destruct (jogo_finalizou _ _) as [e|jf]; [reflexivity|].
  destruct (se_reservas_reg _ _ _ _ _) as [[[rs1 st1] [|e]] reg1]; [|reflexivity].
  unfold vezes_capitao, vezes_igual. cbn [Spec.liveStarter Atleta.pontos].
  destruct (Spec.liveValue parciais (Atleta.id a)) as [v|] eqn:Hv;
    destruct (truthy (Atleta.is_capitao a));
    cbn [Spec.liveStarter Atleta.pontos com_pontos_atleta mais_igual default];
    rewrite ?Hv; reflexivity.
Qed.

Lemma liveStarter_atleta_final a :
  Spec.liveStarter parciais (atleta_final parciais a) = Spec.liveStarter parciais a.
Proof.
  unfold atleta_final. rewrite atualiza_atleta_live.
  cbn [Spec.liveStarter Atleta.is_capitao].
  destruct (truthy _); [|reflexivity].
  unfold vezes_capitao. by destruct (vezes_igual _ _).
Qed.

Lemma liveStarter_idem a :
  Spec.liveStarter parciais (Spec.liveStarter parciais a) = Spec.liveStarter parciais a.
Proof. reflexivity. Qed.

Lemma corpo_atleta_reg_fatos a rs st a' rs' st' fim reg :
  corpo_atleta_reg _teste parciais partidas a rs st = (a', rs', st', fim, reg) ->
  Spec.liveStarter parciais a' = Spec.liveStarter parciais a
  /\ (fim = Segue ->
      a' = atleta_final parciais a
      /\ is_Some (Spec.liveValue parciais (Atleta.id a))
      /\ time_pontos st'
         = (soma_em (time_pontos st) reg + Spec.ownScore parciais a)%float)
  /\ (fim <> Segue ->
      a' = Spec.liveStarter parciais a
      /\ time_pontos st' = soma_em (time_pontos st) reg)
  /\ time_jogados st'
     = time_jogados st
       + (if isinstance_Atleta (_teste parciais (Atleta.id a)) then 1 else 0)
  /\ reserva_usado st' = reserva_usado st ++ map cr_posicao (List.filter cr_marca reg)
  /\ Forall (credito_de parciais (Spec.liveStarter parciais a)
                        (Spec.isMatchFinished (Atleta.clube a) partidas)
                        (reserva_usado st)) reg
  /\ (forall l1 c l2, reg = l1 ++ c :: l2 -> cr_marca c = true -> l2 = []).
Proof.
  rewrite corpo_atleta_reg_casos. cbv zeta.
  destruct (jogo_finalizou _ _) as [e|jf] eqn:Hjf.
  { intros [= <- <- <- <- <-]. cbn. rewrite app_nil_r.
    repeat split; try done. intros [|??] ?? ?; discriminate. }
  apply jogo_finalizou_inr in Hjf. destruct Hjf as [-> _].
  destruct (se_reservas_reg _ _ _ _ _) as [[[rs1 st1] fim1] reg1] eqn:Hse.
  apply se_reservas_reg_fatos in Hse.
  cbn [time_jogados time_pontos reserva_usado com_jogados] in Hse.
  destruct Hse as (Hj & Hp & Hu & Hf & Hl).
  destruct fim1 as [|e].
  2:{ intros [= <- <- <- <- <-]. repeat split; try done. }
  destruct (Spec.liveValue parciais (Atleta.id a)) as [v|] eqn:Hv.
  - intros [= <- <- <- <- <-]. cbn [time_jogados time_pontos reserva_usado com_pontos].
    split; [apply liveStarter_atleta_final|].
    split; [intros _; by rewrite Hp|]. by repeat split.
  - intros [= <- <- <- <- <-]. repeat split; try done.
Qed.

(** ** The whole loop over the starters *)

Lemma sem_credito_depois_app reg1 reg2 :
  sem_credito_depois reg1 ->
  sem_credito_depois reg2 ->
  (forall c, c ∈ reg1 -> cr_marca c = true ->
             Forall (fun c' => cr_posicao c' <> cr_posicao c) reg2) ->
  sem_credito_depois (reg1 ++ reg2).
Proof.
  induction reg1 as [|c reg1 IH]; cbn; [done|].
  intros [Hc Hr] H2 H12. split.
  - intros Hm. apply Forall_app. split; [auto|]. apply H12; [left|done].
  - apply IH; [done..|]. intros c' Hc'. apply H12. by right.
Qed.

Lemma sem_credito_depois_ultimo reg :
  (forall l1 c l2, reg = l1 ++ c :: l2 -> cr_marca c = true -> l2 = []) ->
  sem_credito_depois reg.
Proof.
  induction reg as [|c reg IHr]; cbn; [done|]. intros Hl. split.
  - intros Hm. rewrite (Hl [] c reg eq_refl Hm). constructor.
  - apply IHr. intros l1 c' l2 -> Hm. apply (Hl (c :: l1) c' l2 eq_refl Hm).
Qed.

Lemma laco_atletas_reg_fatos atletas rs st as' rs' st' fim reg :
  laco_atletas_reg _teste parciais partidas atletas rs st = (as', rs', st', fim, reg) ->
  (fim = Segue ->
   as' = map (atleta_final parciais) atletas
   /\ time_jogados st' = time_jogados st + conta_parciais parciais atletas)
  /\ reserva_usado st' = reserva_usado st ++ map cr_posicao (List.filter cr_marca reg)
  /\ Forall (fun c => cr_posicao c ∉ reserva_usado st) reg
  /\ sem_credito_depois reg.
Proof.
  revert rs st as' rs' st' fim reg.
  induction atletas as [|a atletas IH]; intros rs st as' rs' st' fim reg.
  { cbn. intros [= <- <- <- <- <-]. unfold conta_parciais. cbn. rewrite app_nil_r.
    repeat split; try done; lia. }
  cbn [laco_atletas_reg].
  destruct (corpo_atleta_reg _ _ _ _ _ _) as [[[[a1 rs1] st1] fim1] reg1] eqn:Hcorpo.
  apply corpo_atleta_reg_fatos in Hcorpo.
  destruct Hcorpo as (_ & Hseg & _ & Hj1 & Hu1 & Hf1 & Hl1).
  assert (Hpos1 : Forall (fun c => cr_posicao c ∉ reserva_usado st) reg1).
  { eapply Forall_impl; [exact Hf1|].
    intros c (_ & -> & _ & _ & _ & _ & _ & _ & Hn). exact Hn. }
  destruct fim1 as [|e].
  2:{ intros [= <- <- <- <- <-]. split; [done|]. split; [done|]. split; [done|].
      by apply sem_credito_depois_ultimo. }
  destruct (Hseg eq_refl) as (Ha & _ & _).
  destruct (laco_atletas_reg _ _ _ _ _ _) as [[[[as2 rs2] st2] fim2] reg2] eqn:Hlaco.
  intros [= <- <- <- <- <-].
  apply IH in Hlaco. destruct Hlaco as (Hseg2 & Hu2 & Hf2 & Hs2).
  split.
  { intros ->. destruct (Hseg2 eq_refl) as [Has Hj2]. split; [by rewrite Ha, Has|].
    rewrite Hj2, Hj1. unfold conta_parciais. cbn [List.filter].
    destruct (isinstance_Atleta _); cbn [length]; lia. }
  split.
  { rewrite Hu2, Hu1, List.filter_app, map_app, app_assoc. reflexivity. }
  split.
  { apply Forall_app. split; [exact Hpos1|].
    eapply Forall_impl; [exact Hf2|]. cbn. intros c Hc Hin. apply Hc.
    rewrite Hu1. apply elem_of_app. by left. }
  apply sem_credito_depois_app; [by apply sem_credito_depois_ultimo|exact Hs2|].
  intros c Hc Hm. eapply Forall_impl; [exact Hf2|]. cbn.
  intros c' Hc' Heq. apply Hc'. rewrite Hu1, Heq. apply elem_of_app. right.
  apply list_elem_of_fmap. exists c. split; [done|].
  apply list_elem_of_In, filter_In. split; [by apply list_elem_of_In|done].
Qed.


(** ** The reserves keep what the pass reads of them *)

Lemma laco_reservas_reg_live atleta jf rs st :
  map (Spec.liveReserve parciais) (laco_reservas_reg parciais atleta jf rs st).1.1.1
  = map (Spec.liveReserve parciais) rs.
Proof.
  revert st. induction rs as [|r rs IH]; intros st; [reflexivity|].
  cbn [laco_reservas_reg].
  destruct (corpo_reserva_reg parciais atleta jf r st) as [[[r1 st1] c] reg1] eqn:Hcorpo.
  apply corpo_reserva_reg_fatos in Hcorpo. destruct Hcorpo as (-> & _).
  destruct c as [| |e]; try reflexivity.
  specialize (IH st1).
  destruct (laco_reservas_reg parciais atleta jf rs st1) as [[[rs2 st2] fim2] reg2].
  cbn [fst map] in *. by rewrite IH.
Qed.

Lemma se_reservas_reg_live atleta jf rs st :
  map (Spec.liveReserve parciais)
      (default [] (se_reservas_reg parciais atleta jf rs st).1.1.1)
  = map (Spec.liveReserve parciais) (default [] rs).
Proof.
  destruct rs as [[|r rs]|]; try reflexivity.
  unfold se_reservas_reg.
  pose proof (laco_reservas_reg_live atleta jf (r :: rs) st) as H.
  by destruct (laco_reservas_reg _ _ _ _ _) as [[[rs1 st1] fim1] reg1].
Qed.

Lemma corpo_atleta_reg_live a rs st :
  map (Spec.liveReserve parciais)
      (default [] (corpo_atleta_reg _teste parciais partidas a rs st).1.1.1.2)
  = map (Spec.liveReserve parciais) (default [] rs).
Proof.
  rewrite corpo_atleta_reg_casos. cbv zeta.
  destruct (jogo_finalizou _ _) as [e|jf]; [reflexivity|].
  match goal with
  | |- context [se_reservas_reg _ ?x ?j rs ?s] =>
      pose proof (se_reservas_reg_live x j rs s) as H
  end.
  destruct (se_reservas_reg _ _ _ _ _) as [[[rs1 st1] [|e]] reg1]; [|exact H].
  by destruct (Spec.liveValue _ _).
Qed.

(** ** The credits of the loop are those of section 4.3 *)

Lemma sem_creditos atleta jf usado reg :
  Forall (credito_de parciais atleta jf usado) reg ->
  truthy (Atleta.entrou_em_campo atleta) = true
  \/ Posicao.nome (Atleta.posicao atleta) ∈ usado
  \/ jf = false ->
  reg = [].
Proof.
  intros Hf H. destruct reg as [|c reg]; [done|].
  apply Forall_cons in Hf.
  destruct Hf as [(_ & _ & _ & _ & _ & _ & He & Hj & Hu) _].
  destruct H as [H|[H|H]]; [congruence|done|congruence].
Qed.

Lemma corpo_atleta_reg_resolve a rs st (used : gset string) a' rs' st' reg :
  (forall p, p ∈ reserva_usado st <-> p ∈ used) ->
  corpo_atleta_reg _teste parciais partidas a rs st = (a', rs', st', Segue, reg) ->
  map cr_pontos reg
  = (Spec.resolveSubstitution (Spec.liveStarter parciais a)
       (map (Spec.liveReserve parciais) (default [] rs))
       (Spec.isMatchFinished (Atleta.clube a) partidas) used).1
  /\ map cr_posicao (List.filter cr_marca reg)
     = match (Spec.resolveSubstitution (Spec.liveStarter parciais a)
                (map (Spec.liveReserve parciais) (default [] rs))
                (Spec.isMatchFinished (Atleta.clube a) partidas) used).2 with
       | Some p => [p]
       | None => []
       end.
Proof.
  intros Hused. rewrite corpo_atleta_reg_casos. cbv zeta.
  destruct (jogo_finalizou _ _) as [e|jf] eqn:Hjf; [discriminate|].
  apply jogo_finalizou_inr in Hjf. destruct Hjf as [-> _].
  destruct (se_reservas_reg _ _ _ _ _) as [[[rs1 st1] [|e]] reg1] eqn:Hse;
    [|discriminate].
  destruct (Spec.liveValue parciais (Atleta.id a)) as [v|]; [|discriminate].
  intros [= <- <- <- <-].
  unfold Spec.resolveSubstitution.
  destruct (truthy (Atleta.entrou_em_campo (Spec.liveStarter parciais a))) eqn:Hentrou.
  { apply se_reservas_reg_fatos in Hse. destruct Hse as (_ & _ & _ & Hf & _).
    by rewrite (sem_creditos _ _ _ _ Hf) by auto. }
  destruct (bool_decide (_ ∈ used)) eqn:Hin.
  { apply bool_decide_eq_true in Hin. apply Hused in Hin.
    apply se_reservas_reg_fatos in Hse. destruct Hse as (_ & _ & _ & Hf & _).
    by rewrite (sem_creditos _ _ _ _ Hf) by auto. }
  apply bool_decide_eq_false in Hin.
  apply se_reservas_reg_scan in Hse;
    [|exact Hentrou|cbn [reserva_usado com_jogados]; by rewrite Hused].
  destruct (Spec.scanReserves _ _ _ _) as [q m]. cbn [fst snd] in *.
  destruct Hse as [Hq Hm]. split; [exact Hq|]. rewrite Hm. by destruct m.
Qed.

Lemma resolveSubstitution_ext starter rsA rsB jf used :
  map (Spec.liveReserve parciais) rsA = map (Spec.liveReserve parciais) rsB ->
  Spec.resolveSubstitution starter (map (Spec.liveReserve parciais) rsA) jf used
  = Spec.resolveSubstitution starter (map (Spec.liveReserve parciais) rsB) jf used.
Proof. by intros ->. Qed.

Lemma teamTotal_ext rsA rsB atletas used total :
  map (Spec.liveReserve parciais) rsA = map (Spec.liveReserve parciais) rsB ->
  Spec.teamTotal parciais partidas rsA atletas used total
  = Spec.teamTotal parciais partidas rsB atletas used total.
Proof.
  intros H. revert used total.
  induction atletas as [|a atletas IH]; intros used total; [done|].
  cbn [Spec.teamTotal]. rewrite H.
  destruct (Spec.resolveSubstitution _ _ _ _) as [q m]. by rewrite IH.
Qed.

Lemma substitutionCredits_ext rsA rsB atletas used :
  map (Spec.liveReserve parciais) rsA = map (Spec.liveReserve parciais) rsB ->
  Spec.substitutionCredits parciais partidas rsA atletas used
  = Spec.substitutionCredits parciais partidas rsB atletas used.
Proof.
  intros H. revert used. induction atletas as [|a atletas IH]; intros used; [done|].
  cbn [Spec.substitutionCredits]. rewrite H.
  destruct (Spec.resolveSubstitution _ _ _ _) as [q m]. by rewrite IH.
Qed.

Lemma soma_em_addAll total reg :
  soma_em total reg = Spec.addAll total (map cr_pontos reg).
Proof.
  unfold soma_em, Spec.addAll. revert total.
  induction reg as [|c reg IH]; intros total; [reflexivity|]. cbn. apply IH.
Qed.

Lemma laco_atletas_reg_total atletas rs st (used : gset string) as' rs' st' reg :
  (forall p, p ∈ reserva_usado st <-> p ∈ used) ->
  laco_atletas_reg _teste parciais partidas atletas rs st = (as', rs', st', Segue, reg) ->
  time_pontos st'
  = Spec.teamTotal parciais partidas (default [] rs) atletas used (time_pontos st)
  /\ map cr_pontos reg
     = Spec.substitutionCredits parciais partidas (default [] rs) atletas used.
Proof.
  revert rs st used as' rs' st' reg.
  induction atletas as [|a atletas IH]; intros rs st used as' rs' st' reg Hused.
  { cbn. by intros [= <- <- <- <-]. }
  cbn [laco_atletas_reg Spec.teamTotal Spec.substitutionCredits].
  pose proof (corpo_atleta_reg_live a rs st) as Hrs.
  destruct (corpo_atleta_reg _ _ _ _ _ _) as [[[[a1 rs1] st1] [|e]] reg1] eqn:Hcorpo;
    [|discriminate].
  destruct (laco_atletas_reg _ _ _ _ _ _) as [[[[as2 rs2] st2] fim2] reg2] eqn:Hlaco.
  intros [= <- <- <- -> <-]. cbn [fst snd] in Hrs.
  pose proof (corpo_atleta_reg_resolve _ _ _ _ _ _ _ _ Hused Hcorpo) as (Hq & Hm).
  apply corpo_atleta_reg_fatos in Hcorpo.
  destruct Hcorpo as (_ & Hseg & _ & _ & Hu & _).
  destruct (Hseg eq_refl) as (_ & _ & Hp).
  destruct (Spec.resolveSubstitution _ _ _ _) as [q m]. cbn [fst snd] in *.
  rewrite <- (teamTotal_ext _ _ _ _ _ Hrs), <- (substitutionCredits_ext _ _ _ _ Hrs).
  rewrite map_app, Hq, <- Hq, <- soma_em_addAll, <- Hp.
  assert (Hused1 : forall p, p ∈ reserva_usado st1
                             <-> p ∈ match m with
                                     | Some p' => {[p']} ∪ used
                                     | None => used
                                     end).
  { intros p. rewrite Hu, Hm, elem_of_app, Hused.
    destruct m as [p'|].
    - rewrite elem_of_union, elem_of_singleton, list_elem_of_singleton. tauto.
    - rewrite elem_of_nil. tauto. }
  destruct (IH _ _ _ _ _ _ _ Hused1 Hlaco) as [H1 H2].
  split; [exact H1|]. by rewrite H2.
Qed.

Lemma laco_atletas_reg_sem_credito atletas rs st as' rs' st' reg :
  laco_atletas_reg _teste parciais partidas atletas rs st = (as', rs', st', Segue, reg) ->
  reg = [] ->
  time_pontos st' = Spec.addOwnScores parciais (time_pontos st) atletas.
Proof.
  revert rs st as' rs' st' reg.
  induction atletas as [|a atletas IH]; intros rs st as' rs' st' reg.
  { cbn. by intros [= <- <- <- <-]. }
  cbn [laco_atletas_reg].
  destruct (corpo_atleta_reg _ _ _ _ _ _) as [[[[a1 rs1] st1] [|e]] reg1] eqn:Hcorpo;
    [|discriminate].
  destruct (laco_atletas_reg _ _ _ _ _ _) as [[[[as2 rs2] st2] fim2] reg2] eqn:Hlaco.
  intros [= <- <- <- -> <-] Hreg. apply app_eq_nil in Hreg. destruct Hreg as [-> ->].
  apply corpo_atleta_reg_fatos in Hcorpo.
  destruct Hcorpo as (_ & Hseg & _). destruct (Hseg eq_refl) as (_ & _ & Hp).
  rewrite (IH _ _ _ _ _ _ Hlaco eq_refl), Hp. reflexivity.
Qed.


(** ** Where the credits of the register come from *)

Lemma credito_de_sem_usado atleta jf usado c :
  credito_de parciais atleta jf usado c -> credito_de parciais atleta jf [] c.
Proof.
  intros (H1 & H2 & H3 & H4 & H5 & H6 & H7 & H8 & _).
  repeat split; try done. apply not_elem_of_nil.
Qed.

Lemma laco_atletas_reg_origem atletas rs st as' rs' st' fim reg :
  laco_atletas_reg _teste parciais partidas atletas rs st = (as', rs', st', fim, reg) ->
  Forall (credito_do_passe parciais partidas atletas) reg.
Proof.
  revert rs st as' rs' st' fim reg.
  induction atletas as [|a atletas IH]; intros rs st as' rs' st' fim reg.
  { cbn. intros [= <- <- <- <- <-]. constructor. }
  cbn [laco_atletas_reg].
  destruct (corpo_atleta_reg _ _ _ _ _ _) as [[[[a1 rs1] st1] fim1] reg1] eqn:Hcorpo.
  apply corpo_atleta_reg_fatos in Hcorpo.
  destruct Hcorpo as (_ & _ & _ & _ & _ & Hf & _).
  assert (H1 : Forall (credito_do_passe parciais partidas (a :: atletas)) reg1).
  { eapply Forall_impl; [exact Hf|]. intros c Hc. exists a. split; [left|].
    eapply credito_de_sem_usado, Hc. }
  destruct fim1 as [|e]; [|by intros [= <- <- <- <- <-]].
  destruct (laco_atletas_reg _ _ _ _ _ _) as [[[[as2 rs2] st2] fim2] reg2] eqn:Hlaco.
  intros [= <- <- <- <- <-].
  apply IH in Hlaco. apply Forall_app. split; [exact H1|].
  eapply Forall_impl; [exact Hlaco|]. intros c (b & Hb & Hc). exists b.
  split; [by right|done].
Qed.

Lemma sem_credito_depois_split reg l1 c l2 :
  sem_credito_depois reg ->
  reg = l1 ++ c :: l2 ->
  cr_marca c = true ->
  Forall (fun c' => cr_posicao c' <> cr_posicao c) l2.
Proof.
  intros Hs ->. induction l1 as [|x l1 IH]; cbn in Hs.
  - intros Hm. by apply Hs.
  - apply IH, Hs.
Qed.

(** ** When the loops raise nothing *)

Lemma liveValue_sem_nulo id_ :
  feed_sem_nulo parciais -> is_Some (Spec.liveValue parciais id_).
Proof.
  intros Hn. unfold Spec.liveValue, Spec.liveRecord.
  destruct (parciais !! KInt id_) as [[a|]|] eqn:Ha; try by eexists.
  by apply (Hn _ _ Ha).
Qed.

Lemma laco_reservas_reg_segue atleta jf rs st :
  feed_sem_nulo parciais ->
  (laco_reservas_reg parciais atleta jf rs st).1.2 = Segue.
Proof.
  intros Hn. revert st. induction rs as [|r rs IH]; intros st; [reflexivity|].
  cbn [laco_reservas_reg]. rewrite corpo_reserva_reg_casos. cbv zeta.
  destruct (truthy _); [reflexivity|].
  destruct (bool_decide _); [reflexivity|].
  destruct (liveValue_sem_nulo (Atleta.id r) Hn) as [v ->].
  destruct (mesma_posicao atleta r && jf).
  - destruct (0.1 <=? v)%float; [reflexivity|].
    match goal with
    | |- context [laco_reservas_reg _ _ _ rs ?s] => specialize (IH s)
    end.
    by destruct (laco_reservas_reg _ _ _ _ _) as [[[rs2 st2] fim2] reg2].
  - specialize (IH (com_foundRes st false)).
    by destruct (laco_reservas_reg _ _ _ _ _) as [[[rs2 st2] fim2] reg2].
Qed.

Lemma corpo_atleta_reg_segue a rs st :
  feed_sem_nulo parciais ->
  Atleta.clube a <> ClubeNone \/ partidas = [] ->
  (corpo_atleta_reg _teste parciais partidas a rs st).1.2 = Segue.
Proof.
  intros Hn Hc. rewrite corpo_atleta_reg_casos. cbv zeta.
  rewrite (jogo_finalizou_spec _ _ Hc).
  match goal with
  | |- context [se_reservas_reg _ ?x ?j rs ?s] =>
      assert (Hse : (se_reservas_reg parciais x j rs s).1.2 = Segue)
  end.
  { destruct rs as [[|r rs]|]; try reflexivity. unfold se_reservas_reg.
    match goal with
    | |- context [laco_reservas_reg _ ?x ?j ?l ?s] =>
        pose proof (laco_reservas_reg_segue x j l s Hn) as H
    end.
    by destruct (laco_reservas_reg _ _ _ _ _) as [[[rs2 st2] fim2] reg2]. }
  destruct (se_reservas_reg _ _ _ _ _) as [[[rs1 st1] fim1] reg1].
  cbn [fst snd] in Hse. subst fim1.
  by destruct (liveValue_sem_nulo (Atleta.id a) Hn) as [v ->].
Qed.

Lemma laco_atletas_reg_segue atletas rs st :
  feed_sem_nulo parciais ->
  clubes_resolvidos atletas partidas ->
  (laco_atletas_reg _teste parciais partidas atletas rs st).1.2 = Segue.
Proof.
  intros Hn. revert rs st. induction atletas as [|a atletas IH]; intros rs st Hc;
    [reflexivity|].
  cbn [laco_atletas_reg].
  assert (Ha : Atleta.clube a <> ClubeNone \/ partidas = []).
  { destruct Hc as [->|Hc]; [by right|]. left. by apply Forall_cons in Hc as [? _]. }
  assert (Hc' : clubes_resolvidos atletas partidas).
  { destruct Hc as [->|Hc]; [by left|]. right. by apply Forall_cons in Hc as [_ ?]. }
  pose proof (corpo_atleta_reg_segue a rs st Hn Ha) as H.
  destruct (corpo_atleta_reg _ _ _ _ _ _) as [[[[a1 rs1] st1] fim1] reg1].
  cbn [fst snd] in H. subst fim1.
  specialize (IH rs1 st1 Hc').
  by destruct (laco_atletas_reg _ _ _ _ _ _) as [[[[as2 rs2] st2] fim2] reg2].
Qed.

End Lacos.

(** ** The check at the top of the function *)

Lemma parciais_invalidos_true parciais :
  parciais_invalidos parciais = true <->
  exists k v, parciais !! k = Some v
              /\ (isinstance_int k = false \/ isinstance_Atleta (Some v) = false).
Proof.
  unfold parciais_invalidos. rewrite existsb_exists. split.
  - intros [[k v] [Hin H]]. exists k, v.
    apply list_elem_of_In, elem_of_map_to_list in Hin. split; [done|].
    cbn in H. apply orb_true_iff in H. rewrite !negb_true_iff in H. exact H.
  - intros (k & v & Hkv & H). exists (k, v). split.
    + by apply list_elem_of_In, elem_of_map_to_list.
    + cbn. apply orb_true_iff. rewrite !negb_true_iff. exact H.
Qed.

Lemma wellFormedFeed_valido parciais :
  Spec.wellFormedFeed parciais <-> parciais_invalidos parciais = false.
Proof.
  split.
  - intros Hwf. apply not_true_iff_false. rewrite parciais_invalidos_true.
    intros (k & v & Hkv & H). destruct (Hwf k v Hkv) as [[z ->] [a ->]].
    destruct H; discriminate.
  - intros Hinv k v Hkv.
    destruct k as [z|s], v as [a|]; [by eauto|..];
      exfalso; apply not_true_iff_false in Hinv; apply Hinv;
      apply parciais_invalidos_true; eexists _, _; (split; [exact Hkv|]); cbn; auto.
Qed.

Lemma conta_parciais_countPlayed parciais atletas :
  Spec.wellFormedFeed parciais ->
  conta_parciais parciais atletas = Spec.countPlayed parciais atletas.
Proof.
  intros Hwf. unfold conta_parciais, Spec.countPlayed. do 2 f_equal.
  apply List.filter_ext. intros a. unfold _teste, dict_get.
  destruct (parciais !! KInt (Atleta.id a)) as [v|] eqn:Hv.
  - destruct (Hwf _ _ Hv) as [_ [x ->]]. reflexivity.
  - reflexivity.
Qed.

Lemma feed_sem_nulo_b_true parciais :
  feed_sem_nulo_b parciais = true -> feed_sem_nulo parciais.
Proof.
  unfold feed_sem_nulo_b. rewrite forallb_forall. intros H k a Hk.
  specialize (H (k, VAtleta a)). cbn in H.
  destruct (Atleta.pontos a); [by eexists|].
  discriminate H. by apply list_elem_of_In, elem_of_map_to_list.
Qed.

(** ** The call in terms of its loops *)

Lemma _calculate_parcial_laco (t : Time.t) parciais partidas :
  parciais_invalidos parciais = false ->
  _calculate_parcial (OTime t) parciais partidas
  = (desfecho_de (laco_atletas_reg _teste parciais partidas (Time.atletas t)
                                   (Time.reservas t) estado_inicial).1.2,
     OTime (grava t
              (laco_atletas_reg _teste parciais partidas (Time.atletas t)
                                (Time.reservas t) estado_inicial).1.1.1.1
              (laco_atletas_reg _teste parciais partidas (Time.atletas t)
                                (Time.reservas t) estado_inicial).1.1.1.2
              (laco_atletas_reg _teste parciais partidas (Time.atletas t)
                                (Time.reservas t) estado_inicial).1.1.2))
    /\ creditos_do_passe (OTime t) parciais partidas
       = (laco_atletas_reg _teste parciais partidas (Time.atletas t)
                           (Time.reservas t) estado_inicial).2.
Proof.
  intros Hv. unfold _calculate_parcial, creditos_do_passe. rewrite Hv.
  cbn [orb negb isinstance_Time].
  rewrite <- laco_atletas_reg_apaga.
  by destruct (laco_atletas_reg _ _ _ _ _ _) as [[[[as' rs'] st'] fim] reg].
Qed.

(** ** What a returning call leaves *)

Lemma _calculate_parcial_retornou (t t' : Time.t) parciais partidas :
  _calculate_parcial (OTime t) parciais partidas = (Retorna, OTime t') ->
  Spec.wellFormedFeed parciais
  /\ Time.atletas t' = map (atleta_final parciais) (Time.atletas t)
  /\ Time.pontos t'
     = Some (Spec.teamTotal parciais partidas (default [] (Time.reservas t))
                            (Time.atletas t) ∅ 0)
  /\ map cr_pontos (creditos_do_passe (OTime t) parciais partidas)
     = Spec.substitutionCredits parciais partidas (default [] (Time.reservas t))
                                (Time.atletas t) ∅
  /\ (creditos_do_passe (OTime t) parciais partidas = [] ->
      Time.pontos t' = Some (Spec.addOwnScores parciais 0 (Time.atletas t)))
  /\ Time.jogados t' = Some (conta_parciais parciais (Time.atletas t))
  /\ Forall (credito_do_passe parciais partidas (Time.atletas t))
            (creditos_do_passe (OTime t) parciais partidas)
  /\ Time.patrimonio t' = Time.patrimonio t
  /\ Time.valor_time t' = Time.valor_time t
  /\ Time.ultima_pontuacao t' = Time.ultima_pontuacao t
  /\ Time.rodada_atual t' = Time.rodada_atual t.
Proof.
  intros Hret.
  assert (Hv : parciais_invalidos parciais = false).
  { unfold _calculate_parcial in Hret.
    destruct (parciais_invalidos parciais); [discriminate Hret|reflexivity]. }
  split; [by apply wellFormedFeed_valido|].
  destruct (_calculate_parcial_laco t parciais partidas Hv) as [Hcalc Hreg].
  destruct (laco_atletas_reg _teste parciais partidas (Time.atletas t)
              (Time.reservas t) estado_inicial)
    as [[[[as' rs'] st'] fim] reg] eqn:Hlaco.
  cbn [fst snd] in Hcalc, Hreg. rewrite Hcalc in Hret.
  destruct fim as [|e]; [|discriminate Hret].
  cbn [desfecho_de] in Hret. injection Hret as <-. rewrite Hreg.
  pose proof (laco_atletas_reg_origem _ _ _ _ _ _ _ _ _ _ Hlaco) as Horigem.
  assert (Hvazio : forall p : string,
             p ∈ reserva_usado estado_inicial <-> p ∈ (∅ : gset string)).
  { intros p. cbn. rewrite elem_of_nil, elem_of_empty. tauto. }
  pose proof (laco_atletas_reg_total _ _ _ _ _ ∅ _ _ _ _ Hvazio Hlaco) as [Htot Hcred].
  pose proof (laco_atletas_reg_sem_credito _ _ _ _ _ _ _ _ _ Hlaco) as Hsem.
  apply laco_atletas_reg_fatos in Hlaco. destruct Hlaco as (Hs & _).
  destruct (Hs eq_refl) as [Has Hj].
  cbn [grava Time.pontos Time.jogados Time.atletas Time.patrimonio Time.valor_time
       Time.ultima_pontuacao Time.rodada_atual].
  repeat split; try done.
  - by rewrite Htot.
  - intros Hreg0. by rewrite (Hsem Hreg0).
  - rewrite Hj. cbn [estado_inicial time_jogados]. f_equal; lia.
Qed.

(** ** When the call returns *)

Lemma _calculate_parcial_segue (t : Time.t) parciais partidas :
  Spec.wellFormedFeed parciais ->
  feed_sem_nulo parciais ->
  clubes_resolvidos (Time.atletas t) partidas ->
  exists t' : Time.t,
    _calculate_parcial (OTime t) parciais partidas = (Retorna, OTime t').
Proof.
  intros Hwf Hn Hc.
  destruct (_calculate_parcial_laco t parciais partidas) as [Hcalc _];
    [by apply wellFormedFeed_valido|].
  rewrite (laco_atletas_reg_segue parciais partidas (Time.atletas t)
             (Time.reservas t) estado_inicial Hn Hc) in Hcalc.
  eexists. exact Hcalc.
Qed.

Lemma _calculate_parcial_retorna (t : Time.t) parciais partidas :
  Spec.wellFormedFeed parciais ->
  feed_sem_nulo parciais ->
  clubes_resolvidos (Time.atletas t) partidas ->
  exists t' : Time.t,
    _calculate_parcial (OTime t) parciais partidas = (Retorna, OTime t')
    /\ Time.atletas t' = map (atleta_final parciais) (Time.atletas t)
    /\ Time.pontos t'
       = Some (Spec.teamTotal parciais partidas (default [] (Time.reservas t))
                              (Time.atletas t) ∅ 0)
    /\ map cr_pontos (creditos_do_passe (OTime t) parciais partidas)
       = Spec.substitutionCredits parciais partidas (default [] (Time.reservas t))
                                  (Time.atletas t) ∅
    /\ (creditos_do_passe (OTime t) parciais partidas = [] ->
        Time.pontos t' = Some (Spec.addOwnScores parciais 0 (Time.atletas t)))
    /\ Time.jogados t' = Some (conta_parciais parciais (Time.atletas t))
    /\ Forall (credito_do_passe parciais partidas (Time.atletas t))
              (creditos_do_passe (OTime t) parciais partidas)
    /\ Time.patrimonio t' = Time.patrimonio t
    /\ Time.valor_time t' = Time.valor_time t
    /\ Time.ultima_pontuacao t' = Time.ultima_pontuacao t
    /\ Time.rodada_atual t' = Time.rodada_atual t.
Proof.
  intros Hwf Hn Hc.
  destruct (_calculate_parcial_segue t parciais partidas Hwf Hn Hc) as [t' Hcalc].
  exists t'. split; [exact Hcalc|].
  by apply _calculate_parcial_retornou in Hcalc as (_ & H).
Qed.

(** ** What the loops read, and the shape of what they leave

    The loops read of a starter what [Spec.liveStarter] keeps of it and of
    a reserve its id and its position; they leave a prefix of the bench
    refreshed and the rest of it as it was. *)

Section Forma.

Variable parciais : gmap Chave Valor.
Variable partidas : list Partida.t.

Lemma cons_igual {A} (x y : A) (l k : list A) :
  x :: l = y :: k -> x = y /\ l = k.
Proof. intros H. by injection H. Qed.

Lemma reservas_ate_0 rs : reservas_ate parciais 0 rs = rs.
Proof. unfold reservas_ate. cbn. by rewrite drop_0. Qed.

Lemma reservas_ate_nil k : reservas_ate parciais k [] = [].
Proof. unfold reservas_ate. by rewrite take_nil, drop_nil. Qed.

Lemma reservas_ate_cons m r rs :
  reservas_ate parciais (S m) (r :: rs)
  = Spec.liveReserve parciais r :: reservas_ate parciais m rs.
Proof. reflexivity. Qed.

Lemma reservas_ate_tudo k rs :
  (length rs <= k)%nat -> reservas_ate parciais k rs = map (Spec.liveReserve parciais) rs.
Proof.
  intros H. unfold reservas_ate.
  rewrite take_ge, drop_ge by lia. by rewrite app_nil_r.
Qed.

Lemma reservas_ate_ate k m rs :
  reservas_ate parciais k (reservas_ate parciais m rs)
  = reservas_ate parciais (k `max` m) rs.
Proof.
  revert k m. induction rs as [|r rs IH]; intros k m.
  { by rewrite !reservas_ate_nil. }
  destruct k as [|k], m as [|m]; rewrite ?reservas_ate_0, ?Nat.max_0_r; try done.
  cbn [Nat.max]. rewrite !reservas_ate_cons. by rewrite IH.
Qed.

Lemma chave_reservas_ate k rs :
  map chave_reserva (reservas_ate parciais k rs) = map chave_reserva rs.
Proof.
  unfold reservas_ate. rewrite map_app, map_map.
  rewrite (map_ext (fun x => chave_reserva (Spec.liveReserve parciais x)) chave_reserva)
    by reflexivity.
  by rewrite <- map_app, take_drop.
Qed.

Lemma fmap_reservas_ate_0 (rs : option (list Atleta.t)) :
  reservas_ate parciais 0 <$> rs = rs.
Proof. destruct rs as [rs|]; [|done]. cbn. by rewrite reservas_ate_0. Qed.

Lemma fmap_reservas_ate_ate k m (rs : option (list Atleta.t)) :
  reservas_ate parciais k <$> (reservas_ate parciais m <$> rs)
  = reservas_ate parciais (k `max` m) <$> rs.
Proof. destruct rs as [rs|]; [|done]. cbn. by rewrite reservas_ate_ate. Qed.

Lemma fmap_chave_reservas_ate k (rs : option (list Atleta.t)) :
  map chave_reserva <$> (reservas_ate parciais k <$> rs) = map chave_reserva <$> rs.
Proof. destruct rs as [rs|]; [|done]. cbn. by rewrite chave_reservas_ate. Qed.

(** *** The body of the loop over the reserves *)

Lemma corpo_reserva_reg_chave atleta jf r r2 st :
  chave_reserva r2 = chave_reserva r ->
  corpo_reserva_reg parciais atleta jf r2 st
  = (Spec.liveReserve parciais r2,
     (corpo_reserva_reg parciais atleta jf r st).1.1.2,
     (corpo_reserva_reg parciais atleta jf r st).1.2,
     (corpo_reserva_reg parciais atleta jf r st).2).
Proof.
  unfold chave_reserva. intros [= Hid Hpos].
  rewrite !corpo_reserva_reg_casos. cbv zeta.
  unfold mesma_posicao, credito_capitao, credito_marcado. rewrite Hid, Hpos.
  destruct (truthy _); [reflexivity|].
  destruct (bool_decide (_ ∈ _)); [reflexivity|].
  destruct (bool_decide _ && jf); [|reflexivity].
  destruct (Spec.liveValue parciais (Atleta.id r)) as [v|]; [|reflexivity].
  by destruct (0.1 <=? v)%float.
Qed.

Lemma corpo_reserva_reg_break atleta jf r st :
  (corpo_reserva_reg parciais atleta jf r st).1.2 = Break ->
  truthy (Atleta.entrou_em_campo atleta) = true
  \/ Posicao.nome (Atleta.posicao atleta)
       ∈ reserva_usado (corpo_reserva_reg parciais atleta jf r st).1.1.2.
Proof.
  rewrite corpo_reserva_reg_casos. cbv zeta.
  destruct (truthy _); [by left|].
  destruct (bool_decide (_ ∈ _)) eqn:Hu.
  { intros _. right. by apply bool_decide_eq_true in Hu. }
  destruct (mesma_posicao atleta r) eqn:Hpos; cbn [andb]; [|discriminate].
  destruct jf; [|discriminate].
  destruct (Spec.liveValue parciais (Atleta.id r)) as [v|]; [|discriminate].
  destruct (0.1 <=? v)%float; [|discriminate].
  intros _. right. cbn. apply bool_decide_eq_true in Hpos. rewrite Hpos.
  apply elem_of_app. right. left.
Qed.

(** *** The loop over the reserves *)

Lemma laco_reservas_reg_forma atleta jf rs st :
  exists (K : nat) st' fim reg,
    (forall rs2,
        map chave_reserva rs2 = map chave_reserva rs ->
        laco_reservas_reg parciais atleta jf rs2 st
        = (reservas_ate parciais K rs2, st', fim, reg))
    /\ (rs <> [] -> (1 <= K)%nat)
    /\ (fim = Segue ->
        truthy (Atleta.entrou_em_campo atleta) = false ->
        Posicao.nome (Atleta.posicao atleta) ∉ reserva_usado st' ->
        (length rs <= K)%nat).
Proof.
  revert st. induction rs as [|r rs IH]; intros st.
  { exists 0%nat, st, Segue, []. split; [|split; [done|cbn; lia]].
    intros [|r2 rs2] H; [reflexivity|discriminate H]. }
  destruct (corpo_reserva_reg parciais atleta jf r st) as [[[r1 st1] c] reg1] eqn:Hcorpo.
  destruct c as [| |e].
  - destruct (IH st1) as (K & st' & fim & reg & Hlaco & _ & Htudo).
    exists (S K), st', fim, (reg1 ++ reg). split; [|split; [lia|]].
    + intros [|r2 rs2] H; [discriminate H|].
      cbn [map] in H. apply cons_igual in H. destruct H as [Hr Hrs].
      cbn [laco_reservas_reg].
      rewrite (corpo_reserva_reg_chave atleta jf r r2 st Hr), Hcorpo. cbn [fst snd].
      rewrite (Hlaco rs2 Hrs). reflexivity.
    + intros Hf He Hu. specialize (Htudo Hf He Hu). cbn [length]. lia.
  - exists 1%nat, st1, Segue, reg1. split; [|split; [lia|]].
    + intros [|r2 rs2] H; [discriminate H|].
      cbn [map] in H. apply cons_igual in H. destruct H as [Hr Hrs].
      cbn [laco_reservas_reg].
      rewrite (corpo_reserva_reg_chave atleta jf r r2 st Hr), Hcorpo. cbn [fst snd].
      rewrite reservas_ate_cons, reservas_ate_0. reflexivity.
    + intros _ He Hu. exfalso.
      pose proof (corpo_reserva_reg_break atleta jf r st) as Hb.
      rewrite Hcorpo in Hb. cbn [fst snd] in Hb.
      destruct (Hb eq_refl) as [H|H]; [congruence|done].
  - exists 1%nat, st1, (Excecao e), reg1. split; [|split; [lia|discriminate]].
    intros [|r2 rs2] H; [discriminate H|].
    cbn [map] in H. apply cons_igual in H. destruct H as [Hr Hrs].
    cbn [laco_reservas_reg].
    rewrite (corpo_reserva_reg_chave atleta jf r r2 st Hr), Hcorpo. cbn [fst snd].
    rewrite reservas_ate_cons, reservas_ate_0. reflexivity.
Qed.

Lemma se_reservas_reg_forma atleta jf rs st :
  exists (K : nat) st' fim reg,
    (forall rs2,
        map chave_reserva <$> rs2 = map chave_reserva <$> rs ->
        se_reservas_reg parciais atleta jf rs2 st
        = (reservas_ate parciais K <$> rs2, st', fim, reg))
    /\ (default [] rs <> [] -> (1 <= K)%nat)
    /\ (fim = Segue ->
        truthy (Atleta.entrou_em_campo atleta) = false ->
        Posicao.nome (Atleta.posicao atleta) ∉ reserva_usado st' ->
        (length (default [] rs) <= K)%nat).
Proof.
  destruct rs as [[|r rs]|].
  - exists 0%nat, st, Segue, []. split; [|split; [done|cbn; lia]].
    intros [[|r2 rs2]|] H; try discriminate H. reflexivity.
  - destruct (laco_reservas_reg_forma atleta jf (r :: rs) st)
      as (K & st' & fim & reg & Hlaco & H1 & Htudo).
    exists K, st', fim, reg. split; [|split; [exact H1|exact Htudo]].
    intros [[|r2 rs2]|] H; try discriminate H.
    cbn [fmap option_fmap option_map] in H. apply (inj Some) in H.
    unfold se_reservas_reg. by rewrite (Hlaco (r2 :: rs2) H).
  - exists 0%nat, st, Segue, []. split; [|split; [done|cbn; lia]].
    intros [[|r2 rs2]|] H; try discriminate H. reflexivity.
Qed.

(** *** One iteration of the loop over the starters *)

Lemma liveStarter_campos a b :
  Spec.liveStarter parciais a = Spec.liveStarter parciais b ->
  Atleta.id a = Atleta.id b
  /\ Atleta.clube a = Atleta.clube b
  /\ Atleta.is_capitao a = Atleta.is_capitao b
  /\ Atleta.posicao a = Atleta.posicao b
  /\ Atleta.apelido a = Atleta.apelido b.
Proof.
  intros H.
  split; [exact (f_equal Atleta.id H)|].
  split; [exact (f_equal Atleta.clube H)|].
  split; [exact (f_equal Atleta.is_capitao H)|].
  split; [exact (f_equal Atleta.posicao H)|exact (f_equal Atleta.apelido H)].
Qed.

Lemma atleta_final_live a b :
  Spec.liveStarter parciais a = Spec.liveStarter parciais b ->
  atleta_final parciais a = atleta_final parciais b.
Proof.
  intros H. unfold atleta_final. rewrite !atualiza_atleta_live. by rewrite H.
Qed.

Lemma corpo_atleta_reg_forma a rs st :
  exists a' (K : nat) st' fim reg,
    (forall a2 rs2,
        Spec.liveStarter parciais a2 = Spec.liveStarter parciais a ->
        map chave_reserva <$> rs2 = map chave_reserva <$> rs ->
        corpo_atleta_reg _teste parciais partidas a2 rs2 st
        = (a', reservas_ate parciais K <$> rs2, st', fim, reg))
    /\ Spec.liveStarter parciais a' = Spec.liveStarter parciais a
    /\ (fim = Segue -> a' = atleta_final parciais a)
    /\ (fim = Segue -> default [] rs <> [] -> (1 <= K)%nat)
    /\ (fim = Segue ->
        Spec.enteredPlay parciais (Atleta.id a) = false ->
        Posicao.nome (Atleta.posicao a) ∉ reserva_usado st' ->
        (length (default [] rs) <= K)%nat).
Proof.
  assert (Hdep : forall a2 rs2,
             Spec.liveStarter parciais a2 = Spec.liveStarter parciais a ->
             corpo_atleta_reg _teste parciais partidas a2 rs2 st
             = let a1 := Spec.liveStarter parciais a in
               let st0 := com_jogados st
                            (time_jogados st
                             + (if isinstance_Atleta (_teste parciais (Atleta.id a))
                                then 1 else 0)) in
               match jogo_finalizou (Atleta.clube a) partidas with
               | inl e => (a1, rs2, st0, Excecao e, [])
               | inr jf =>
                   match se_reservas_reg parciais a1 jf rs2 st0 with
                   | (rs', st1, Excecao e, reg) => (a1, rs', st1, Excecao e, reg)
                   | (rs', st1, Segue, reg) =>
                       match Spec.liveValue parciais (Atleta.id a) with
                       | None => (a1, rs', st1, Excecao TypeError, reg)
                       | Some v =>
                           (atleta_final parciais a, rs',
                            com_pontos st1
                              (time_pontos st1 + Spec.ownScore parciais a)%float,
                            Segue, reg)
                       end
                   end
               end).
  { intros a2 rs2 H. rewrite corpo_atleta_reg_casos.
    rewrite (atleta_final_live _ _ H).
    destruct (liveStarter_campos _ _ H) as (Hid & Hcl & Hcap & _).
    unfold Spec.ownScore. by rewrite H, Hid, Hcl, Hcap. }
  destruct (jogo_finalizou (Atleta.clube a) partidas) as [e|jf] eqn:Hjf.
  { exists (Spec.liveStarter parciais a), 0%nat,
      (com_jogados st
         (time_jogados st
          + (if isinstance_Atleta (_teste parciais (Atleta.id a)) then 1 else 0))),
      (Excecao e), [].
    split; [|split; [reflexivity|split; [discriminate|split; discriminate]]].
    intros a2 rs2 H _. rewrite (Hdep a2 rs2 H). cbv zeta.
    by rewrite fmap_reservas_ate_0. }
  destruct (se_reservas_reg_forma (Spec.liveStarter parciais a) jf rs
              (com_jogados st
                 (time_jogados st
                  + (if isinstance_Atleta (_teste parciais (Atleta.id a))
                     then 1 else 0))))
    as (K & st1 & fim1 & reg1 & Hse & H1 & Htudo).
  destruct fim1 as [|e].
  2:{ exists (Spec.liveStarter parciais a), K, st1, (Excecao e), reg1.
      split; [|split; [reflexivity|split; [discriminate|split; discriminate]]].
      intros a2 rs2 H Hrs. rewrite (Hdep a2 rs2 H). cbv zeta.
      by rewrite (Hse rs2 Hrs). }
  destruct (Spec.liveValue parciais (Atleta.id a)) as [v|] eqn:Hv.
  - exists (atleta_final parciais a), K,
      (com_pontos st1 (time_pontos st1 + Spec.ownScore parciais a)%float), Segue, reg1.
    split; [|split; [apply liveStarter_atleta_final|split; [done|split]]].
    + intros a2 rs2 H Hrs. rewrite (Hdep a2 rs2 H). cbv zeta.
      by rewrite (Hse rs2 Hrs).
    + intros _. exact H1.
    + intros _ He Hu. by apply Htudo.
  - exists (Spec.liveStarter parciais a), K, st1, (Excecao TypeError), reg1.
    split; [|split; [reflexivity|split; [discriminate|split; discriminate]]].
    intros a2 rs2 H Hrs. rewrite (Hdep a2 rs2 H). cbv zeta.
    by rewrite (Hse rs2 Hrs).
Qed.


(** *** The loop over the starters *)

Lemma laco_atletas_reg_forma atletas rs st :
  exists P (K : nat) st' fim reg,
    (forall atletas2 rs2,
        map (Spec.liveStarter parciais) atletas2
        = map (Spec.liveStarter parciais) atletas ->
        map chave_reserva <$> rs2 = map chave_reserva <$> rs ->
        laco_atletas_reg _teste parciais partidas atletas2 rs2 st
        = (P ++ drop (length P) atletas2, reservas_ate parciais K <$> rs2,
           st', fim, reg))
    /\ map (Spec.liveStarter parciais) P
       = map (Spec.liveStarter parciais) (take (length P) atletas)
    /\ (length P <= length atletas)%nat
    /\ (fim = Segue -> P = map (atleta_final parciais) atletas)
    /\ (fim = Segue -> atletas <> [] -> default [] rs <> [] -> (1 <= K)%nat)
    /\ (fim = Segue ->
        forall a, a ∈ atletas ->
                  Spec.enteredPlay parciais (Atleta.id a) = false ->
                  Posicao.nome (Atleta.posicao a) ∉ reserva_usado st' ->
                  (length (default [] rs) <= K)%nat).
Proof.
  revert rs st. induction atletas as [|a atletas IH]; intros rs st.
  { exists [], 0%nat, st, Segue, [].
    split; [|split; [done|split; [done|split; [done|split; [done|]]]]].
    - intros [|a2 as2] rs2 H _; [|discriminate H]. cbn.
      by rewrite fmap_reservas_ate_0.
    - intros _ a Ha. by apply elem_of_nil in Ha. }
  destruct (corpo_atleta_reg_forma a rs st)
    as (a' & K1 & st1 & fim1 & reg1 & Hc & Hlive & Hfin1 & H1 & Htudo1).
  destruct fim1 as [|e].
  2:{ exists [a'], K1, st1, (Excecao e), reg1.
      split; [|split; [|split; [cbn; lia|split; [discriminate|split; discriminate]]]].
      - intros [|a2 as2] rs2 H Hrs; [discriminate H|].
        cbn [map] in H. apply cons_igual in H. destruct H as [Ha Has].
        cbn [laco_atletas_reg]. rewrite (Hc a2 rs2 Ha Hrs). reflexivity.
      - cbn. by rewrite Hlive. }
  destruct (IH rs st1)
    as (P2 & K2 & st2 & fim2 & reg2 & Hl & HP & Hlen & Hfin2 & H2 & Htudo2).
  exists (a' :: P2), (K2 `max` K1)%nat, st2, fim2, (reg1 ++ reg2).
  split; [|split; [|split; [cbn; lia|split; [|split]]]].
  - intros [|a2 as2] rs2 H Hrs; [discriminate H|].
    cbn [map] in H. apply cons_igual in H. destruct H as [Ha Has].
    cbn [laco_atletas_reg]. rewrite (Hc a2 rs2 Ha Hrs).
    rewrite (Hl as2 (reservas_ate parciais K1 <$> rs2) Has);
      [|by rewrite fmap_chave_reservas_ate].
    by rewrite fmap_reservas_ate_ate.
  - cbn. by rewrite Hlive, HP.
  - intros Hf. cbn [map]. by rewrite (Hfin1 eq_refl), (Hfin2 Hf).
  - intros _ _ Hrs. specialize (H1 eq_refl Hrs). lia.
  - intros Hf a0 Ha0 He Hu.
    apply elem_of_cons in Ha0. destruct Ha0 as [-> | Ha0].
    + assert (Hu1 : Posicao.nome (Atleta.posicao a) ∉ reserva_usado st1).
      { pose proof (Hl atletas rs eq_refl eq_refl) as Hlaco.
        apply laco_atletas_reg_fatos in Hlaco. destruct Hlaco as (_ & Hu2 & _).
        intros Hin. apply Hu. rewrite Hu2. apply elem_of_app. by left. }
      specialize (Htudo1 eq_refl He Hu1). lia.
    + specialize (Htudo2 Hf a0 Ha0 He Hu). lia.
Qed.

End Forma.

(** The call in terms of the shape of its loops. *)
Lemma _calculate_parcial_forma (t : Time.t) parciais partidas :
  parciais_invalidos parciais = false ->
  exists P (K : nat) st' fim,
    (forall t2 : Time.t,
        map (Spec.liveStarter parciais) (Time.atletas t2)
        = map (Spec.liveStarter parciais) (Time.atletas t) ->
        map chave_reserva <$> Time.reservas t2 = map chave_reserva <$> Time.reservas t ->
        _calculate_parcial (OTime t2) parciais partidas
        = (desfecho_de fim,
           OTime (grava t2 (P ++ drop (length P) (Time.atletas t2))
                        (reservas_ate parciais K <$> Time.reservas t2) st')))
    /\ map (Spec.liveStarter parciais) P
       = map (Spec.liveStarter parciais) (take (length P) (Time.atletas t))
    /\ (length P <= length (Time.atletas t))%nat
    /\ (fim = Segue -> P = map (atleta_final parciais) (Time.atletas t))
    /\ (fim = Segue -> Time.atletas t <> [] -> default [] (Time.reservas t) <> [] ->
        (1 <= K)%nat)
    /\ (fim = Segue ->
        forall a, a ∈ Time.atletas t ->
                  Spec.enteredPlay parciais (Atleta.id a) = false ->
                  Posicao.nome (Atleta.posicao a) ∉ reserva_usado st' ->
                  (length (default [] (Time.reservas t)) <= K)%nat)
    /\ reserva_usado st'
       = map cr_posicao (List.filter cr_marca (creditos_do_passe (OTime t) parciais partidas)).
Proof.
  intros Hv.
  destruct (laco_atletas_reg_forma parciais partidas (Time.atletas t) (Time.reservas t)
              estado_inicial)
    as (P & K & st' & fim & reg & Hl & HP & Hlen & Hfin & H1 & Htudo).
  exists P, K, st', fim.
  split; [|split; [exact HP|split; [exact Hlen|split; [exact Hfin|
           split; [exact H1|split; [exact Htudo|]]]]]].
  - intros t2 Has Hrs.
    destruct (_calculate_parcial_laco t2 parciais partidas Hv) as [-> _].
    by rewrite (Hl _ _ Has Hrs).
  - destruct (_calculate_parcial_laco t parciais partidas Hv) as [_ ->].
    pose proof (Hl _ _ eq_refl eq_refl) as Hlaco. rewrite Hlaco. cbn [snd].
    apply laco_atletas_reg_fatos in Hlaco. by destruct Hlaco as (_ & -> & _).
Qed.

(** ** A second call *)

Lemma _calculate_parcial_idem (time : Objeto) parciais partidas :
  _calculate_parcial (_calculate_parcial time parciais partidas).2 parciais partidas
  = _calculate_parcial time parciais partidas.
Proof.
  destruct (parciais_invalidos parciais || negb (isinstance_Time time)) eqn:Hcheck.
  { unfold _calculate_parcial at 2. rewrite Hcheck. cbn [snd].
    unfold _calculate_parcial. by rewrite Hcheck. }
  destruct time as [t|]; [|by rewrite orb_true_r in Hcheck].
  rewrite orb_false_r in Hcheck.
  destruct (_calculate_parcial_forma t parciais partidas Hcheck)
    as (P & K & st' & fim & Hcalc & HP & Hlen & _).
  rewrite (Hcalc t eq_refl eq_refl). cbn [snd].
  rewrite Hcalc.
  - cbn [grava Time.atletas Time.reservas Time.patrimonio Time.valor_time
         Time.ultima_pontuacao Time.rodada_atual].
    rewrite drop_app_length, fmap_reservas_ate_ate, Nat.max_id. reflexivity.
  - cbn [grava Time.atletas]. rewrite map_app, HP, <- map_app, take_drop. reflexivity.
  - cbn [grava Time.reservas]. apply fmap_chave_reservas_ate.
Qed.

(** * The claims *)

(** The positions of the sample rounds are those of the table. *)
Example posicoes_do_exemplo :
  _posicoes 5 = Some Exemplo.atacante /\ _posicoes 4 = Some Exemplo.meia.
Proof. split; reflexivity. Qed.

(** C1, as the claim words it, fails: a feed that passes the check does
    not make the call return.  A starter whose club is [None] makes the
    scan of the matches raise [AttributeError] (line 500), after the first
    starter has been counted; and a record of the feed with a null score
    makes the sum raise [TypeError] (line 542). *)
Lemma C1_contraexemplo :
  (Spec.wellFormedFeed Exemplo.parciais_entrou
   /\ exists t' : Time.t,
       _calculate_parcial (OTime Exemplo.time_sem_clube) Exemplo.parciais_entrou
                          Exemplo.rodada = (Levanta AttributeError, OTime t')
       /\ Time.pontos t' = Some 8%float /\ Time.jogados t' = Some 2)
  /\ (Spec.wellFormedFeed Exemplo.parciais_nulo
      /\ exists t' : Time.t,
          _calculate_parcial (OTime Exemplo.time_sem_reservas) Exemplo.parciais_nulo
                             Exemplo.rodada = (Levanta TypeError, OTime t')
          /\ Time.pontos t' = Some 12%float /\ Time.jogados t' = Some 2).
Proof.
  split; (split; [apply wellFormedFeed_valido; vm_compute; reflexivity|]).
  - eexists. split; [vm_compute; reflexivity|]. split; reflexivity.
  - eexists. split; [vm_compute; reflexivity|]. split; reflexivity.
Qed.

(** C1, amended.  For a well-formed feed without null score and a roster
    none of whose starters has the club [None] (or with no match to scan)
    the call returns; and whenever the call returns, it returns the
    roster it was given, with [pontos] the float that results from
    starting at 0 and adding, for each starter in stored order, first the
    substitution credits of the rule of section 4.3 for that starter and
    then the live score found in the feed (0 if absent, times 1.5 for
    the captain), every addition and product rounded as a double, and
    with [jogados] the number of starters with an entry in the feed. *)
Theorem C1_pontos_e_jogados (t : Time.t) (parciais : gmap Chave Valor)
        (partidas : list Partida.t) :
  (Spec.wellFormedFeed parciais ->
   feed_sem_nulo parciais ->
   clubes_resolvidos (Time.atletas t) partidas ->
   exists t' : Time.t,
     _calculate_parcial (OTime t) parciais partidas = (Retorna, OTime t'))
  /\ (forall o, _calculate_parcial (OTime t) parciais partidas = (Retorna, o) ->
      exists t' : Time.t,
        o = OTime t'
        /\ Time.pontos t'
           = Some (Spec.teamTotal parciais partidas (default [] (Time.reservas t))
                                  (Time.atletas t) ∅ 0)
        /\ map cr_pontos (creditos_do_passe (OTime t) parciais partidas)
           = Spec.substitutionCredits parciais partidas
               (default [] (Time.reservas t)) (Time.atletas t) ∅
        /\ Time.jogados t' = Some (Spec.countPlayed parciais (Time.atletas t))
        /\ map Atleta.id (Time.atletas t') = map Atleta.id (Time.atletas t)
        /\ Time.patrimonio t' = Time.patrimonio t
        /\ Time.valor_time t' = Time.valor_time t
        /\ Time.ultima_pontuacao t' = Time.ultima_pontuacao t
        /\ Time.rodada_atual t' = Time.rodada_atual t).
Proof.
  split; [apply _calculate_parcial_segue|].
  intros o Hret.
  assert (exists t', o = OTime t') as [t' ->].
  { unfold _calculate_parcial in Hret.
    destruct (_ || _); [discriminate Hret|].
    destruct (laco_atletas _ _ _ _ _ _) as [[[as' rs'] st'] fim].
    injection Hret as _ <-. by eexists. }
  destruct (_calculate_parcial_retornou _ _ _ _ Hret)
    as (Hwf & Has & Hp & Hcred & _ & Hj & _ & H1 & H2 & H3 & H4).
  exists t'. split; [reflexivity|]. split; [exact Hp|]. split; [exact Hcred|].
  split; [by rewrite Hj, (conta_parciais_countPlayed _ _ Hwf)|].
  split; [|done].
  rewrite Has, map_map. apply map_ext. intros a.
  exact (f_equal Atleta.id (liveStarter_atleta_final parciais a)).
Qed.

Lemma C1_pontos_e_jogados_witness :
  Spec.wellFormedFeed Exemplo.parciais_capitao
  /\ feed_sem_nulo Exemplo.parciais_capitao
  /\ clubes_resolvidos (Time.atletas Exemplo.time_capitao) Exemplo.rodada
  /\ exists t' : Time.t,
      _calculate_parcial (OTime Exemplo.time_capitao) Exemplo.parciais_capitao
                         Exemplo.rodada = (Retorna, OTime t')
      /\ Time.pontos t'
         = Some (Spec.teamTotal Exemplo.parciais_capitao Exemplo.rodada
                   (default [] (Time.reservas Exemplo.time_capitao))
                   (Time.atletas Exemplo.time_capitao) ∅ 0)
      /\ Time.jogados t'
         = Some (Spec.countPlayed Exemplo.parciais_capitao
                                  (Time.atletas Exemplo.time_capitao)).
Proof.
  assert (H : Spec.wellFormedFeed Exemplo.parciais_capitao).
  { apply wellFormedFeed_valido. vm_compute. reflexivity. }
  assert (Hn : feed_sem_nulo Exemplo.parciais_capitao).
  { apply feed_sem_nulo_b_true. vm_compute. reflexivity. }
  assert (Hc : clubes_resolvidos (Time.atletas Exemplo.time_capitao) Exemplo.rodada).
  { right. by repeat constructor. }
  split; [exact H|]. split; [exact Hn|]. split; [exact Hc|].
  destruct (C1_pontos_e_jogados Exemplo.time_capitao Exemplo.parciais_capitao
                                Exemplo.rodada) as [Hret Hval].
  destruct (Hret H Hn Hc) as [t' Ht'].
  destruct (Hval _ Ht') as (t2 & Heq & H2 & _ & H4 & _).
  injection Heq as <-. by exists t'.
Defined.

(** The scenario of section 8 evaluated: 12 for the captain and the
    reserve's 4 twice. *)
Example cenario_capitao :
  exists t', _calculate_parcial (OTime Exemplo.time_capitao) Exemplo.parciais_capitao
                                Exemplo.rodada = (Retorna, OTime t')
             /\ Time.pontos t' = Some 20%float /\ Time.jogados t' = Some 1.
Proof. eexists. split; [vm_compute; reflexivity|]. split; reflexivity. Qed.

(** Scores that are no binary fractions: the captain's 0.7 becomes
    1.0499999999999998 and the total with the midfielder's 0.3 is
    1.3499999999999999, as in Python. *)
Example cenario_decimais :
  exists t' a,
    _calculate_parcial (OTime Exemplo.time_sem_reservas) Exemplo.parciais_decimais
                       Exemplo.rodada = (Retorna, OTime t')
    /\ Time.atletas t' !! 0%nat = Some a
    /\ Atleta.pontos a = Some 1.0499999999999998%float
    /\ Time.pontos t' = Some 1.3499999999999999%float.
Proof.
  eexists _, _. split; [vm_compute; reflexivity|].
  split; [reflexivity|]. split; reflexivity.
Qed.

(** C2, as the claim words it, fails: for a captain without live data
    whose match is finished, the credit of line 527 takes the points of
    the first reserve forward (-1), which does not qualify for the
    recording credit, and then those of the second one (3), which is
    credited once more by line 531.  Two reserves are credited for the
    one position. *)
Lemma C2_contraexemplo :
  creditos_do_passe (OTime Exemplo.time_dois_reservas) Exemplo.parciais_dois_reservas
                    Exemplo.rodada
  = [MkCredito 1 "Atacante" 2 (-1) false;
     MkCredito 1 "Atacante" 3 3 false;
     MkCredito 1 "Atacante" 3 3 true]
  /\ ~ um_reserva_por_posicao
         (creditos_do_passe (OTime Exemplo.time_dois_reservas)
                            Exemplo.parciais_dois_reservas Exemplo.rodada).
Proof.
  assert (H : creditos_do_passe (OTime Exemplo.time_dois_reservas)
                                Exemplo.parciais_dois_reservas Exemplo.rodada
              = [MkCredito 1 "Atacante" 2 (-1) false;
                 MkCredito 1 "Atacante" 3 3 false;
                 MkCredito 1 "Atacante" 3 3 true])
    by (vm_compute; reflexivity).
  split; [exact H|]. rewrite H. intros Hum.
  specialize (Hum (MkCredito 1 "Atacante" 2 (-1) false)
                  (MkCredito 1 "Atacante" 3 3 false)).
  cbn in Hum. assert (2 = 3) as Habs; [|discriminate Habs].
  apply Hum; [left|right; left|reflexivity].
Qed.

(** C2, amended.  In every pass, a credit that records its position (line
    531) is followed by no credit of any kind for that position and
    preceded by no other recording credit for it: a position is recorded
    at most once, by one reserve, and is closed from then on.  And every
    credit of the pass comes from a starter who did not enter play and
    whose match is finished, the credits that record nothing (line 527)
    from the captain. *)
Theorem C2_uma_marca_por_posicao (time : Objeto) (parciais : gmap Chave Valor)
        (partidas : list Partida.t) :
  (forall antes c depois,
      creditos_do_passe time parciais partidas = antes ++ c :: depois ->
      cr_marca c = true ->
      (forall c', c' ∈ depois -> cr_posicao c' <> cr_posicao c)
      /\ (forall c', c' ∈ antes -> cr_marca c' = true ->
                     cr_posicao c' <> cr_posicao c))
  /\ (forall c', c' ∈ creditos_do_passe time parciais partidas ->
        exists t a, time = OTime t /\ a ∈ Time.atletas t
                    /\ cr_titular c' = Atleta.id a
                    /\ cr_posicao c' = Posicao.nome (Atleta.posicao a)
                    /\ Spec.enteredPlay parciais (Atleta.id a) = false
                    /\ Spec.isMatchFinished (Atleta.clube a) partidas = true
                    /\ (cr_marca c' = false -> truthy (Atleta.is_capitao a) = true)).
Proof.
  unfold creditos_do_passe.
  destruct (parciais_invalidos parciais || negb (isinstance_Time time)) eqn:Hcheck.
  { split; [by intros [|??]|]. intros c' Hc'. by apply elem_of_nil in Hc'. }
  destruct time as [t|].
  2:{ split; [by intros [|??]|]. intros c' Hc'. by apply elem_of_nil in Hc'. }
  destruct (laco_atletas_reg _teste parciais partidas (Time.atletas t)
              (Time.reservas t) estado_inicial)
    as [[[[as' rs'] st'] fim] reg] eqn:Hlaco.
  cbn [snd].
  pose proof (laco_atletas_reg_origem _ _ _ _ _ _ _ _ _ _ Hlaco) as Horigem.
  apply laco_atletas_reg_fatos in Hlaco. destruct Hlaco as (_ & _ & _ & Hsem).
  split.
  - intros antes c depois Hreg Hmarca. subst reg. split.
    + apply Forall_forall. eapply sem_credito_depois_split; eauto.
    + intros c' Hin Hm' Heq.
      apply list_elem_of_split in Hin. destruct Hin as (l1 & l2 & ->).
      rewrite <- app_assoc in Hsem. cbn [app] in Hsem.
      pose proof (sem_credito_depois_split _ _ _ _ Hsem eq_refl Hm') as Hf.
      rewrite Forall_forall in Hf. apply (Hf c); [|done].
      apply elem_of_app. right. left.
  - intros c' Hin. rewrite Forall_forall in Horigem.
    destruct (Horigem c' Hin) as (a & Ha & H1 & H2 & _ & _ & H4 & _ & H6 & H7 & _).
    exists t, a. repeat split; try done.
Qed.

(** The theorem at a pass whose only credit is that of line 527 for the
    captain, from a reserve with -1, and at a pass with two recording
    credits. *)
Lemma C2_uma_marca_por_posicao_witness :
  (creditos_do_passe (OTime Exemplo6.time_um_reserva) Exemplo.parciais_dois_reservas
                     Exemplo.rodada
   = [MkCredito 1 "Atacante" 2 (-1) false]
   /\ exists t a, OTime Exemplo6.time_um_reserva = OTime t /\ a ∈ Time.atletas t
                  /\ Atleta.id a = 1
                  /\ Spec.enteredPlay Exemplo.parciais_dois_reservas (Atleta.id a)
                     = false
                  /\ Spec.isMatchFinished (Atleta.clube a) Exemplo.rodada = true
                  /\ truthy (Atleta.is_capitao a) = true)
  /\ (creditos_do_passe (OTime Exemplo.time_duas_posicoes)
                        Exemplo.parciais_duas_posicoes Exemplo.rodada
      = [] ++ MkCredito 1 "Meia" 4 4 true :: [MkCredito 2 "Atacante" 3 5 true]
      /\ forall c', c' ∈ [MkCredito 2 "Atacante" 3 5 true] ->
                    cr_posicao c' <> cr_posicao (MkCredito 1 "Meia" 4 4 true)).
Proof.
  split.
  - assert (H : creditos_do_passe (OTime Exemplo6.time_um_reserva)
                                  Exemplo.parciais_dois_reservas Exemplo.rodada
                = [MkCredito 1 "Atacante" 2 (-1) false])
      by (vm_compute; reflexivity).
    split; [exact H|].
    destruct (proj2 (C2_uma_marca_por_posicao (OTime Exemplo6.time_um_reserva)
                       Exemplo.parciais_dois_reservas Exemplo.rodada)
                    (MkCredito 1 "Atacante" 2 (-1) false))
      as (t & a & Ht & Ha & Hid & _ & He & Hf & Hc).
    { rewrite H. left. }
    exists t, a. split; [exact Ht|]. split; [exact Ha|]. split; [by rewrite <- Hid|].
    split; [exact He|]. split; [exact Hf|]. by apply Hc.
  - assert (H : creditos_do_passe (OTime Exemplo.time_duas_posicoes)
                                  Exemplo.parciais_duas_posicoes Exemplo.rodada
                = [] ++ MkCredito 1 "Meia" 4 4 true :: [MkCredito 2 "Atacante" 3 5 true])
      by (vm_compute; reflexivity).
    split; [exact H|].
    exact (proj1 (proj1 (C2_uma_marca_por_posicao _ _ _) _ _ _ H eq_refl)).
Defined.

(** C3 fails on the code.  A starter who entered play ends the loop over
    the reserves at its first reserve ([else: break], line 537): the first
    reserve is refreshed from the feed and the second one, although the
    feed has 5 points for it, keeps the 9 points and the scout it had. *)
Theorem C3_reserva_nao_atualizada :
  Spec.enteredPlay Exemplo.parciais_entrou 1 = true
  /\ Spec.liveScore Exemplo.parciais_entrou 3 = 5%float
  /\ exists t' r2 r3,
      _calculate_parcial (OTime Exemplo.time_entrou) Exemplo.parciais_entrou
                         Exemplo.rodada = (Retorna, OTime t')
      /\ Time.reservas t' = Some [r2; r3]
      /\ r2 = Spec.liveReserve Exemplo.parciais_entrou
                (Exemplo.escalado 2 "Savarino" Exemplo.meia Exemplo.botafogo false 6.1)
      /\ r3 = Exemplo.escalado 3 "Tiquinho" Exemplo.atacante Exemplo.botafogo false 9
      /\ Atleta.pontos r3 = Some 9%float
      /\ Atleta.scout r3 = ScoutStr
      /\ r3 <> Spec.liveReserve Exemplo.parciais_entrou r3.
Proof.
  split; [reflexivity|]. split; [reflexivity|].
  eexists _, _, _. split; [vm_compute; reflexivity|].
  split; [reflexivity|]. split; [reflexivity|]. split; [reflexivity|].
  split; [reflexivity|]. split; [reflexivity|].
  intros H. apply (f_equal Atleta.scout) in H. discriminate H.
Qed.

(** The general form of the above: whatever the feed, an iteration for a
    starter who entered play, or whose position is already in
    [reserva_usado], refreshes the first reserve and no other. *)
Lemma se_reservas_so_o_primeiro parciais atleta jf r rs st :
  truthy (Atleta.entrou_em_campo atleta) = true
  \/ Posicao.nome (Atleta.posicao atleta) ∈ reserva_usado st ->
  (se_reservas parciais atleta jf (Some (r :: rs)) st).1.1
  = Some (Spec.liveReserve parciais r :: rs).
Proof.
  intros H. rewrite <- se_reservas_reg_apaga.
  cbn [se_reservas_reg laco_reservas_reg]. rewrite corpo_reserva_reg_casos. cbv zeta.
  destruct (truthy (Atleta.entrou_em_campo atleta)); [reflexivity|].
  destruct H as [H|H]; [discriminate|].
  by rewrite bool_decide_eq_true_2 by exact H.
Qed.

(** C4.  A feed with a key that is not an [int] or a value that is not an
    [Atleta], or an argument that is not a [Time], makes the call raise
    [CartolaFCError], and the argument is in the state it was in. *)
Theorem C4_entrada_invalida (time : Objeto) (parciais : gmap Chave Valor)
        (partidas : list Partida.t) :
  (exists k v, parciais !! k = Some v
               /\ (isinstance_int k = false \/ isinstance_Atleta (Some v) = false))
  \/ isinstance_Time time = false ->
  _calculate_parcial time parciais partidas
  = (Levanta (CartolaFCError mensagem_invalido), time).
Proof.
  intros H. unfold _calculate_parcial.
  assert (Hc : parciais_invalidos parciais || negb (isinstance_Time time) = true).
  { apply orb_true_iff. destruct H as [H|H].
    - left. by apply parciais_invalidos_true.
    - right. by rewrite H. }
  by rewrite Hc.
Qed.

Lemma C4_entrada_invalida_witness :
  ((exists k v, Exemplo.parciais_json !! k = Some v
                /\ (isinstance_int k = false \/ isinstance_Atleta (Some v) = false))
   \/ isinstance_Time (OTime Exemplo.time_capitao) = false)
  /\ _calculate_parcial (OTime Exemplo.time_capitao) Exemplo.parciais_json Exemplo.rodada
     = (Levanta (CartolaFCError mensagem_invalido), OTime Exemplo.time_capitao).
Proof.
  assert (H : (exists k v, Exemplo.parciais_json !! k = Some v
                /\ (isinstance_int k = false \/ isinstance_Atleta (Some v) = false))
              \/ isinstance_Time (OTime Exemplo.time_capitao) = false).
  { left. exists (KStr "1"), VOutro. split; [reflexivity|]. left. reflexivity. }
  split; [exact H|].
  exact (C4_entrada_invalida (OTime Exemplo.time_capitao) Exemplo.parciais_json
                             Exemplo.rodada H).
Defined.

Lemma referencesClub_joga c p :
  Spec.referencesClub c p = true <-> clube_joga c p.
Proof.
  unfold Spec.referencesClub, clube_joga.
  rewrite orb_true_iff, !bool_decide_eq_true. reflexivity.
Qed.

Lemma filter_sem_jogo c ps :
  (forall p, p ∈ ps -> ~ clube_joga c p) ->
  List.filter (Spec.referencesClub c) ps = [].
Proof.
  induction ps as [|p ps IH]; intros H; [reflexivity|]. cbn [List.filter].
  destruct (Spec.referencesClub c p) eqn:Hp.
  - exfalso. apply (H p); [left|]. by apply referencesClub_joga.
  - apply IH. intros q Hq. apply H. by right.
Qed.

(** C6 fails on the code for a club reference that is unresolved.
    [Atleta.from_dict] stores [None] for a club id that is not in the
    table of the clubs; the guard of line 499 tests against the empty
    string only, so with a match to scan the comparison
    [atleta.clube.nome] raises [AttributeError] where the specification
    answers false.  For the other references the scan is as the claim
    says: false for the empty club, for an empty match list and when no
    match has the club at home or away; otherwise the last match of the
    list with the club decides, and the answer is true exactly when its
    transmission says that it is over (the label 'veja como foi' or the
    status 'ENCERRADA') or the match is not valid. *)
Theorem C6_clube_nao_resolvido (clube : ClubeRef) (partidas : list Partida.t) :
  (clube = ClubeNone -> partidas <> [] ->
   jogo_finalizou clube partidas = inl AttributeError
   /\ Spec.isMatchFinished clube partidas = false)
  /\ (clube = ClubeVazio \/ partidas = [] -> jogo_finalizou clube partidas = inr false)
  /\ (forall c, clube = ClubeDe c ->
                (forall p, p ∈ partidas -> ~ clube_joga c p) ->
                jogo_finalizou clube partidas = inr false)
  /\ (forall c antes p depois,
        clube = ClubeDe c ->
        partidas = antes ++ p :: depois ->
        clube_joga c p ->
        (forall q, q ∈ depois -> ~ clube_joga c q) ->
        exists b, jogo_finalizou clube partidas = inr b
                  /\ (b = true
                      <-> (Partida.fim_de_jogo p = "veja como foi"%string
                           \/ Partida.status_transmissao_tr p = "ENCERRADA"%string)
                          \/ Partida.valida p = false)).
Proof.
  split; [|split; [|split]].
  - intros -> Hps. destruct partidas as [|p ps]; [done|].
    split; [apply jogo_finalizou_None|reflexivity].
  - intros [-> | ->].
    + by rewrite jogo_finalizou_spec by (by left).
    + rewrite jogo_finalizou_spec by (by right). by destruct clube.
  - intros c -> Hsem. rewrite jogo_finalizou_spec by (by left).
    cbn. by rewrite filter_sem_jogo.
  - intros c antes p depois -> -> Hp Hdepois.
    rewrite jogo_finalizou_spec by (by left). eexists. split; [reflexivity|].
    cbn. rewrite List.filter_app. cbn [List.filter].
    apply referencesClub_joga in Hp. rewrite Hp.
    rewrite (filter_sem_jogo _ _ Hdepois), last_snoc.
    unfold Spec.signalFinished.
    rewrite !orb_true_iff, !bool_decide_eq_true, negb_true_iff. reflexivity.
Qed.

Lemma C6_clube_nao_resolvido_witness :
  (jogo_finalizou ClubeNone Exemplo.rodada = inl AttributeError
   /\ Spec.isMatchFinished ClubeNone Exemplo.rodada = false)
  /\ jogo_finalizou ClubeVazio Exemplo.rodada = inr false
  /\ jogo_finalizou ClubeNone [] = inr false
  /\ jogo_finalizou (ClubeDe Exemplo.palmeiras) [Exemplo.encerrada] = inr false
  /\ exists b,
      jogo_finalizou (ClubeDe Exemplo.flamengo) Exemplo.rodada_repetida = inr b
      /\ (b = true
          <-> (Partida.fim_de_jogo Exemplo.adiada = "veja como foi"%string
               \/ Partida.status_transmissao_tr Exemplo.adiada = "ENCERRADA"%string)
              \/ Partida.valida Exemplo.adiada = false).
Proof.
  split; [|split; [|split; [|split]]].
  - apply (proj1 (C6_clube_nao_resolvido ClubeNone Exemplo.rodada) eq_refl).
    discriminate.
  - exact (proj1 (proj2 (C6_clube_nao_resolvido ClubeVazio Exemplo.rodada))
                 (or_introl eq_refl)).
  - exact (proj1 (proj2 (C6_clube_nao_resolvido ClubeNone []))
                 (or_intror eq_refl)).
  - apply (proj1 (proj2 (proj2 (C6_clube_nao_resolvido (ClubeDe Exemplo.palmeiras)
                                                       [Exemplo.encerrada])))
                 Exemplo.palmeiras eq_refl).
    intros p Hp [H|H]; apply list_elem_of_singleton in Hp; subst p;
      vm_compute in H; discriminate H.
  - apply (proj2 (proj2 (proj2 (C6_clube_nao_resolvido (ClubeDe Exemplo.flamengo)
                                                       Exemplo.rodada_repetida)))
                 Exemplo.flamengo [Exemplo.encerrada; Exemplo.em_andamento]
                 Exemplo.adiada [] eq_refl eq_refl).
    + right. reflexivity.
    + intros q Hq. by apply elem_of_nil in Hq.
Defined.

(** In that list the first match of the club is over and the last one is
    not: the answer is that of the last one. *)
Example ultima_partida_decide :
  jogo_finalizou (ClubeDe Exemplo.flamengo) [Exemplo.encerrada] = inr true
  /\ jogo_finalizou (ClubeDe Exemplo.flamengo) Exemplo.rodada_repetida = inr false.
Proof. split; reflexivity. Qed.

(** The unresolved club in a pass: [Time.from_dict] builds the roster
    from a payload whose second athlete has a club id that is not in the
    table, and the pass over that roster raises [AttributeError] at the
    second starter, after counting it, and leaves [pontos] with the 8
    points of the first. *)
Example passe_com_clube_nao_resolvido :
  exists tc t',
    Time_from_dict Exemplo5.data_sem_clube Exemplo5.clubes (Some 11) = inr tc
    /\ map Construido.clube (TimeConstruido.atletas tc)
       = [ClubeDe Exemplo.flamengo; ClubeNone]
    /\ Spec.wellFormedFeed Exemplo5.parciais
    /\ _calculate_parcial (OTime (time_do_passe tc)) Exemplo5.parciais Exemplo.rodada
       = (Levanta AttributeError, OTime t')
    /\ Time.pontos t' = Some 8%float
    /\ Time.jogados t' = Some 2.
Proof.
  eexists _, _. split; [vm_compute; reflexivity|].
  split; [reflexivity|].
  split; [apply wellFormedFeed_valido; vm_compute; reflexivity|].
  split; [vm_compute; reflexivity|]. split; reflexivity.
Qed.

(** ** The starter's own score *)

Lemma pontos_atleta_final parciais a :
  Atleta.pontos (atleta_final parciais a)
  = if truthy (Atleta.is_capitao a)
    then match Spec.liveValue parciais (Atleta.id a) with
         | Some v => Some (v * 1.5)%float
         | None => None
         end
    else Spec.liveValue parciais (Atleta.id a).
Proof.
  unfold atleta_final. rewrite atualiza_atleta_live.
  cbn [Spec.liveStarter Atleta.is_capitao].
  destruct (truthy (Atleta.is_capitao a)); [|reflexivity].
  unfold vezes_capitao, vezes_igual. cbn [Spec.liveStarter Atleta.pontos].
  destruct (Spec.liveValue parciais (Atleta.id a)) eqn:Hv;
    cbn [com_pontos_atleta Spec.liveStarter Atleta.pontos]; rewrite ?Hv; reflexivity.
Qed.

Lemma creditos_sem_multiplicador parciais atleta jf usado reg :
  Forall (credito_de parciais atleta jf usado) reg ->
  Forall (fun c => Spec.liveValue parciais (cr_reserva c) = Some (cr_pontos c)) reg.
Proof.
  intros H. eapply Forall_impl; [exact H|]. by intros c (_ & _ & Hc & _).
Qed.

(** C5.  A captain with live score [p] in the feed has [p * 1.5] as its
    own score.  Its iteration adds the credits of the reserves first,
    each one the reserve's live score as the feed has it and never
    multiplied, and then, when no exception ends it, leaves the captain
    with [p * 1.5] and adds exactly that to [pontos], whatever the scan
    of the reserves did; an iteration that an exception ends leaves the
    captain with [p].  So in every call that returns the captain has
    [p * 1.5]; and the call returns for a well-formed feed without null
    score and starters whose clubs are not [None]. *)
Theorem C5_multiplicador_do_capitao (parciais : gmap Chave Valor)
        (partidas : list Partida.t) (a ap : Atleta.t) (p : float) :
  truthy (Atleta.is_capitao a) = true ->
  parciais !! KInt (Atleta.id a) = Some (VAtleta ap) ->
  Atleta.pontos ap = Some p ->
  Spec.ownScore parciais a = (p * 1.5)%float
  /\ (forall rs st a' rs' st' fim reg,
        corpo_atleta_reg _teste parciais partidas a rs st = (a', rs', st', fim, reg) ->
        Forall (fun c => Spec.liveValue parciais (cr_reserva c) = Some (cr_pontos c)) reg
        /\ (fim = Segue ->
            Atleta.pontos a' = Some (p * 1.5)%float
            /\ time_pontos st' = (soma_em (time_pontos st) reg + p * 1.5)%float)
        /\ (fim <> Segue ->
            Atleta.pontos a' = Some p
            /\ time_pontos st' = soma_em (time_pontos st) reg))
  /\ (forall (t t' : Time.t) (i : nat),
        Time.atletas t !! i = Some a ->
        _calculate_parcial (OTime t) parciais partidas = (Retorna, OTime t') ->
        (exists a', Time.atletas t' !! i = Some a'
                    /\ Atleta.pontos a' = Some (p * 1.5)%float)
        /\ Time.pontos t'
           = Some (Spec.teamTotal parciais partidas (default [] (Time.reservas t))
                                  (Time.atletas t) ∅ 0)
        /\ Forall (fun c => Spec.liveValue parciais (cr_reserva c) = Some (cr_pontos c))
                  (creditos_do_passe (OTime t) parciais partidas))
  /\ (forall t : Time.t,
        Spec.wellFormedFeed parciais ->
        feed_sem_nulo parciais ->
        clubes_resolvidos (Time.atletas t) partidas ->
        exists t' : Time.t,
          _calculate_parcial (OTime t) parciais partidas = (Retorna, OTime t')).
Proof.
  intros Hcap Hap Hp.
  assert (Hv : Spec.liveValue parciais (Atleta.id a) = Some p).
  { unfold Spec.liveValue, Spec.liveRecord. by rewrite Hap. }
  assert (Hown : Spec.ownScore parciais a = (p * 1.5)%float).
  { unfold Spec.ownScore, Spec.liveScore. by rewrite Hcap, Hv. }
  split; [exact Hown|]. split; [|split].
  - intros rs st a' rs' st' fim reg Hcorpo.
    apply corpo_atleta_reg_fatos in Hcorpo.
    destruct Hcorpo as (_ & Hs & Hn & _ & _ & Hreg & _).
    split; [by eapply creditos_sem_multiplicador|]. split.
    + intros Hfim. destruct (Hs Hfim) as (-> & _ & Ht).
      split; [by rewrite pontos_atleta_final, Hcap, Hv|]. by rewrite Ht, Hown.
    + intros Hfim. destruct (Hn Hfim) as (-> & Ht).
      split; [exact Hv|exact Ht].
  - intros t t' i Hi Hret.
    destruct (_calculate_parcial_retornou _ _ _ _ Hret)
      as (_ & Has & Hpt & _ & _ & _ & Horigem & _).
    split; [|split; [exact Hpt|]].
    + exists (atleta_final parciais a).
      split; [by rewrite Has, list_lookup_fmap, Hi|].
      by rewrite pontos_atleta_final, Hcap, Hv.
    + eapply Forall_impl; [exact Horigem|].
      by intros c (b & _ & _ & _ & H & _).
  - intros t. apply _calculate_parcial_segue.
Qed.

Lemma C5_multiplicador_do_capitao_witness :
  truthy (Atleta.is_capitao
            (Exemplo.escalado 1 "Pedro" Exemplo.atacante Exemplo.flamengo true 3.2))
  = true
  /\ Spec.ownScore Exemplo.parciais_capitao
       (Exemplo.escalado 1 "Pedro" Exemplo.atacante Exemplo.flamengo true 3.2)
     = (8 * 1.5)%float
  /\ exists (t' : Time.t) (a' : Atleta.t),
      _calculate_parcial (OTime Exemplo.time_capitao) Exemplo.parciais_capitao
                         Exemplo.rodada = (Retorna, OTime t')
      /\ Time.atletas t' !! 0%nat = Some a'
      /\ Atleta.pontos a' = Some (8 * 1.5)%float
      /\ Forall (fun c => Spec.liveValue Exemplo.parciais_capitao (cr_reserva c)
                          = Some (cr_pontos c))
                (creditos_do_passe (OTime Exemplo.time_capitao)
                                   Exemplo.parciais_capitao Exemplo.rodada).
Proof.
  split; [reflexivity|].
  destruct (C5_multiplicador_do_capitao Exemplo.parciais_capitao Exemplo.rodada
              (Exemplo.escalado 1 "Pedro" Exemplo.atacante Exemplo.flamengo true 3.2)
              (Atleta.Build 1 "Pedro" None (Some 8%float) (ScoutDict {["DS" := 1]})
                            Exemplo.atacante (Some false) (ClubeDe Exemplo.flamengo)
                            None)
              8%float eq_refl eq_refl eq_refl)
    as (Hown & _ & Hcall & Hret).
  split; [exact Hown|].
  destruct (Hret Exemplo.time_capitao) as [t' Ht'].
  { apply wellFormedFeed_valido. vm_compute. reflexivity. }
  { apply feed_sem_nulo_b_true. vm_compute. reflexivity. }
  { right. by repeat constructor. }
  destruct (Hcall Exemplo.time_capitao t' 0%nat eq_refl Ht')
    as ((a' & Ha' & Hpa) & _ & Hcr).
  by exists t', a'.
Defined.

(** In that pass the substitution did fire for the captain's position:
    the reserve's 4 is credited twice, as it is, and the captain's 8
    becomes 12. *)
Example capitao_com_substituicao :
  creditos_do_passe (OTime Exemplo.time_capitao) Exemplo.parciais_capitao Exemplo.rodada
  = [MkCredito 1 "Atacante" 2 4 false; MkCredito 1 "Atacante" 2 4 true].
Proof. vm_compute. reflexivity. Qed.

(** C7.  A starter whose id has no entry in the feed has own score 0 and
    is not counted; the score assigned before the captain's
    multiplication is 0; and its iteration, however it ends, leaves it
    with the empty name, score 0 (0 times 1.5 for a captain), the empty
    scout and the flag false, leaves [jogados] as it was and adds to
    [pontos] the credits of the reserves and, when no exception ends it,
    the 0 of the starter.  So has the starter in every call that
    returns. *)
Theorem C7_titular_sem_parcial (parciais : gmap Chave Valor)
        (partidas : list Partida.t) (a : Atleta.t) :
  parciais !! KInt (Atleta.id a) = None ->
  Spec.ownScore parciais a = 0%float
  /\ Spec.countPlayed parciais [a] = 0
  /\ Atleta.pontos (atualiza_atleta a (_teste parciais (Atleta.id a))) = Some 0%float
  /\ (forall rs st a' rs' st' fim reg,
        corpo_atleta_reg _teste parciais partidas a rs st = (a', rs', st', fim, reg) ->
        Atleta.nome a' = Some ""%string
        /\ Atleta.pontos a' = Some 0%float
        /\ Atleta.scout a' = ScoutDict ∅
        /\ Atleta.entrou_em_campo a' = Some false
        /\ time_jogados st' = time_jogados st
        /\ (fim = Segue ->
            time_pontos st' = (soma_em (time_pontos st) reg + 0)%float)
        /\ (fim <> Segue -> time_pontos st' = soma_em (time_pontos st) reg))
  /\ (forall (t t' : Time.t) (i : nat),
        Time.atletas t !! i = Some a ->
        _calculate_parcial (OTime t) parciais partidas = (Retorna, OTime t') ->
        exists a', Time.atletas t' !! i = Some a'
                   /\ Atleta.nome a' = Some ""%string
                   /\ Atleta.pontos a' = Some 0%float
                   /\ Atleta.scout a' = ScoutDict ∅
                   /\ Atleta.entrou_em_campo a' = Some false)
  /\ (forall t : Time.t,
        Spec.wellFormedFeed parciais ->
        feed_sem_nulo parciais ->
        clubes_resolvidos (Time.atletas t) partidas ->
        exists t' : Time.t,
          _calculate_parcial (OTime t) parciais partidas = (Retorna, OTime t')).
Proof.
  intros Hnone.
  assert (Hv : Spec.liveValue parciais (Atleta.id a) = Some 0%float).
  { unfold Spec.liveValue, Spec.liveRecord. by rewrite Hnone. }
  assert (Hown : Spec.ownScore parciais a = 0%float).
  { unfold Spec.ownScore, Spec.liveScore. rewrite Hv.
    destruct (truthy _); reflexivity. }
  assert (Hlive : Spec.liveStarter parciais a
                  = Atleta.Build (Atleta.id a) (Atleta.apelido a) (Some ""%string)
                                 (Some 0%float) (ScoutDict ∅) (Atleta.posicao a)
                                 (Some false) (Atleta.clube a) (Atleta.is_capitao a)).
  { unfold Spec.liveStarter, Spec.liveName, Spec.liveValue, Spec.liveScout,
      Spec.liveFlag, Spec.liveRecord. by rewrite Hnone. }
  assert (Hfinal : atleta_final parciais a = Spec.liveStarter parciais a).
  { unfold atleta_final. rewrite atualiza_atleta_live, Hlive.
    cbn [Atleta.is_capitao]. by destruct (truthy (Atleta.is_capitao a)). }
  split; [exact Hown|]. split; [|split; [|split; [|split]]].
  - unfold Spec.countPlayed. cbn [List.filter]. by rewrite Hnone.
  - by rewrite atualiza_atleta_live, Hlive.
  - intros rs st a' rs' st' fim reg Hcorpo.
    apply corpo_atleta_reg_fatos in Hcorpo.
    destruct Hcorpo as (_ & Hs & Hn & Hj & _).
    assert (Ha' : a' = Spec.liveStarter parciais a).
    { destruct fim as [|e].
      - destruct (Hs eq_refl) as (-> & _). exact Hfinal.
      - by destruct (Hn ltac:(discriminate)) as (-> & _). }
    subst a'. rewrite Hlive. cbn [Atleta.nome Atleta.pontos Atleta.scout
                                  Atleta.entrou_em_campo].
    do 4 (split; [reflexivity|]). split; [|split].
    + rewrite Hj. unfold _teste, dict_get. rewrite Hnone.
      cbn [isinstance_Atleta]. lia.
    + intros Hfim. destruct (Hs Hfim) as (_ & _ & Ht). by rewrite Ht, Hown.
    + intros Hfim. by destruct (Hn Hfim) as (_ & Ht).
  - intros t t' i Hi Hret.
    destruct (_calculate_parcial_retornou _ _ _ _ Hret) as (_ & Has & _).
    exists (atleta_final parciais a).
    split; [by rewrite Has, list_lookup_fmap, Hi|].
    rewrite Hfinal, Hlive. by repeat split.
  - intros t. apply _calculate_parcial_segue.
Qed.

Lemma C7_titular_sem_parcial_witness :
  Exemplo.parciais_dois_reservas !! KInt 1 = None
  /\ Spec.ownScore Exemplo.parciais_dois_reservas
       (Exemplo.escalado 1 "Pedro" Exemplo.atacante Exemplo.flamengo true 3.2)
     = 0%float
  /\ exists (t' : Time.t) (a' : Atleta.t),
      _calculate_parcial (OTime Exemplo.time_dois_reservas)
                         Exemplo.parciais_dois_reservas Exemplo.rodada
      = (Retorna, OTime t')
      /\ Time.atletas t' !! 0%nat = Some a'
      /\ Atleta.nome a' = Some ""%string
      /\ Atleta.pontos a' = Some 0%float
      /\ Atleta.scout a' = ScoutDict ∅
      /\ Atleta.entrou_em_campo a' = Some false.
Proof.
  split; [reflexivity|].
  destruct (C7_titular_sem_parcial Exemplo.parciais_dois_reservas Exemplo.rodada
              (Exemplo.escalado 1 "Pedro" Exemplo.atacante Exemplo.flamengo true 3.2)
              eq_refl)
    as (Hown & _ & _ & _ & Hcall & Hret).
  split; [exact Hown|].
  destruct (Hret Exemplo.time_dois_reservas) as [t' Ht'].
  { apply wellFormedFeed_valido. vm_compute. reflexivity. }
  { apply feed_sem_nulo_b_true. vm_compute. reflexivity. }
  { right. by repeat constructor. }
  destruct (Hcall Exemplo.time_dois_reservas t' 0%nat eq_refl Ht') as (a' & Ha').
  by exists t', a'.
Defined.

(** C8.  A second call on the object that the first call left, with the
    same feed and the same matches, ends as the first one did and leaves
    the same [pontos] and [jogados]; and what a call leaves does not
    depend on the [pontos] and [jogados] that the roster had before: both
    are set to 0 and computed again. *)
Theorem C8_chamada_repetida (time : Objeto) (parciais : gmap Chave Valor)
        (partidas : list Partida.t) :
  (_calculate_parcial (_calculate_parcial time parciais partidas).2 parciais partidas).1
  = (_calculate_parcial time parciais partidas).1
  /\ pontos_de (_calculate_parcial (_calculate_parcial time parciais partidas).2
                                   parciais partidas).2
     = pontos_de (_calculate_parcial time parciais partidas).2
  /\ jogados_de (_calculate_parcial (_calculate_parcial time parciais partidas).2
                                    parciais partidas).2
     = jogados_de (_calculate_parcial time parciais partidas).2
  /\ (forall (t : Time.t) (p : Pontos) (j : option Z),
        Spec.wellFormedFeed parciais ->
        _calculate_parcial (OTime (com_contadores t p j)) parciais partidas
        = _calculate_parcial (OTime t) parciais partidas).
Proof.
  rewrite _calculate_parcial_idem. repeat split.
  intros t p j Hwf. unfold _calculate_parcial. cbn [isinstance_Time negb].
  by rewrite (proj1 (wellFormedFeed_valido parciais) Hwf).
Qed.

Lemma C8_chamada_repetida_witness :
  Spec.wellFormedFeed Exemplo.parciais_capitao
  /\ pontos_de (_calculate_parcial
                  (_calculate_parcial (OTime Exemplo.time_capitao)
                                      Exemplo.parciais_capitao Exemplo.rodada).2
                  Exemplo.parciais_capitao Exemplo.rodada).2
     = pontos_de (_calculate_parcial (OTime Exemplo.time_capitao)
                                     Exemplo.parciais_capitao Exemplo.rodada).2
  /\ _calculate_parcial (OTime (com_contadores Exemplo.time_capitao (Some 1000%float)
                                               (Some 40)))
                        Exemplo.parciais_capitao Exemplo.rodada
     = _calculate_parcial (OTime Exemplo.time_capitao) Exemplo.parciais_capitao
                          Exemplo.rodada.
Proof.
  assert (H : Spec.wellFormedFeed Exemplo.parciais_capitao).
  { apply wellFormedFeed_valido. vm_compute. reflexivity. }
  split; [exact H|].
  destruct (C8_chamada_repetida (OTime Exemplo.time_capitao) Exemplo.parciais_capitao
                                Exemplo.rodada) as (_ & H2 & _ & H4).
  split; [exact H2|]. exact (H4 Exemplo.time_capitao (Some 1000%float) (Some 40) H).
Defined.

(** The scenario of the captain, called twice; and a pass that raises,
    called twice. *)
Example cenario_capitao_duas_vezes :
  exists t1 t2,
    _calculate_parcial (OTime Exemplo.time_capitao) Exemplo.parciais_capitao
                       Exemplo.rodada = (Retorna, OTime t1)
    /\ _calculate_parcial (OTime t1) Exemplo.parciais_capitao Exemplo.rodada
       = (Retorna, OTime t2)
    /\ t2 = t1 /\ Time.pontos t2 = Some 20%float /\ Time.jogados t2 = Some 1.
Proof.
  eexists _, _. split; [vm_compute; reflexivity|].
  split; [vm_compute; reflexivity|]. repeat split.
Qed.

Example cenario_sem_clube_duas_vezes :
  exists t1 t2,
    _calculate_parcial (OTime Exemplo.time_sem_clube) Exemplo.parciais_entrou
                       Exemplo.rodada = (Levanta AttributeError, OTime t1)
    /\ _calculate_parcial (OTime t1) Exemplo.parciais_entrou Exemplo.rodada
       = (Levanta AttributeError, OTime t2)
    /\ t2 = t1 /\ Time.pontos t2 = Some 8%float /\ Time.jogados t2 = Some 2.
Proof.
  eexists _, _. split; [vm_compute; reflexivity|].
  split; [vm_compute; reflexivity|]. repeat split.
Qed.

(** ** The two pipelines *)

Lemma laco_partidas_2 clube ps b :
  Parcial2.laco_partidas clube ps b = laco_partidas clube ps b.
Proof.
  revert b. induction ps as [|p ps IH]; intros b; [reflexivity|].
  cbn [Parcial2.laco_partidas laco_partidas]. unfold clube_na_partida, partida_encerrada.
  destruct clube as [c| |]; rewrite ?IH; try reflexivity.
  destruct (_ || _); [|reflexivity].
  by destruct (_ || _).
Qed.

Lemma laco_reservas_2 parciais atleta jf rs st :
  Parcial2.laco_reservas parciais atleta jf rs st
  = laco_reservas parciais atleta jf rs st.
Proof.
  revert st. induction rs as [|r rs IH]; intros st; [reflexivity|].
  cbn [Parcial2.laco_reservas laco_reservas]. unfold corpo_reserva.
  cbv zeta.
  destruct (negb _); [|reflexivity].
  destruct (bool_decide (_ ∈ _)); [reflexivity|].
  unfold mais_igual, maior_igual.
  destruct (truthy (Atleta.is_capitao atleta) && _ && jf);
    destruct (Atleta.pontos (atualiza_reserva r _)) as [v|];
    try reflexivity;
    repeat match goal with
           | |- context [if ?b then _ else _] => destruct b
           end;
    rewrite ?IH; reflexivity.
Qed.

Lemma laco_atletas_2 teste parciais partidas atletas rs st :
  Parcial2.laco_atletas teste parciais partidas atletas rs st
  = laco_atletas teste parciais partidas atletas rs st.
Proof.
  revert rs st. induction atletas as [|a atletas IH]; intros rs st; [reflexivity|].
  cbn [Parcial2.laco_atletas laco_atletas]. unfold corpo_atleta, jogo_finalizou.
  cbv zeta. rewrite laco_partidas_2.
  destruct (laco_partidas _ partidas false) as [e|jf]; [reflexivity|].
  destruct rs as [[|r l]|]; cbn [se_reservas]; rewrite ?laco_reservas_2;
    try (destruct (laco_reservas _ _ _ _ _) as [[rs1 st1] [|e]]; [|reflexivity]);
    unfold vezes_capitao, vezes_igual, mais_igual;
    (destruct (truthy _);
     destruct (Atleta.pontos (atualiza_atleta a _)) as [v|]; try reflexivity;
     cbn [com_pontos_atleta Atleta.pontos]; rewrite IH; reflexivity).
Qed.

(** C9.  [_calculate_parcial_2] and [_calculate_parcial] end in the same
    way and leave the same object for every argument, feed and match
    list: the same [pontos] and [jogados] and the same starters and
    reserves. *)
Theorem C9_pipelines_iguais (time : Objeto) (parciais : gmap Chave Valor)
        (partidas : list Partida.t) :
  _calculate_parcial_2 time parciais partidas = _calculate_parcial time parciais partidas.
Proof.
  unfold _calculate_parcial_2, _calculate_parcial.
  destruct (parciais_invalidos parciais || negb (isinstance_Time time)); [reflexivity|].
  destruct time as [t|]; [|reflexivity].
  rewrite laco_atletas_2.
  change (laco_atletas _teste_2) with (laco_atletas _teste).
  reflexivity.
Qed.

(** ** A roster without reserves *)

Lemma laco_atletas_reg_sem_reservas parciais partidas atletas rs st :
  rs = None \/ rs = Some [] ->
  (laco_atletas_reg _teste parciais partidas atletas rs st).2 = []
  /\ (laco_atletas_reg _teste parciais partidas atletas rs st).1.1.1.2 = rs.
Proof.
  intros Hrs. revert st. induction atletas as [|a atletas IH]; intros st; [done|].
  cbn [laco_atletas_reg]. rewrite corpo_atleta_reg_casos. cbv zeta.
  destruct (jogo_finalizou _ _) as [e|jf]; [done|].
  assert (Hse : forall s, se_reservas_reg parciais (Spec.liveStarter parciais a) jf rs s
                          = (rs, s, Segue, [])).
  { intros s. by destruct Hrs as [-> | ->]. }
  rewrite Hse. destruct (Spec.liveValue _ _); [|done].
  match goal with
  | |- context [laco_atletas_reg _ _ _ _ _ ?s] => specialize (IH s)
  end.
  destruct (laco_atletas_reg _ _ _ _ _ _) as [[[[as2 rs2] st2] fim2] reg2].
  exact IH.
Qed.

(** C10.  Without reserves ([None] or the empty list) the pass makes no
    credit, whatever the feed and the matches, and every call that
    returns leaves in [pontos] the float that results from adding to 0,
    in stored order, the starters' own scores (the live score, times 1.5
    for the captain), and leaves the reserves as they were; the call
    returns for a well-formed feed without null score and starters whose
    clubs are not [None]. *)
Theorem C10_sem_reservas (t : Time.t) (parciais : gmap Chave Valor)
        (partidas : list Partida.t) :
  Time.reservas t = None \/ Time.reservas t = Some [] ->
  creditos_do_passe (OTime t) parciais partidas = []
  /\ (forall t' : Time.t,
        _calculate_parcial (OTime t) parciais partidas = (Retorna, OTime t') ->
        Time.pontos t' = Some (Spec.addOwnScores parciais 0 (Time.atletas t))
        /\ Time.reservas t' = Time.reservas t)
  /\ (Spec.wellFormedFeed parciais ->
      feed_sem_nulo parciais ->
      clubes_resolvidos (Time.atletas t) partidas ->
      exists t' : Time.t,
        _calculate_parcial (OTime t) parciais partidas = (Retorna, OTime t')).
Proof.
  intros Hrs.
  pose proof (laco_atletas_reg_sem_reservas parciais partidas (Time.atletas t)
                (Time.reservas t) estado_inicial Hrs) as [Hreg Hres].
  assert (Hcred : creditos_do_passe (OTime t) parciais partidas = []).
  { unfold creditos_do_passe. destruct (_ || _); [reflexivity|exact Hreg]. }
  split; [exact Hcred|]. split; [|apply _calculate_parcial_segue].
  intros t' Hret.
  destruct (_calculate_parcial_retornou _ _ _ _ Hret) as (Hwf & _ & _ & _ & Hp & _).
  split; [exact (Hp Hcred)|].
  destruct (_calculate_parcial_laco t parciais partidas) as [Hcalc _];
    [by apply wellFormedFeed_valido|].
  rewrite Hret in Hcalc. injection Hcalc as _ ->.
  cbn [grava Time.reservas]. exact Hres.
Qed.

Lemma C10_sem_reservas_witness :
  (Time.reservas Exemplo.time_sem_reservas = None
   \/ Time.reservas Exemplo.time_sem_reservas = Some [])
  /\ creditos_do_passe (OTime Exemplo.time_sem_reservas) Exemplo.parciais_decimais
                       Exemplo.rodada = []
  /\ exists t' : Time.t,
      _calculate_parcial (OTime Exemplo.time_sem_reservas) Exemplo.parciais_decimais
                         Exemplo.rodada = (Retorna, OTime t')
      /\ Time.pontos t'
         = Some (Spec.addOwnScores Exemplo.parciais_decimais 0
                   (Time.atletas Exemplo.time_sem_reservas))
      /\ Time.reservas t' = Time.reservas Exemplo.time_sem_reservas.
Proof.
  split; [left; reflexivity|].
  destruct (C10_sem_reservas Exemplo.time_sem_reservas Exemplo.parciais_decimais
              Exemplo.rodada (or_introl eq_refl)) as (H1 & H2 & H3).
  split; [exact H1|].
  destruct H3 as [t' Ht'].
  { apply wellFormedFeed_valido. vm_compute. reflexivity. }
  { apply feed_sem_nulo_b_true. vm_compute. reflexivity. }
  { right. by repeat constructor. }
  exists t'. split; [exact Ht'|]. exact (H2 t' Ht').
Defined.

(** The pass of the witness: 0.7 times 1.5 for the captain and 0.3 for
    the midfielder, added to 0 as doubles. *)
Example cenario_sem_reservas :
  Spec.addOwnScores Exemplo.parciais_decimais 0 (Time.atletas Exemplo.time_sem_reservas)
  = (0 + 0.7 * 1.5 + 0.3)%float
  /\ (0 + 0.7 * 1.5 + 0.3)%float = 1.3499999999999999%float.
Proof. split; reflexivity. Qed.

(** * Further properties of the scoring pass *)

Lemma creditos_do_passe_origem time parciais partidas :
  Forall (fun c => exists t, time = OTime t
                             /\ credito_do_passe parciais partidas (Time.atletas t) c)
         (creditos_do_passe time parciais partidas).
Proof.
  unfold creditos_do_passe.
  destruct (parciais_invalidos parciais || negb (isinstance_Time time)); [constructor|].
  destruct time as [t|]; [|constructor].
  destruct (laco_atletas_reg _teste parciais partidas (Time.atletas t)
              (Time.reservas t) estado_inicial)
    as [[[[as' rs'] st'] fim] reg] eqn:Hlaco.
  cbn [snd]. apply laco_atletas_reg_origem in Hlaco.
  eapply Forall_impl; [exact Hlaco|]. intros c Hc. by exists t.
Qed.

(** ** The empty feed *)

Lemma wellFormedFeed_vazio : Spec.wellFormedFeed ∅.
Proof. intros k v H. by rewrite lookup_empty in H. Qed.

Lemma feed_sem_nulo_vazio : feed_sem_nulo ∅.
Proof. intros k a H. by rewrite lookup_empty in H. Qed.

Lemma liveValue_vazio id : Spec.liveValue ∅ id = Some 0%float.
Proof. unfold Spec.liveValue, Spec.liveRecord. by rewrite lookup_empty. Qed.

Lemma liveScore_vazio id : Spec.liveScore ∅ id = 0%float.
Proof. unfold Spec.liveScore. by rewrite liveValue_vazio. Qed.

Lemma ownScore_vazio a : Spec.ownScore ∅ a = 0%float.
Proof.
  unfold Spec.ownScore. rewrite liveScore_vazio. by destruct (truthy _).
Qed.

Lemma scanReserves_zeros captain jf pos rs :
  Forall (fun r => Spec.score r = 0%float) rs ->
  Forall (fun x => x = 0%float) (Spec.scanReserves captain jf pos rs).1.
Proof.
  induction 1 as [|r rs Hr _ IH]; cbn [Spec.scanReserves]; [constructor|].
  destruct (bool_decide _); [|exact IH]. rewrite Hr.
  assert (H0 : (0.1 <=? 0)%float = false) by reflexivity.
  rewrite H0, andb_false_r.
  destruct (Spec.scanReserves captain jf pos rs) as [q m]. cbn [fst] in *.
  destruct (captain && jf); cbn [app]; [by constructor|exact IH].
Qed.

Lemma addAll_zeros q :
  Forall (fun x => x = 0%float) q -> Spec.addAll 0 q = 0%float.
Proof.
  unfold Spec.addAll. induction 1 as [|x q -> _ IH]; [reflexivity|exact IH].
Qed.

Lemma teamTotal_vazio partidas rs atletas used :
  Spec.teamTotal ∅ partidas rs atletas used 0 = 0%float.
Proof.
  revert used. induction atletas as [|a atletas IH]; intros used; [reflexivity|].
  cbn [Spec.teamTotal]. unfold Spec.resolveSubstitution.
  assert (Hq : forall c jf pos,
             Spec.addAll 0 (Spec.scanReserves c jf pos (map (Spec.liveReserve ∅) rs)).1
             = 0%float).
  { intros c jf pos. apply addAll_zeros, scanReserves_zeros.
    apply Forall_fmap, Forall_forall. intros r _.
    unfold compose, Spec.score. cbn [Spec.liveReserve Atleta.pontos].
    by rewrite liveValue_vazio. }
  rewrite ownScore_vazio.
  destruct (truthy _); [apply IH|].
  destruct (bool_decide _); [apply IH|].
  match goal with
  | |- context [Spec.scanReserves ?c ?jf ?pos _] => specialize (Hq c jf pos)
  end.
  destruct (Spec.scanReserves _ _ _ _) as [q m]. cbn [fst] in Hq.
  rewrite Hq. apply IH.
Qed.

Lemma conta_parciais_vazio atletas : conta_parciais ∅ atletas = 0.
Proof.
  unfold conta_parciais.
  assert (Hf : List.filter (fun a => isinstance_Atleta (_teste ∅ (Atleta.id a))) atletas
               = []); [|by rewrite Hf].
  induction atletas as [|a l IH]; [reflexivity|].
  cbn [List.filter]. unfold _teste at 1, dict_get at 1. rewrite lookup_empty.
  exact IH.
Qed.

(** ** A starter whose club is [None] *)

Lemma laco_atletas_reg_levanta parciais partidas atletas rs st :
  feed_sem_nulo parciais ->
  partidas <> [] ->
  Exists (fun a => Atleta.clube a = ClubeNone) atletas ->
  (laco_atletas_reg _teste parciais partidas atletas rs st).1.2
  = Excecao AttributeError.
Proof.
  intros Hn Hp Hex. revert rs st.
  induction Hex as [a l Ha | a l Hex IH]; intros rs st; cbn [laco_atletas_reg].
  - rewrite corpo_atleta_reg_casos. cbv zeta. rewrite Ha.
    destruct partidas as [|p ps]; [done|]. by rewrite jogo_finalizou_None.
  - destruct (jogo_finalizou (Atleta.clube a) partidas) as [e|jf] eqn:Hjf.
    + rewrite corpo_atleta_reg_casos. cbv zeta. rewrite Hjf.
      by apply jogo_finalizou_inl in Hjf as (-> & _).
    + apply jogo_finalizou_inr in Hjf as [_ Hc].
      pose proof (corpo_atleta_reg_segue parciais partidas a rs st Hn Hc) as Hs.
      destruct (corpo_atleta_reg _teste parciais partidas a rs st)
        as [[[[a' rs'] st'] fim] reg].
      cbn [fst snd] in Hs. subst fim. specialize (IH rs' st').
      by destruct (laco_atletas_reg _teste parciais partidas l rs' st')
        as [[[[? ?] ?] ?] ?].
Qed.

Lemma _calculate_parcial_levanta (t : Time.t) parciais partidas :
  Spec.wellFormedFeed parciais ->
  feed_sem_nulo parciais ->
  partidas <> [] ->
  Exists (fun a => Atleta.clube a = ClubeNone) (Time.atletas t) ->
  exists t' : Time.t,
    _calculate_parcial (OTime t) parciais partidas = (Levanta AttributeError, OTime t').
Proof.
  intros Hwf Hn Hp Hex.
  destruct (_calculate_parcial_laco t parciais partidas) as [Hcalc _];
    [by apply wellFormedFeed_valido|].
  rewrite (laco_atletas_reg_levanta parciais partidas _ _ _ Hn Hp Hex) in Hcalc.
  eexists. exact Hcalc.
Qed.

Lemma _calculate_parcial_vazio (t : Time.t) (partidas : list Partida.t) :
  clubes_resolvidos (Time.atletas t) partidas ->
  exists t' : Time.t,
    _calculate_parcial (OTime t) ∅ partidas = (Retorna, OTime t')
    /\ Time.pontos t' = Some 0%float
    /\ Time.jogados t' = Some 0
    /\ Time.atletas t' = map (atleta_final ∅) (Time.atletas t).
Proof.
  intros Hc.
  destruct (_calculate_parcial_retorna t ∅ partidas wellFormedFeed_vazio
              feed_sem_nulo_vazio Hc)
    as (t' & Hcalc & Has & Hp & _ & _ & Hj & _).
  exists t'. split; [exact Hcalc|].
  split; [by rewrite Hp, teamTotal_vazio|].
  split; [by rewrite Hj, conta_parciais_vazio|exact Has].
Qed.

(** X1.  With an empty feed the call returns for every roster none of
    whose starters has the club [None], and for every roster when there
    is no match to scan: [pontos] is 0 and [jogados] is 0 and every
    starter is left with score 0, the empty name, the empty scout and the
    flag false.  With a match to scan and a starter whose club is [None]
    the call raises [AttributeError].  In either case no position is
    recorded as substituted: the only credits possible are those of line
    527 for the captain, and they are worth 0. *)
Theorem X1_parciais_vazio (t : Time.t) (partidas : list Partida.t) :
  (clubes_resolvidos (Time.atletas t) partidas ->
   exists t' : Time.t,
     _calculate_parcial (OTime t) ∅ partidas = (Retorna, OTime t')
     /\ Time.pontos t' = Some 0%float
     /\ Time.jogados t' = Some 0
     /\ Forall (fun a => Atleta.pontos a = Some 0%float
                         /\ Atleta.nome a = Some ""%string
                         /\ Atleta.scout a = ScoutDict ∅
                         /\ Atleta.entrou_em_campo a = Some false)
               (Time.atletas t'))
  /\ (partidas <> [] ->
      Exists (fun a => Atleta.clube a = ClubeNone) (Time.atletas t) ->
      exists t' : Time.t,
        _calculate_parcial (OTime t) ∅ partidas = (Levanta AttributeError, OTime t'))
  /\ Forall (fun c => cr_marca c = false /\ cr_pontos c = 0%float)
            (creditos_do_passe (OTime t) ∅ partidas).
Proof.
  split; [|split].
  - intros Hc.
    destruct (_calculate_parcial_vazio t partidas Hc) as (t' & Hcalc & Hp & Hj & Has).
    exists t'. split; [exact Hcalc|]. split; [exact Hp|]. split; [exact Hj|].
    rewrite Has. apply Forall_fmap, Forall_forall. intros a _.
    unfold compose, atleta_final, _teste, dict_get. rewrite lookup_empty.
    cbn [atualiza_atleta attr_ou Atleta.is_capitao].
    destruct (truthy _); cbn; repeat split.
  - apply _calculate_parcial_levanta;
      [apply wellFormedFeed_vazio|apply feed_sem_nulo_vazio].
  - eapply Forall_impl; [apply creditos_do_passe_origem|].
    intros c (t0 & _ & a & _ & _ & _ & _ & Hpts & _ & Hm & _).
    rewrite liveScore_vazio in Hpts. split; [|exact Hpts].
    destruct (cr_marca c); [|reflexivity].
    specialize (Hm eq_refl). rewrite Hpts in Hm. discriminate Hm.
Qed.

(** The two cases on the roster of two whose second starter has no club
    object. *)
Lemma X1_parciais_vazio_witness :
  (exists t', _calculate_parcial (OTime Exemplo.time_sem_clube) ∅ []
              = (Retorna, OTime t')
              /\ Time.pontos t' = Some 0%float)
  /\ (exists t', _calculate_parcial (OTime Exemplo.time_sem_clube) ∅ Exemplo.rodada
                 = (Levanta AttributeError, OTime t')).
Proof.
  split.
  - destruct (proj1 (X1_parciais_vazio Exemplo.time_sem_clube [])) as (t' & H1 & H2 & _);
      [by left|]. by exists t'.
  - apply (proj1 (proj2 (X1_parciais_vazio Exemplo.time_sem_clube Exemplo.rodada)));
      [discriminate|]. right. left. reflexivity.
Defined.

(** X16.  For a well-formed feed without null score the outcome of a call
    is decided by the clubs of the starters: the call returns when there
    is no match to scan or no starter has the club [None], and raises
    [AttributeError] when there is a match to scan and some starter has
    the club [None]. *)
Theorem X16_retorna_ou_levanta (t : Time.t) (parciais : gmap Chave Valor)
        (partidas : list Partida.t) :
  Spec.wellFormedFeed parciais ->
  feed_sem_nulo parciais ->
  (clubes_resolvidos (Time.atletas t) partidas ->
   exists t' : Time.t,
     _calculate_parcial (OTime t) parciais partidas = (Retorna, OTime t'))
  /\ (partidas <> [] ->
      Exists (fun a => Atleta.clube a = ClubeNone) (Time.atletas t) ->
      exists t' : Time.t,
        _calculate_parcial (OTime t) parciais partidas
        = (Levanta AttributeError, OTime t')).
Proof.
  intros Hwf Hn. split.
  - by apply _calculate_parcial_segue.
  - by apply _calculate_parcial_levanta.
Qed.

Lemma X16_retorna_ou_levanta_witness :
  Spec.wellFormedFeed Exemplo.parciais_entrou
  /\ feed_sem_nulo Exemplo.parciais_entrou
  /\ (exists t', _calculate_parcial (OTime Exemplo.time_sem_clube)
                                    Exemplo.parciais_entrou []
                 = (Retorna, OTime t'))
  /\ (exists t', _calculate_parcial (OTime Exemplo.time_sem_clube)
                                    Exemplo.parciais_entrou Exemplo.rodada
                 = (Levanta AttributeError, OTime t')).
Proof.
  assert (H : Spec.wellFormedFeed Exemplo.parciais_entrou).
  { apply wellFormedFeed_valido. vm_compute. reflexivity. }
  assert (Hn : feed_sem_nulo Exemplo.parciais_entrou).
  { apply feed_sem_nulo_b_true. vm_compute. reflexivity. }
  split; [exact H|]. split; [exact Hn|]. split.
  - apply (proj1 (X16_retorna_ou_levanta Exemplo.time_sem_clube
                    Exemplo.parciais_entrou [] H Hn)). by left.
  - apply (proj2 (X16_retorna_ou_levanta Exemplo.time_sem_clube
                    Exemplo.parciais_entrou Exemplo.rodada H Hn)); [discriminate|].
    right. left. reflexivity.
Defined.

(** X2.  When every starter either entered play or belongs to a club
    whose match the scan does not find finished (in particular with an
    empty match list), the pass makes no credit at all, and every call
    that returns leaves in [pontos] the float that results from adding to
    0, in stored order, the starters' own scores. *)
Theorem X2_sem_jogo_encerrado (t : Time.t) (parciais : gmap Chave Valor)
        (partidas : list Partida.t) :
  (forall a, a ∈ Time.atletas t ->
             Spec.enteredPlay parciais (Atleta.id a) = true
             \/ jogo_finalizou (Atleta.clube a) partidas = inr false) ->
  creditos_do_passe (OTime t) parciais partidas = []
  /\ (forall t' : Time.t,
        _calculate_parcial (OTime t) parciais partidas = (Retorna, OTime t') ->
        Time.pontos t' = Some (Spec.addOwnScores parciais 0 (Time.atletas t)))
  /\ (Spec.wellFormedFeed parciais ->
      feed_sem_nulo parciais ->
      clubes_resolvidos (Time.atletas t) partidas ->
      exists t' : Time.t,
        _calculate_parcial (OTime t) parciais partidas = (Retorna, OTime t')).
Proof.
  intros Hsem.
  assert (Hreg : creditos_do_passe (OTime t) parciais partidas = []).
  { pose proof (creditos_do_passe_origem (OTime t) parciais partidas) as Ho.
    destruct (creditos_do_passe (OTime t) parciais partidas) as [|c reg]; [done|].
    apply Forall_cons in Ho. destruct Ho as [(t0 & [= <-] & a & Ha & Hc) _].
    destruct Hc as (_ & _ & _ & _ & _ & _ & He & Hj & _).
    destruct (Hsem a Ha) as [H|H].
    - cbn [Spec.liveStarter Atleta.entrou_em_campo] in He.
      unfold Spec.enteredPlay in H. congruence.
    - apply jogo_finalizou_inr in H as [H _]. congruence. }
  split; [exact Hreg|]. split.
  - intros t' Hret.
    destruct (_calculate_parcial_retornou _ _ _ _ Hret) as (_ & _ & _ & _ & Hp & _).
    exact (Hp Hreg).
  - apply _calculate_parcial_segue.
Qed.

Lemma X2_sem_jogo_encerrado_witness :
  (forall a, a ∈ Time.atletas Exemplo2.time_em_jogo ->
             Spec.enteredPlay Exemplo2.parciais_em_jogo (Atleta.id a) = true
             \/ jogo_finalizou (Atleta.clube a) Exemplo.rodada = inr false)
  /\ creditos_do_passe (OTime Exemplo2.time_em_jogo) Exemplo2.parciais_em_jogo
                       Exemplo.rodada = []
  /\ exists t' : Time.t,
      _calculate_parcial (OTime Exemplo2.time_em_jogo) Exemplo2.parciais_em_jogo
                         Exemplo.rodada = (Retorna, OTime t')
      /\ Time.pontos t'
         = Some (Spec.addOwnScores Exemplo2.parciais_em_jogo 0
                   (Time.atletas Exemplo2.time_em_jogo)).
Proof.
  assert (Hs : forall a, a ∈ Time.atletas Exemplo2.time_em_jogo ->
                 Spec.enteredPlay Exemplo2.parciais_em_jogo (Atleta.id a) = true
                 \/ jogo_finalizou (Atleta.clube a) Exemplo.rodada = inr false).
  { intros a Ha. apply list_elem_of_singleton in Ha. subst a. right. reflexivity. }
  split; [exact Hs|].
  destruct (X2_sem_jogo_encerrado Exemplo2.time_em_jogo Exemplo2.parciais_em_jogo
              Exemplo.rodada Hs) as (H1 & H2 & H3).
  split; [exact H1|].
  destruct H3 as [t' Ht'].
  { apply wellFormedFeed_valido. vm_compute. reflexivity. }
  { apply feed_sem_nulo_b_true. vm_compute. reflexivity. }
  { right. by repeat constructor. }
  exists t'. split; [exact Ht'|]. exact (H2 t' Ht').
Defined.

(** ** What a call writes *)

Lemma map_por_ficha {A B C} (f : A -> B) (g : A -> C) (l1 l2 : list A) :
  (forall a b, f a = f b -> g a = g b) ->
  map f l1 = map f l2 -> map g l1 = map g l2.
Proof.
  intros Hfg. revert l2. induction l1 as [|a l1 IH]; intros [|b l2] H;
    try discriminate H; [reflexivity|].
  cbn [map] in *. apply cons_igual in H. destruct H as [Hab Hl].
  f_equal; [by apply Hfg|by apply IH].
Qed.

Lemma liveStarter_ficha parciais a b :
  Spec.liveStarter parciais a = Spec.liveStarter parciais b ->
  ficha_titular a = ficha_titular b.
Proof.
  intros H. apply liveStarter_campos in H as (H1 & H2 & H3 & H4 & H5).
  unfold ficha_titular. by rewrite H1, H2, H3, H4, H5.
Qed.

Lemma ficha_titular_live parciais a b :
  ficha_titular a = ficha_titular b ->
  Spec.liveStarter parciais a = Spec.liveStarter parciais b.
Proof.
  destruct a, b. unfold ficha_titular, Spec.liveStarter. cbn.
  intros [= -> -> -> -> ->]. reflexivity.
Qed.

Lemma ficha_reservas_ate parciais k rs :
  map ficha_reserva (reservas_ate parciais k rs) = map ficha_reserva rs.
Proof.
  unfold reservas_ate. rewrite map_app, map_map.
  rewrite (map_ext (fun x => ficha_reserva (Spec.liveReserve parciais x)) ficha_reserva)
    by reflexivity.
  by rewrite <- map_app, take_drop.
Qed.

(** X6.  A call writes nothing but scores: whatever the arguments and
    however the call ends, the patrimony, the market value, the last
    score and the round of the roster, the number and the order of its
    starters and of its reserves, and of every athlete the id, the
    nickname, the position, the club and the captain flag are those of
    before; of a reserve the name and the entered-play flag as well. *)
Theorem X6_nada_alem_dos_pontos (time : Objeto) (parciais : gmap Chave Valor)
        (partidas : list Partida.t) :
  fichas (_calculate_parcial time parciais partidas).2 = fichas time.
Proof.
  destruct (parciais_invalidos parciais || negb (isinstance_Time time)) eqn:Hcheck.
  { unfold _calculate_parcial. by rewrite Hcheck. }
  destruct time as [t|]; [|by rewrite orb_true_r in Hcheck].
  rewrite orb_false_r in Hcheck.
  destruct (_calculate_parcial_forma t parciais partidas Hcheck)
    as (P & K & st' & fim & Hcalc & HP & _).
  rewrite (Hcalc t eq_refl eq_refl).
  cbn [snd fichas grava Time.patrimonio Time.valor_time Time.ultima_pontuacao
       Time.rodada_atual Time.atletas Time.reservas].
  do 2 f_equal.
  - f_equal. rewrite map_app.
    rewrite (map_por_ficha _ ficha_titular _ _ (liveStarter_ficha parciais) HP).
    by rewrite <- map_app, take_drop.
  - destruct (Time.reservas t) as [rs|]; [|reflexivity].
    cbn [fmap option_fmap option_map]. f_equal. apply ficha_reservas_ate.
Qed.

(** X7.  A second call on the object that a call left, with the same feed
    and the same matches, ends in the same way and leaves the object
    exactly as the first call did: every field of the roster, of its
    starters and of its reserves. *)
Theorem X7_segunda_chamada_nada_muda (time : Objeto) (parciais : gmap Chave Valor)
        (partidas : list Partida.t) :
  _calculate_parcial (_calculate_parcial time parciais partidas).2 parciais partidas
  = _calculate_parcial time parciais partidas.
Proof. apply _calculate_parcial_idem. Qed.

(** X8.  What a call leaves of the bench, however it ends: the first [M]
    reserves carry the score and scout of the feed and the others are
    exactly as they were.  When the call returns, [M] is at least 1 if
    there is a starter and a reserve, and every reserve is refreshed if
    some starter did not enter play and no credit of the pass records its
    position.  The call returns for a feed without null score and
    starters whose clubs are not [None]. *)
Theorem X8_reservas_atualizadas (t : Time.t) (parciais : gmap Chave Valor)
        (partidas : list Partida.t) :
  Spec.wellFormedFeed parciais ->
  exists (d : Desfecho) (t' : Time.t) (M : nat),
    _calculate_parcial (OTime t) parciais partidas = (d, OTime t')
    /\ Time.reservas t' = reservas_ate parciais M <$> Time.reservas t
    /\ (feed_sem_nulo parciais -> clubes_resolvidos (Time.atletas t) partidas ->
        d = Retorna)
    /\ (d = Retorna ->
        Time.atletas t <> [] -> default [] (Time.reservas t) <> [] -> (1 <= M)%nat)
    /\ (d = Retorna ->
        forall a,
          a ∈ Time.atletas t ->
          Spec.enteredPlay parciais (Atleta.id a) = false ->
          (forall c, c ∈ creditos_do_passe (OTime t) parciais partidas ->
                     cr_marca c = true ->
                     cr_posicao c <> Posicao.nome (Atleta.posicao a)) ->
          Time.reservas t' = map (Spec.liveReserve parciais) <$> Time.reservas t).
Proof.
  intros Hwf.
  pose proof (proj1 (wellFormedFeed_valido parciais) Hwf) as Hv.
  destruct (_calculate_parcial_forma t parciais partidas Hv)
    as (P & K & st' & fim & Hcalc & _ & _ & _ & H1 & Htudo & Hu).
  specialize (Hcalc t eq_refl eq_refl).
  assert (Hfim : desfecho_de fim = Retorna -> fim = Segue)
    by (by destruct fim).
  eexists _, _, K. split; [exact Hcalc|]. cbn [grava Time.reservas].
  split; [reflexivity|]. split; [|split].
  - intros Hn Hc.
    destruct (_calculate_parcial_segue t parciais partidas Hwf Hn Hc) as [t' Ht'].
    rewrite Ht' in Hcalc. by injection Hcalc as <- _.
  - intros Hd. exact (H1 (Hfim Hd)).
  - intros Hd a Ha He Hc.
    assert (HK : (length (default [] (Time.reservas t)) <= K)%nat).
    { apply (Htudo (Hfim Hd) a Ha He). rewrite Hu.
      intros Hin. apply list_elem_of_fmap in Hin. destruct Hin as (c & Hpos & Hin).
      apply list_elem_of_In, filter_In in Hin. destruct Hin as [Hin Hm].
      apply (Hc c); [by apply list_elem_of_In|exact Hm|by symmetry]. }
    destruct (Time.reservas t) as [rs|]; [|reflexivity].
    cbn [fmap option_fmap option_map default] in *. f_equal.
    by apply reservas_ate_tudo.
Qed.

Lemma X8_reservas_atualizadas_witness :
  Spec.wellFormedFeed Exemplo2.parciais_em_jogo
  /\ Exemplo2.veiga ∈ Time.atletas Exemplo2.time_em_jogo
  /\ Spec.enteredPlay Exemplo2.parciais_em_jogo (Atleta.id Exemplo2.veiga) = false
  /\ exists (t' : Time.t),
      _calculate_parcial (OTime Exemplo2.time_em_jogo) Exemplo2.parciais_em_jogo
                         Exemplo.rodada = (Retorna, OTime t')
      /\ Time.reservas t'
         = map (Spec.liveReserve Exemplo2.parciais_em_jogo)
             <$> Time.reservas Exemplo2.time_em_jogo.
Proof.
  assert (H : Spec.wellFormedFeed Exemplo2.parciais_em_jogo).
  { apply wellFormedFeed_valido. vm_compute. reflexivity. }
  assert (Ha : Exemplo2.veiga ∈ Time.atletas Exemplo2.time_em_jogo) by left.
  split; [exact H|]. split; [exact Ha|]. split; [reflexivity|].
  destruct (X8_reservas_atualizadas Exemplo2.time_em_jogo Exemplo2.parciais_em_jogo
              Exemplo.rodada H) as (d & t' & M & Hcalc & _ & Hret & _ & Htudo).
  assert (Hd : d = Retorna).
  { apply Hret; [apply feed_sem_nulo_b_true; vm_compute; reflexivity|].
    right. by repeat constructor. }
  subst d. exists t'. split; [exact Hcalc|].
  apply (Htudo eq_refl Exemplo2.veiga Ha eq_refl).
  intros c Hc. vm_compute in Hc. by apply elem_of_nil in Hc.
Defined.

(** ** What the result depends on *)

(** X9.  What a call leaves does not depend on the scores, scouts, names
    and entered-play flags that the athletes carry before the call: two
    rosters whose starters agree in id, nickname, position, club and
    captain flag, in the same order, and whose reserves agree in id and
    position, in the same order, make a call end in the same way with the
    same [pontos] and the same [jogados], and with the same starters when
    it returns. *)
Theorem X9_pontos_antigos_nao_contam (t1 t2 : Time.t) (parciais : gmap Chave Valor)
        (partidas : list Partida.t) :
  Spec.wellFormedFeed parciais ->
  map ficha_titular (Time.atletas t1) = map ficha_titular (Time.atletas t2) ->
  map chave_reserva <$> Time.reservas t1 = map chave_reserva <$> Time.reservas t2 ->
  exists (d : Desfecho) (t1' t2' : Time.t),
    _calculate_parcial (OTime t1) parciais partidas = (d, OTime t1')
    /\ _calculate_parcial (OTime t2) parciais partidas = (d, OTime t2')
    /\ Time.pontos t1' = Time.pontos t2'
    /\ Time.jogados t1' = Time.jogados t2'
    /\ (d = Retorna -> Time.atletas t1' = Time.atletas t2')
    /\ (feed_sem_nulo parciais -> clubes_resolvidos (Time.atletas t1) partidas ->
        d = Retorna).
Proof.
  intros Hwf Has Hrs.
  pose proof (proj1 (wellFormedFeed_valido parciais) Hwf) as Hv.
  assert (Has' : map (Spec.liveStarter parciais) (Time.atletas t2)
                 = map (Spec.liveStarter parciais) (Time.atletas t1)).
  { symmetry. eapply map_por_ficha; [|exact Has]. apply ficha_titular_live. }
  destruct (_calculate_parcial_forma t1 parciais partidas Hv)
    as (P & K & st' & fim & Hcalc & _ & _ & Hfin & _).
  pose proof (Hcalc t1 eq_refl eq_refl) as H1.
  pose proof (Hcalc t2 Has' (eq_sym Hrs)) as H2.
  eexists _, _, _. split; [exact H1|]. split; [exact H2|].
  cbn [grava Time.pontos Time.jogados Time.atletas].
  split; [reflexivity|]. split; [reflexivity|]. split.
  - intros Hd. assert (fim = Segue) as Hfim by (by destruct fim).
    rewrite (Hfin Hfim), length_map.
    rewrite drop_all.
    assert (Hlen : length (Time.atletas t1) = length (Time.atletas t2)).
    { by rewrite <- (length_map ficha_titular), Has, length_map. }
    rewrite Hlen, drop_all. reflexivity.
  - intros Hn Hc.
    destruct (_calculate_parcial_segue t1 parciais partidas Hwf Hn Hc) as [t' Ht'].
    rewrite Ht' in H1. by injection H1 as <- _.
Qed.

Lemma X9_pontos_antigos_nao_contam_witness :
  Spec.wellFormedFeed Exemplo.parciais_capitao
  /\ exists t1' t2' : Time.t,
      _calculate_parcial (OTime Exemplo.time_capitao) Exemplo.parciais_capitao
                         Exemplo.rodada = (Retorna, OTime t1')
      /\ _calculate_parcial
           (OTime (Exemplo.time_de
                     [Exemplo.escalado 1 "Pedro" Exemplo.atacante Exemplo.flamengo true 77]
                     (Some [Atleta.Build 2 "T." (Some "Tiquinho"%string)
                                         (Some (-5)%float) (ScoutDict ∅)
                                         Exemplo.atacante (Some true) ClubeVazio None])))
           Exemplo.parciais_capitao Exemplo.rodada = (Retorna, OTime t2')
      /\ Time.pontos t1' = Time.pontos t2'
      /\ Time.jogados t1' = Time.jogados t2'
      /\ Time.atletas t1' = Time.atletas t2'.
Proof.
  assert (H : Spec.wellFormedFeed Exemplo.parciais_capitao).
  { apply wellFormedFeed_valido. vm_compute. reflexivity. }
  split; [exact H|].
  destruct (X9_pontos_antigos_nao_contam Exemplo.time_capitao
              (Exemplo.time_de
                 [Exemplo.escalado 1 "Pedro" Exemplo.atacante Exemplo.flamengo true 77]
                 (Some [Atleta.Build 2 "T." (Some "Tiquinho"%string)
                                     (Some (-5)%float) (ScoutDict ∅)
                                     Exemplo.atacante (Some true) ClubeVazio None]))
              Exemplo.parciais_capitao Exemplo.rodada H eq_refl eq_refl)
    as (d & t1' & t2' & H1 & H2 & H3 & H4 & H5 & Hret).
  assert (Hd : d = Retorna).
  { apply Hret; [apply feed_sem_nulo_b_true; vm_compute; reflexivity|].
    right. by repeat constructor. }
  subst d. exists t1', t2'. repeat split; try assumption. by apply H5.
Defined.

(** ** The first reserve that fits *)

Lemma laco_reservas_reg_primeiro parciais atleta pre r post st v :
  truthy (Atleta.entrou_em_campo atleta) = false ->
  Posicao.nome (Atleta.posicao atleta) ∉ reserva_usado st ->
  Forall (nao_substitui parciais atleta) pre ->
  Posicao.nome (Atleta.posicao atleta) = Posicao.nome (Atleta.posicao r) ->
  Spec.liveValue parciais (Atleta.id r) = Some v ->
  (0.1 <=? v)%float = true ->
  exists st',
    laco_reservas_reg parciais atleta true (pre ++ r :: post) st
    = (map (Spec.liveReserve parciais) pre ++ Spec.liveReserve parciais r :: post,
       st', Segue,
       (if truthy (Atleta.is_capitao atleta)
        then map (credito_capitao parciais atleta)
                 (List.filter (mesma_posicao atleta) pre)
             ++ [credito_capitao parciais atleta r]
        else [])
       ++ [credito_marcado parciais atleta r]).
Proof.
  intros Hentrou Husado Hpre Hpos Hv Hle. revert st Husado.
  induction Hpre as [|x pre Hx _ IH]; intros st Husado;
    cbn [app laco_reservas_reg map List.filter];
    rewrite corpo_reserva_reg_casos; cbv zeta;
    rewrite Hentrou, (bool_decide_eq_false_2 _ Husado).
  - unfold mesma_posicao at 1. rewrite (bool_decide_eq_true_2 _ Hpos). cbn [andb].
    rewrite Hv, Hle. destruct (truthy (Atleta.is_capitao atleta)); by eexists.
  - destruct (mesma_posicao atleta x) eqn:Hm; cbn [andb].
    + destruct Hx as [Hx | (vx & Hvx & Hlx)].
      { unfold mesma_posicao in Hm. by apply bool_decide_eq_true in Hm. }
      rewrite Hvx, Hlx.
      match goal with
      | |- context [laco_reservas_reg _ _ _ (pre ++ r :: post) ?s] =>
          destruct (IH s) as [st' ->]
      end.
      { by destruct (truthy (Atleta.is_capitao atleta)). }
      exists st'. by destruct (truthy (Atleta.is_capitao atleta)).
    + destruct (IH (com_foundRes st false) Husado) as [st' ->]. by exists st'.
Qed.

Lemma creditos_capitao_sem_marca parciais a l :
  List.filter cr_marca (map (credito_capitao parciais a) l) = [].
Proof. induction l as [|x l IH]; [reflexivity|exact IH]. Qed.

Lemma corpo_atleta_reg_primeiro parciais partidas a pre r post st v :
  Spec.enteredPlay parciais (Atleta.id a) = false ->
  jogo_finalizou (Atleta.clube a) partidas = inr true ->
  Posicao.nome (Atleta.posicao a) ∉ reserva_usado st ->
  Forall (nao_substitui parciais a) pre ->
  Posicao.nome (Atleta.posicao a) = Posicao.nome (Atleta.posicao r) ->
  Spec.liveValue parciais (Atleta.id r) = Some v ->
  (0.1 <=? v)%float = true ->
  exists a' st' fim,
    corpo_atleta_reg _teste parciais partidas a (Some (pre ++ r :: post)) st
    = (a', Some (map (Spec.liveReserve parciais) pre
                 ++ Spec.liveReserve parciais r :: post),
       st', fim,
       (if truthy (Atleta.is_capitao a)
        then map (credito_capitao parciais a) (List.filter (mesma_posicao a) pre)
             ++ [credito_capitao parciais a r]
        else [])
       ++ [credito_marcado parciais a r])
    /\ reserva_usado st' = reserva_usado st ++ [Posicao.nome (Atleta.posicao a)]
    /\ (is_Some (Spec.liveValue parciais (Atleta.id a)) -> fim = Segue)
    /\ (fim = Segue ->
        time_pontos st'
        = (soma_em (time_pontos st)
                   ((if truthy (Atleta.is_capitao a)
                     then map (credito_capitao parciais a)
                              (List.filter (mesma_posicao a) pre)
                          ++ [credito_capitao parciais a r]
                     else [])
                    ++ [credito_marcado parciais a r])
           + Spec.ownScore parciais a)%float).
Proof.
  intros He Hjf Hu Hpre Hpos Hv Hle.
  destruct (corpo_atleta_reg _teste parciais partidas a (Some (pre ++ r :: post)) st)
    as [[[[a1 rs1] st1] fim1] reg1] eqn:Hcorpo.
  pose proof (corpo_atleta_reg_fatos _ _ _ _ _ _ _ _ _ _ Hcorpo)
    as (_ & Hs & _ & _ & Husado & _).
  rewrite corpo_atleta_reg_casos in Hcorpo. cbv zeta in Hcorpo.
  rewrite Hjf in Hcorpo.
  set (st0 := com_jogados st _) in Hcorpo.
  destruct (laco_reservas_reg_primeiro parciais (Spec.liveStarter parciais a)
              pre r post st0 v He Hu Hpre Hpos Hv Hle) as [st2 Hlaco].
  assert (Hse : se_reservas_reg parciais (Spec.liveStarter parciais a) true
                  (Some (pre ++ r :: post)) st0
                = (Some (map (Spec.liveReserve parciais) pre
                         ++ Spec.liveReserve parciais r :: post),
                   st2, Segue,
                   (if truthy (Atleta.is_capitao a)
                    then map (credito_capitao parciais a)
                             (List.filter (mesma_posicao a) pre)
                         ++ [credito_capitao parciais a r]
                    else [])
                   ++ [credito_marcado parciais a r])).
  { unfold se_reservas_reg.
    destruct (pre ++ r :: post) as [|y ys] eqn:Hl; [by destruct pre|].
    by rewrite Hlaco. }
  rewrite Hse in Hcorpo.
  assert (Hreg : rs1 = Some (map (Spec.liveReserve parciais) pre
                             ++ Spec.liveReserve parciais r :: post)
                 /\ reg1 = (if truthy (Atleta.is_capitao a)
                            then map (credito_capitao parciais a)
                                     (List.filter (mesma_posicao a) pre)
                                 ++ [credito_capitao parciais a r]
                            else [])
                           ++ [credito_marcado parciais a r]
                 /\ (is_Some (Spec.liveValue parciais (Atleta.id a)) -> fim1 = Segue)).
  { destruct (Spec.liveValue parciais (Atleta.id a)) as [p|].
    - by injection Hcorpo as _ <- _ <- <-.
    - injection Hcorpo as _ <- _ <- <-. split; [done|]. split; [done|].
      by intros [? ?]. }
  destruct Hreg as (-> & Hreg & Hfim).
  exists a1, st1, fim1. split; [by rewrite Hreg|]. split; [|split; [exact Hfim|]].
  - rewrite Husado, Hreg, List.filter_app, map_app.
    cbn [List.filter cr_marca credito_marcado map].
    destruct (truthy (Atleta.is_capitao a)).
    + rewrite List.filter_app, map_app. cbn [List.filter cr_marca credito_capitao map].
      rewrite creditos_capitao_sem_marca. cbn. by rewrite Hpos.
    + cbn. by rewrite Hpos.
  - intros Hf. destruct (Hs Hf) as (_ & _ & Ht). by rewrite Ht, Hreg.
Qed.

(** X3.  First fit for a starter who is not the captain: when the starter
    did not enter play, its match is finished and its position has not
    been recorded yet, the iteration passes over the reserves of other
    positions and over those with less than 0.1 points, and makes exactly
    one credit, from the first reserve of the starter's position with at
    least 0.1 points: the position is recorded, the reserves after it are
    not even refreshed, and, when the starter's own score is a number,
    the iteration completes with the points [v] of the reserve added
    once to [pontos], before the starter's own score. *)
Theorem X3_primeiro_reserva_apto (parciais : gmap Chave Valor)
        (partidas : list Partida.t) (a : Atleta.t) (pre : list Atleta.t)
        (r : Atleta.t) (post : list Atleta.t) (st : Estado) (v : float) :
  truthy (Atleta.is_capitao a) = false ->
  Spec.enteredPlay parciais (Atleta.id a) = false ->
  jogo_finalizou (Atleta.clube a) partidas = inr true ->
  Posicao.nome (Atleta.posicao a) ∉ reserva_usado st ->
  Forall (nao_substitui parciais a) pre ->
  Posicao.nome (Atleta.posicao a) = Posicao.nome (Atleta.posicao r) ->
  Spec.liveValue parciais (Atleta.id r) = Some v ->
  (0.1 <=? v)%float = true ->
  exists a' st' fim,
    corpo_atleta_reg _teste parciais partidas a (Some (pre ++ r :: post)) st
    = (a', Some (map (Spec.liveReserve parciais) pre
                 ++ Spec.liveReserve parciais r :: post),
       st', fim, [MkCredito (Atleta.id a) (Posicao.nome (Atleta.posicao r))
                            (Atleta.id r) v true])
    /\ reserva_usado st' = reserva_usado st ++ [Posicao.nome (Atleta.posicao a)]
    /\ (is_Some (Spec.liveValue parciais (Atleta.id a)) -> fim = Segue)
    /\ (fim = Segue ->
        time_pontos st' = (time_pontos st + v + Spec.ownScore parciais a)%float).
Proof.
  intros Hcap He Hjf Hu Hpre Hpos Hv Hle.
  destruct (corpo_atleta_reg_primeiro parciais partidas a pre r post st v
              He Hjf Hu Hpre Hpos Hv Hle) as (a' & st' & fim & Hcorpo & Husado & Hf & Hp).
  rewrite Hcap in Hcorpo, Hp. cbn [app] in Hcorpo, Hp.
  unfold credito_marcado in Hcorpo, Hp.
  rewrite (liveScore_liveValue _ _ _ Hv) in Hcorpo, Hp.
  exists a', st', fim. split; [exact Hcorpo|]. split; [exact Husado|].
  split; [exact Hf|exact Hp].
Qed.

(** X4.  The same scan for the captain: every reserve of the captain's
    position that the scan passes over is credited by line 527 although
    it has less than 0.1 points, and the first one with at least 0.1
    points is credited twice, by line 527 and by line 531; only the last
    credit records the position.  When the captain's own score is a
    number the iteration completes, and [pontos] has then received the
    credits of the reserves passed over, the points [v] of that reserve
    twice, and the captain's own score, in this order. *)
Theorem X4_reserva_do_capitao_em_dobro (parciais : gmap Chave Valor)
        (partidas : list Partida.t) (a : Atleta.t) (pre : list Atleta.t)
        (r : Atleta.t) (post : list Atleta.t) (st : Estado) (v : float) :
  truthy (Atleta.is_capitao a) = true ->
  Spec.enteredPlay parciais (Atleta.id a) = false ->
  jogo_finalizou (Atleta.clube a) partidas = inr true ->
  Posicao.nome (Atleta.posicao a) ∉ reserva_usado st ->
  Forall (nao_substitui parciais a) pre ->
  Posicao.nome (Atleta.posicao a) = Posicao.nome (Atleta.posicao r) ->
  Spec.liveValue parciais (Atleta.id r) = Some v ->
  (0.1 <=? v)%float = true ->
  exists a' rs' st' fim,
    corpo_atleta_reg _teste parciais partidas a (Some (pre ++ r :: post)) st
    = (a', rs', st', fim,
       map (credito_capitao parciais a) (List.filter (mesma_posicao a) pre)
       ++ [MkCredito (Atleta.id a) (Posicao.nome (Atleta.posicao r)) (Atleta.id r) v false;
           MkCredito (Atleta.id a) (Posicao.nome (Atleta.posicao r)) (Atleta.id r) v true])
    /\ reserva_usado st' = reserva_usado st ++ [Posicao.nome (Atleta.posicao a)]
    /\ (is_Some (Spec.liveValue parciais (Atleta.id a)) -> fim = Segue)
    /\ (fim = Segue ->
        time_pontos st'
        = (soma_em (time_pontos st)
                   (map (credito_capitao parciais a)
                        (List.filter (mesma_posicao a) pre))
           + v + v + Spec.ownScore parciais a)%float).
Proof.
  intros Hcap He Hjf Hu Hpre Hpos Hv Hle.
  destruct (corpo_atleta_reg_primeiro parciais partidas a pre r post st v
              He Hjf Hu Hpre Hpos Hv Hle) as (a' & st' & fim & Hcorpo & Husado & Hf & Hp).
  rewrite Hcap in Hcorpo, Hp. rewrite <- app_assoc in Hcorpo, Hp.
  cbn [app] in Hcorpo, Hp.
  unfold credito_marcado, credito_capitao at 2 in Hcorpo.
  unfold credito_marcado, credito_capitao at 2 in Hp.
  rewrite (liveScore_liveValue _ _ _ Hv) in Hcorpo, Hp.
  eexists a', _, st', fim. split; [exact Hcorpo|]. split; [exact Husado|].
  split; [exact Hf|].
  intros Hfim. rewrite (Hp Hfim), soma_em_app. reflexivity.
Qed.

Lemma X3_primeiro_reserva_apto_witness :
  truthy (Atleta.is_capitao Exemplo3.pedro) = false
  /\ Spec.enteredPlay Exemplo.parciais_duas_posicoes (Atleta.id Exemplo3.pedro) = false
  /\ jogo_finalizou (Atleta.clube Exemplo3.pedro) Exemplo.rodada = inr true
  /\ (Posicao.nome (Atleta.posicao Exemplo3.pedro) ∉ reserva_usado Exemplo3.apos_o_meia)
  /\ Forall (nao_substitui Exemplo.parciais_duas_posicoes Exemplo3.pedro)
            [Exemplo3.savarino]
  /\ Spec.liveValue Exemplo.parciais_duas_posicoes (Atleta.id Exemplo3.tiquinho)
     = Some 5%float
  /\ exists a' st' fim,
      corpo_atleta_reg _teste Exemplo.parciais_duas_posicoes Exemplo.rodada
        Exemplo3.pedro (Some ([Exemplo3.savarino] ++ Exemplo3.tiquinho :: []))
        Exemplo3.apos_o_meia
      = (a', Some (map (Spec.liveReserve Exemplo.parciais_duas_posicoes)
                       [Exemplo3.savarino]
                   ++ Spec.liveReserve Exemplo.parciais_duas_posicoes Exemplo3.tiquinho
                   :: []),
         st', fim, [MkCredito 2 "Atacante" 3 5 true])
      /\ reserva_usado st' = ["Meia"; "Atacante"]%string
      /\ fim = Segue
      /\ time_pontos st'
         = (4 + 5 + Spec.ownScore Exemplo.parciais_duas_posicoes Exemplo3.pedro)%float.
Proof.
  assert (H1 : truthy (Atleta.is_capitao Exemplo3.pedro) = false) by reflexivity.
  assert (H2 : Spec.enteredPlay Exemplo.parciais_duas_posicoes
                 (Atleta.id Exemplo3.pedro) = false) by (vm_compute; reflexivity).
  assert (H3 : jogo_finalizou (Atleta.clube Exemplo3.pedro) Exemplo.rodada = inr true)
    by reflexivity.
  assert (H4 : Posicao.nome (Atleta.posicao Exemplo3.pedro)
                 ∉ reserva_usado Exemplo3.apos_o_meia).
  { intros H. apply list_elem_of_singleton in H. discriminate H. }
  assert (H5 : Forall (nao_substitui Exemplo.parciais_duas_posicoes Exemplo3.pedro)
                      [Exemplo3.savarino]).
  { constructor; [|constructor]. left. intros H. discriminate H. }
  assert (H6 : Spec.liveValue Exemplo.parciais_duas_posicoes (Atleta.id Exemplo3.tiquinho)
               = Some 5%float) by (vm_compute; reflexivity).
  do 6 (split; [assumption|]).
  destruct (X3_primeiro_reserva_apto Exemplo.parciais_duas_posicoes Exemplo.rodada
              Exemplo3.pedro [Exemplo3.savarino] Exemplo3.tiquinho []
              Exemplo3.apos_o_meia 5%float H1 H2 H3 H4 H5 eq_refl H6 eq_refl)
    as (a' & st' & fim & Hc & Hu & Hf & Hp).
  assert (Hfim : fim = Segue).
  { apply Hf. vm_compute. by eexists. }
  exists a', st', fim. split; [exact Hc|]. split; [exact Hu|].
  split; [exact Hfim|exact (Hp Hfim)].
Defined.

Lemma X4_reserva_do_capitao_em_dobro_witness :
  truthy (Atleta.is_capitao Exemplo3.capitao) = true
  /\ Spec.enteredPlay Exemplo.parciais_dois_reservas (Atleta.id Exemplo3.capitao) = false
  /\ jogo_finalizou (Atleta.clube Exemplo3.capitao) Exemplo.rodada = inr true
  /\ (Posicao.nome (Atleta.posicao Exemplo3.capitao) ∉ reserva_usado estado_inicial)
  /\ Forall (nao_substitui Exemplo.parciais_dois_reservas Exemplo3.capitao)
            [Exemplo3.reserva_negativo]
  /\ Spec.liveValue Exemplo.parciais_dois_reservas (Atleta.id Exemplo3.reserva_apto)
     = Some 3%float
  /\ exists a' rs' st' fim,
      corpo_atleta_reg _teste Exemplo.parciais_dois_reservas Exemplo.rodada
        Exemplo3.capitao
        (Some ([Exemplo3.reserva_negativo] ++ Exemplo3.reserva_apto :: []))
        estado_inicial
      = (a', rs', st', fim,
         map (credito_capitao Exemplo.parciais_dois_reservas Exemplo3.capitao)
             (List.filter (mesma_posicao Exemplo3.capitao) [Exemplo3.reserva_negativo])
         ++ [MkCredito 1 "Atacante" 3 3 false; MkCredito 1 "Atacante" 3 3 true])
      /\ fim = Segue
      /\ time_pontos st' = (0 + -1 + 3 + 3 + 0)%float.
Proof.
  assert (H1 : truthy (Atleta.is_capitao Exemplo3.capitao) = true) by reflexivity.
  assert (H2 : Spec.enteredPlay Exemplo.parciais_dois_reservas
                 (Atleta.id Exemplo3.capitao) = false) by (vm_compute; reflexivity).
  assert (H3 : jogo_finalizou (Atleta.clube Exemplo3.capitao) Exemplo.rodada = inr true)
    by reflexivity.
  assert (H4 : Posicao.nome (Atleta.posicao Exemplo3.capitao)
                 ∉ reserva_usado estado_inicial) by apply not_elem_of_nil.
  assert (H5 : Forall (nao_substitui Exemplo.parciais_dois_reservas Exemplo3.capitao)
                      [Exemplo3.reserva_negativo]).
  { constructor; [|constructor]. right. exists (-1)%float.
    split; vm_compute; reflexivity. }
  assert (H6 : Spec.liveValue Exemplo.parciais_dois_reservas
                 (Atleta.id Exemplo3.reserva_apto) = Some 3%float)
    by (vm_compute; reflexivity).
  do 6 (split; [assumption|]).
  destruct (X4_reserva_do_capitao_em_dobro Exemplo.parciais_dois_reservas
              Exemplo.rodada Exemplo3.capitao [Exemplo3.reserva_negativo]
              Exemplo3.reserva_apto [] estado_inicial 3%float
              H1 H2 H3 H4 H5 eq_refl H6 eq_refl)
    as (a' & rs' & st' & fim & Hc & _ & Hf & Hp).
  assert (Hfim : fim = Segue).
  { apply Hf. vm_compute. by eexists. }
  exists a', rs', st', fim. split; [exact Hc|]. split; [exact Hfim|].
  rewrite (Hp Hfim). vm_compute. reflexivity.
Defined.

(** ** A roster without a captain *)

Lemma creditos_do_passe_sem_depois time parciais partidas :
  sem_credito_depois (creditos_do_passe time parciais partidas).
Proof.
  unfold creditos_do_passe.
  destruct (parciais_invalidos parciais || negb (isinstance_Time time)); [done|].
  destruct time as [t|]; [|done].
  destruct (laco_atletas_reg _teste parciais partidas (Time.atletas t)
              (Time.reservas t) estado_inicial)
    as [[[[as' rs'] st'] fim] reg] eqn:Hlaco.
  apply laco_atletas_reg_fatos in Hlaco. by destruct Hlaco as (_ & _ & _ & H).
Qed.

Lemma posicoes_sem_repeticao reg :
  sem_credito_depois reg ->
  Forall (fun c => cr_marca c = true) reg ->
  NoDup (map cr_posicao reg).
Proof.
  induction reg as [|c reg IH]; cbn; [constructor|].
  intros [Hc Hs] Hm. apply Forall_cons in Hm. destruct Hm as [Hmc Hm].
  constructor; [|by apply IH].
  intros Hin. apply list_elem_of_fmap in Hin. destruct Hin as (c' & Heq & Hin).
  specialize (Hc Hmc). rewrite Forall_forall in Hc. by apply (Hc c' Hin).
Qed.

(** X5.  For a roster none of whose starters is the captain, every credit
    of a pass records its position and is worth at least 0.1: each
    position is credited at most once and by one reserve. *)
Theorem X5_sem_capitao (t : Time.t) (parciais : gmap Chave Valor)
        (partidas : list Partida.t) :
  (forall a, a ∈ Time.atletas t -> truthy (Atleta.is_capitao a) = false) ->
  Forall (fun c => cr_marca c = true /\ (0.1 <=? cr_pontos c)%float = true)
         (creditos_do_passe (OTime t) parciais partidas)
  /\ NoDup (map cr_posicao (creditos_do_passe (OTime t) parciais partidas))
  /\ um_reserva_por_posicao (creditos_do_passe (OTime t) parciais partidas).
Proof.
  intros Hcap.
  assert (Hm : Forall (fun c => cr_marca c = true /\ (0.1 <=? cr_pontos c)%float = true)
                      (creditos_do_passe (OTime t) parciais partidas)).
  { eapply Forall_impl; [apply creditos_do_passe_origem|].
    intros c (t0 & [= <-] & a & Ha & _ & _ & _ & _ & Hf & Hv & _).
    assert (cr_marca c = true) as Hmc.
    { destruct (cr_marca c); [reflexivity|].
      specialize (Hf eq_refl). cbn [Spec.liveStarter Atleta.is_capitao] in Hf.
      rewrite (Hcap a Ha) in Hf. discriminate Hf. }
    split; [exact Hmc|exact (Hv Hmc)]. }
  assert (Hnd : NoDup (map cr_posicao (creditos_do_passe (OTime t) parciais partidas))).
  { apply posicoes_sem_repeticao; [apply creditos_do_passe_sem_depois|].
    eapply Forall_impl; [exact Hm|]. by intros c [H _]. }
  split; [exact Hm|]. split; [exact Hnd|].
  intros c1 c2 H1 H2 Hpos.
  apply list_elem_of_lookup in H1, H2. destruct H1 as [i Hi], H2 as [j Hj].
  assert (i = j) as ->; [|congruence].
  eapply NoDup_lookup; [exact Hnd| |].
  - rewrite list_lookup_fmap, Hi. reflexivity.
  - rewrite list_lookup_fmap, Hj. cbn. by rewrite Hpos.
Qed.

Lemma X5_sem_capitao_witness :
  (forall a, a ∈ Time.atletas Exemplo.time_duas_posicoes ->
             truthy (Atleta.is_capitao a) = false)
  /\ creditos_do_passe (OTime Exemplo.time_duas_posicoes)
                       Exemplo.parciais_duas_posicoes Exemplo.rodada
     = [MkCredito 1 "Meia" 4 4 true; MkCredito 2 "Atacante" 3 5 true]
  /\ NoDup (map cr_posicao
              (creditos_do_passe (OTime Exemplo.time_duas_posicoes)
                                 Exemplo.parciais_duas_posicoes Exemplo.rodada)).
Proof.
  assert (Hc : forall a, a ∈ Time.atletas Exemplo.time_duas_posicoes ->
                 truthy (Atleta.is_capitao a) = false).
  { intros a Ha. cbn in Ha.
    repeat (apply elem_of_cons in Ha; destruct Ha as [-> | Ha]; [reflexivity|]).
    by apply elem_of_nil in Ha. }
  split; [exact Hc|]. split; [vm_compute; reflexivity|].
  exact (proj1 (proj2 (X5_sem_capitao Exemplo.time_duas_posicoes
                         Exemplo.parciais_duas_posicoes Exemplo.rodada Hc))).
Defined.

(** * [Api.time_parcial_2] *)

Lemma parciais_do_arquivo_lookup {J} (arquivo : gmap string J) (s : string) :
  parciais_do_arquivo arquivo !! KStr s = (fun _ => VOutro) <$> arquivo !! s.
Proof.
  unfold parciais_do_arquivo. rewrite lookup_kmap; [|apply KStr_inj].
  by rewrite lookup_fmap.
Qed.

Lemma parciais_do_arquivo_invalidos {J} (arquivo : gmap string J) :
  arquivo <> ∅ -> parciais_invalidos (parciais_do_arquivo arquivo) = true.
Proof.
  intros Hne. apply map_choose in Hne. destruct Hne as (s & j & Hs).
  apply parciais_invalidos_true. exists (KStr s), VOutro. split; [|by left].
  by rewrite parciais_do_arquivo_lookup, Hs.
Qed.

Lemma parciais_do_arquivo_vazio {J} : parciais_do_arquivo (∅ : gmap string J) = ∅.
Proof. unfold parciais_do_arquivo. by rewrite fmap_empty, kmap_empty. Qed.


(** X10.  [time_parcial_2] never returns a scored roster when the file has
    an athlete: whatever is passed as [parciais_2] and whatever the
    market status, it raises [CartolaFCError] (the keys read from the file
    are [str] and the values are not [Atleta], so the check of
    [_calculate_parcial_2] fails) and the roster is as it was fetched.
    Only with a file without athletes, and past the guard of line 416,
    does it return, for a roster none of whose starters has the club
    [None] (or with no match to scan), and then with [pontos] 0 and
    [jogados] 0. *)
Theorem X10_time_parcial_2 {J : Type} (MERCADO_FECHADO status_id : Z)
        (arquivo_atletas : gmap string J) (time : Time.t)
        (partidas : list Partida.t) (parciais_2 : Argumento) :
  (arquivo_atletas <> ∅ ->
   exists msg,
     time_parcial_2 MERCADO_FECHADO status_id arquivo_atletas time partidas parciais_2
     = (Levanta (CartolaFCError msg), OTime time))
  /\ (arquivo_atletas = ∅ ->
      parciais_2 <> ArgNone \/ status_id = MERCADO_FECHADO ->
      clubes_resolvidos (Time.atletas time) partidas ->
      exists t' : Time.t,
        time_parcial_2 MERCADO_FECHADO status_id arquivo_atletas time partidas parciais_2
        = (Retorna, OTime t')
        /\ Time.pontos t' = Some 0%float
        /\ Time.jogados t' = Some 0).
Proof.
  unfold time_parcial_2. split.
  - intros Hne.
    destruct (is_None parciais_2 && negb (status_id =? MERCADO_FECHADO)); [by eexists|].
    exists mensagem_invalido. unfold _calculate_parcial_2.
    by rewrite (parciais_do_arquivo_invalidos _ Hne).
  - intros -> Hguarda Hc.
    assert (Hg : is_None parciais_2 && negb (status_id =? MERCADO_FECHADO) = false).
    { destruct Hguarda as [H|H].
      - destruct parciais_2; [done|reflexivity..].
      - subst. rewrite Z.eqb_refl. apply andb_false_r. }
    rewrite Hg, parciais_do_arquivo_vazio.
    destruct (_calculate_parcial_vazio time partidas Hc) as (t' & Hcalc & Hp & Hj & _).
    exists t'. split; [|split; [exact Hp|exact Hj]].
    rewrite <- Hcalc. unfold _calculate_parcial_2, _calculate_parcial.
    destruct (parciais_invalidos ∅ || negb (isinstance_Time (OTime time)));
      [reflexivity|].
    rewrite laco_atletas_2. reflexivity.
Qed.

Lemma X10_time_parcial_2_witness :
  Exemplo4.arquivo <> ∅
  /\ (exists msg,
        time_parcial_2 2 2 Exemplo4.arquivo Exemplo.time_capitao Exemplo.rodada
                       (ArgDict Exemplo.parciais_capitao)
        = (Levanta (CartolaFCError msg), OTime Exemplo.time_capitao))
  /\ exists t' : Time.t,
      time_parcial_2 2 2 (∅ : gmap string string) Exemplo.time_capitao Exemplo.rodada
                     (ArgDict Exemplo.parciais_capitao)
      = (Retorna, OTime t')
      /\ Time.pontos t' = Some 0%float
      /\ Time.jogados t' = Some 0.
Proof.
  assert (H : Exemplo4.arquivo <> ∅).
  { intros H. apply (f_equal (fun m => m !! "1"%string)) in H. vm_compute in H.
    discriminate H. }
  split; [exact H|]. split.
  - exact (proj1 (X10_time_parcial_2 2 2 Exemplo4.arquivo Exemplo.time_capitao
                    Exemplo.rodada (ArgDict Exemplo.parciais_capitao)) H).
  - apply (proj2 (X10_time_parcial_2 2 2 (∅ : gmap string string) Exemplo.time_capitao
                    Exemplo.rodada (ArgDict Exemplo.parciais_capitao))
                 eq_refl (or_intror eq_refl)).
    right. by repeat constructor.
Defined.

(** * [Api.__init__] and [Api._request] *)

Section Pedidos.

Context {D : Type}.

Lemma laco_tentativas_sobrecarga (k : nat) (respostas : list (Resposta D)) :
  (S k <= length respostas)%nat ->
  Forall (fun r => eh_sobrecarga r = true) (take (S k) respostas) ->
  laco_tentativas (Z.of_nat (S k)) respostas
  = (LevantaSobrecarga, drop (S k) respostas).
Proof.
  revert respostas. induction k as [|k IH]; intros [|r respostas] Hlen Hall;
    cbn [length] in Hlen; try lia.
  - cbn [take] in Hall. apply Forall_cons in Hall. destruct Hall as [Hr _].
    destruct r; try discriminate Hr. reflexivity.
  - cbn [take] in Hall. apply Forall_cons in Hall. destruct Hall as [Hr Hall].
    destruct r; try discriminate Hr.
    cbn [laco_tentativas drop].
    replace (Z.of_nat (S (S k)) =? 0) with false by (symmetry; apply Z.eqb_neq; lia).
    replace (Z.of_nat (S (S k)) - 1) with (Z.of_nat (S k)) by lia.
    replace (Z.of_nat (S k) =? 0) with false by (symmetry; apply Z.eqb_neq; lia).
    apply IH; [lia|exact Hall].
Qed.

Lemma laco_tentativas_primeira (k : nat) (pre : list (Resposta D)) (r : Resposta D)
      (post : list (Resposta D)) :
  (length pre <= k)%nat ->
  Forall (fun r => eh_sobrecarga r = true) pre ->
  eh_sobrecarga r = false ->
  laco_tentativas (Z.of_nat (S k)) (pre ++ r :: post) = (fim_de r, post).
Proof.
  revert k. induction pre as [|x pre IH]; intros k Hlen Hall Hr.
  - cbn [app laco_tentativas].
    replace (Z.of_nat (S k) =? 0) with false by (symmetry; apply Z.eqb_neq; lia).
    destruct r; try discriminate Hr; reflexivity.
  - apply Forall_cons in Hall. destruct Hall as [Hx Hall].
    destruct x; try discriminate Hx. cbn [length] in Hlen.
    destruct k as [|k]; [lia|].
    cbn [app laco_tentativas].
    replace (Z.of_nat (S (S k)) =? 0) with false by (symmetry; apply Z.eqb_neq; lia).
    replace (Z.of_nat (S (S k)) - 1) with (Z.of_nat (S k)) by lia.
    replace (Z.of_nat (S k) =? 0) with false by (symmetry; apply Z.eqb_neq; lia).
    apply IH; [lia|exact Hall|exact Hr].
Qed.

Lemma primeira_sem_sobrecarga (l : list (Resposta D)) :
  Forall (fun r => eh_sobrecarga r = true) l
  \/ exists pre r post,
       l = pre ++ r :: post
       /\ Forall (fun r => eh_sobrecarga r = true) pre
       /\ eh_sobrecarga r = false.
Proof.
  induction l as [|x l [IH|(pre & r & post & -> & Hpre & Hr)]].
  - left. constructor.
  - destruct (eh_sobrecarga x) eqn:Hx.
    + left. by constructor.
    + right. exists [], x, l. repeat split; [constructor|exact Hx].
  - destruct (eh_sobrecarga x) eqn:Hx.
    + right. exists (x :: pre), r, post. repeat split; [by constructor|exact Hr].
    + right. exists [], x, (pre ++ r :: post). repeat split; [constructor|exact Hx].
Qed.

Lemma Api_init_attempts (attempts : ArgInt) (redis : bool) :
  1 <= Api._attempts (Api_init attempts redis).
Proof.
  destruct attempts as [n|]; cbn; [|lia].
  destruct (0 <? n) eqn:Hn; [apply Z.ltb_lt in Hn|]; lia.
Qed.

End Pedidos.

Lemma _request_sem_cache {D} (api : Api.t) (redis : gmap string D) (url : string)
      (respostas : list (Resposta D)) :
  _get api redis url = None ->
  (_request api redis url respostas).1.1 = (laco_tentativas (Api._attempts api) respostas).1
  /\ (_request api redis url respostas).2
     = (laco_tentativas (Api._attempts api) respostas).2.
Proof.
  intros Hget. unfold _request. rewrite Hget.
  destruct (laco_tentativas (Api._attempts api) respostas) as [[d| | |e|] resto];
    split; reflexivity.
Qed.

(** X11.  An [Api] built by [__init__] has at least one attempt, whatever
    is passed as [attempts].  On a call of [_request] that the cache does
    not answer, with at least that many exchanges to come: the call makes
    at least one and at most [_attempts] HTTP exchanges and never falls
    out of its loop returning [None]; it raises the overload error after
    exactly [_attempts] exchanges when all of them are overloaded; and
    otherwise it ends as the first exchange that is not overloaded does
    (with its data, or with its exception), having made no exchange after
    it. *)
Theorem X11_request_tentativas {D : Type} (attempts : ArgInt) (redis_on : bool)
        (redis : gmap string D) (url : string) (respostas : list (Resposta D)) :
  _get (Api_init attempts redis_on) redis url = None ->
  (Z.to_nat (Api._attempts (Api_init attempts redis_on)) <= length respostas)%nat ->
  (1 <= Z.to_nat (Api._attempts (Api_init attempts redis_on)))%nat
  /\ (1 <= pedidos_feitos respostas
             (_request (Api_init attempts redis_on) redis url respostas).2
      <= Z.to_nat (Api._attempts (Api_init attempts redis_on)))%nat
  /\ (_request (Api_init attempts redis_on) redis url respostas).1.1 <> DevolveNone
  /\ (_request (Api_init attempts redis_on) redis url respostas).1.1 <> SemResposta
  /\ (Forall (fun r => eh_sobrecarga r = true)
             (take (Z.to_nat (Api._attempts (Api_init attempts redis_on))) respostas) ->
      (_request (Api_init attempts redis_on) redis url respostas).1.1 = LevantaSobrecarga
      /\ pedidos_feitos respostas
           (_request (Api_init attempts redis_on) redis url respostas).2
         = Z.to_nat (Api._attempts (Api_init attempts redis_on)))
  /\ (forall pre r post,
        respostas = pre ++ r :: post ->
        (length pre < Z.to_nat (Api._attempts (Api_init attempts redis_on)))%nat ->
        Forall (fun r => eh_sobrecarga r = true) pre ->
        eh_sobrecarga r = false ->
        (_request (Api_init attempts redis_on) redis url respostas).1.1 = fim_de r
        /\ (_request (Api_init attempts redis_on) redis url respostas).2 = post
        /\ pedidos_feitos respostas
             (_request (Api_init attempts redis_on) redis url respostas).2
           = S (length pre)).
Proof.
  intros Hget Hlen.
  destruct (_request_sem_cache _ redis url respostas Hget) as [-> ->].
  pose proof (Api_init_attempts attempts redis_on) as Hn.
  set (api := Api_init attempts redis_on) in *.
  destruct (Z.to_nat (Api._attempts api)) as [|k] eqn:Hk; [lia|].
  assert (Hz : Api._attempts api = Z.of_nat (S k)) by lia.
  rewrite Hz.
  assert (Htodas : Forall (fun r => eh_sobrecarga r = true) (take (S k) respostas) ->
                   (laco_tentativas (Z.of_nat (S k)) respostas).1 = LevantaSobrecarga
                   /\ pedidos_feitos respostas
                        (laco_tentativas (Z.of_nat (S k)) respostas).2 = S k).
  { intros Hall. rewrite (laco_tentativas_sobrecarga k respostas Hlen Hall).
    cbn [fst snd]. split; [reflexivity|].
    unfold pedidos_feitos. rewrite length_drop. lia. }
  assert (Hprimeira : forall pre r post,
             respostas = pre ++ r :: post ->
             (length pre < S k)%nat ->
             Forall (fun r => eh_sobrecarga r = true) pre ->
             eh_sobrecarga r = false ->
             (laco_tentativas (Z.of_nat (S k)) respostas).1 = fim_de r
             /\ (laco_tentativas (Z.of_nat (S k)) respostas).2 = post
             /\ pedidos_feitos respostas
                  (laco_tentativas (Z.of_nat (S k)) respostas).2 = S (length pre)).
  { intros pre r post -> Hpre Hall Hr.
    rewrite (laco_tentativas_primeira k pre r post); [|lia|exact Hall|exact Hr].
    cbn [fst snd]. repeat split.
    unfold pedidos_feitos. rewrite length_app. cbn [length]. lia. }
  assert (Hmeio : (1 <= pedidos_feitos respostas
                          (laco_tentativas (Z.of_nat (S k)) respostas).2 <= S k)%nat
                  /\ (laco_tentativas (Z.of_nat (S k)) respostas).1 <> DevolveNone
                  /\ (laco_tentativas (Z.of_nat (S k)) respostas).1 <> SemResposta).
  { destruct (primeira_sem_sobrecarga (take (S k) respostas))
      as [Hall|(pre & r & post & Htake & Hpre & Hr)].
    - destruct (Htodas Hall) as [Hfim Hped]. rewrite Hfim, Hped.
      repeat split; try done; lia.
    - assert (Hresp : respostas = pre ++ r :: (post ++ drop (S k) respostas)).
      { rewrite <- (take_drop (S k) respostas) at 1. rewrite Htake, <- app_assoc.
        reflexivity. }
      assert (Hlpre : (length pre < S k)%nat).
      { apply (f_equal length) in Htake. rewrite length_take, length_app in Htake.
        cbn [length] in Htake. lia. }
      destruct (Hprimeira pre r _ Hresp Hlpre Hpre Hr) as (Hfim & Hresto & Hped).
      rewrite Hfim, Hped.
      repeat split; try lia; destruct r; try discriminate Hr; discriminate. }
  destruct Hmeio as (H1 & H2 & H3).
  split; [lia|]. split; [exact H1|]. split; [exact H2|]. split; [exact H3|].
  split; [exact Htodas|exact Hprimeira].
Qed.

Lemma X11_request_tentativas_witness :
  _get (Api_init (AInt 3) false) (∅ : gmap string string) Exemplo4.url_mercado = None
  /\ (Z.to_nat (Api._attempts (Api_init (AInt 3) false)) <= length Exemplo4.respostas)%nat
  /\ (_request (Api_init (AInt 3) false) ∅ Exemplo4.url_mercado Exemplo4.respostas).1.1
     = fim_de (RDados "rodada 7")
  /\ (_request (Api_init (AInt 3) false) ∅ Exemplo4.url_mercado Exemplo4.respostas).2
     = [RDados "rodada 8"]
  /\ pedidos_feitos Exemplo4.respostas
       (_request (Api_init (AInt 3) false) ∅ Exemplo4.url_mercado Exemplo4.respostas).2
     = 3%nat.
Proof.
  assert (H1 : _get (Api_init (AInt 3) false) (∅ : gmap string string)
                    Exemplo4.url_mercado = None) by reflexivity.
  assert (H2 : (Z.to_nat (Api._attempts (Api_init (AInt 3) false))
                <= length Exemplo4.respostas)%nat) by (vm_compute; lia).
  split; [exact H1|]. split; [exact H2|].
  apply (proj2 (proj2 (proj2 (proj2 (proj2
           (X11_request_tentativas (AInt 3) false ∅ Exemplo4.url_mercado
              Exemplo4.respostas H1 H2)))))
           [RSobrecarga; RSobrecarga] (RDados "rodada 7") [RDados "rodada 8"]).
  - reflexivity.
  - vm_compute. lia.
  - repeat constructor.
  - reflexivity.
Defined.

(** With one attempt fewer the same server makes the call raise. *)
Example duas_tentativas_nao_bastam :
  _request (Api_init (AInt 2) false) (∅ : gmap string string) Exemplo4.url_mercado
           Exemplo4.respostas
  = (LevantaSobrecarga, ∅, [RDados "rodada 7"; RDados "rodada 8"]).
Proof. reflexivity. Qed.

(** X12.  With a Redis connection, a call of [_request] that returns data
    leaves that data in the server under the URL and touches no other
    entry; a following call for the same URL returns the same data from
    the server, without any HTTP exchange and without changing the
    server; and a call that finds an entry makes no exchange. *)
Theorem X12_request_cache {D : Type} (api : Api.t) (redis redis' : gmap string D)
        (url : string) (respostas resto : list (Resposta D)) (d : D) :
  Api._redis api = true ->
  _request api redis url respostas = (Devolve d, redis', resto) ->
  redis' !! url = Some d
  /\ (forall url', url' <> url -> redis' !! url' = redis !! url')
  /\ (forall respostas2,
        _request api redis' url respostas2 = (Devolve d, redis', respostas2))
  /\ (is_Some (redis !! url) -> redis' = redis /\ resto = respostas).
Proof.
  intros Hon Hreq. unfold _request, _get in Hreq. rewrite Hon in Hreq.
  assert (Hhit : forall respostas2,
             redis' !! url = Some d ->
             _request api redis' url respostas2 = (Devolve d, redis', respostas2)).
  { intros respostas2 H. unfold _request, _get. by rewrite Hon, H. }
  destruct (redis !! url) as [cached|] eqn:Hcache.
  - injection Hreq as <- <- <-. repeat split; try done.
    intros respostas2. by apply Hhit.
  - destruct (laco_tentativas (Api._attempts api) respostas) as [[parsed| | |e|] resto0];
      try discriminate Hreq.
    unfold _set in Hreq. rewrite Hon in Hreq. injection Hreq as <- <- <-.
    assert (Hd : <[url:=parsed]> redis !! url = Some parsed) by apply lookup_insert_eq.
    split; [exact Hd|]. split; [|split].
    + intros url' Hne. by apply lookup_insert_ne.
    + intros respostas2. by apply Hhit.
    + by intros [? ?].
Qed.

Lemma X12_request_cache_witness :
  Api._redis (Api_init (AInt 3) true) = true
  /\ _request (Api_init (AInt 3) true) (∅ : gmap string string) Exemplo4.url_mercado
              Exemplo4.respostas
     = (Devolve "rodada 7"%string, {[Exemplo4.url_mercado := "rodada 7"%string]},
        [RDados "rodada 8"])
  /\ forall respostas2,
      _request (Api_init (AInt 3) true) {[Exemplo4.url_mercado := "rodada 7"%string]}
               Exemplo4.url_mercado respostas2
      = (Devolve "rodada 7"%string, {[Exemplo4.url_mercado := "rodada 7"%string]},
         respostas2).
Proof.
  assert (H1 : Api._redis (Api_init (AInt 3) true) = true) by reflexivity.
  assert (H2 : _request (Api_init (AInt 3) true) (∅ : gmap string string)
                        Exemplo4.url_mercado Exemplo4.respostas
               = (Devolve "rodada 7"%string,
                  {[Exemplo4.url_mercado := "rodada 7"%string]}, [RDados "rodada 8"])).
  { cbn. rewrite insert_empty. reflexivity. }
  split; [exact H1|]. split; [exact H2|].
  exact (proj1 (proj2 (proj2 (X12_request_cache _ _ _ _ _ _ _ H1 H2)))).
Defined.

(** * [Atleta.from_dict] and [Time.from_dict] *)


Lemma _posicoes_id (k : Z) (pos : Posicao.t) :
  _posicoes k = Some pos -> Posicao.id pos = k.
Proof.
  unfold _posicoes.
  destruct k as [|p|p]; try discriminate.
  do 3 (try destruct p as [p|p|]; try discriminate);
    intros [= <-]; reflexivity.
Qed.

Lemma _posicoes_dominio (k : Z) :
  is_Some (_posicoes k) <-> 1 <= k <= 6.
Proof.
  split.
  - intros [pos Hpos]. unfold _posicoes in Hpos.
    destruct k as [|p|p]; try discriminate.
    do 3 (try destruct p as [p|p|]; try discriminate); lia.
  - intros Hk.
    assert (k = 1 \/ k = 2 \/ k = 3 \/ k = 4 \/ k = 5 \/ k = 6) as Hcasos by lia.
    destruct Hcasos as [->|[->|[->|[->|[->| ->]]]]]; by eexists.
Qed.

Lemma Atleta_init_inr atleta_id apelido foto pontos scout posicao_id entrou clube
      status_id is_capitao a :
  Atleta_init atleta_id apelido foto pontos scout posicao_id entrou clube
              status_id is_capitao = inr a ->
  Construido.id a = atleta_id
  /\ Posicao.id (Construido.posicao a) = posicao_id
  /\ Construido.is_capitao a = is_capitao
  /\ Construido.clube a = clube
  /\ Construido.entrou_em_campo a = entrou.
Proof.
  unfold Atleta_init.
  destruct (_posicoes posicao_id) as [p|] eqn:Hp; [|discriminate].
  apply _posicoes_id in Hp.
  destruct status_id as [s|].
  - destruct (s =? 0).
    + intros [= <-]. by cbn.
    + destruct (_atleta_status s); [|discriminate].
      intros [= <-]. by cbn.
  - intros [= <-]. by cbn.
Qed.

Lemma Atleta_from_dict_inr data clubes is_capitao a :
  Atleta_from_dict data clubes None is_capitao = inr a ->
  Construido.id a = Dados.atleta_id data
  /\ Posicao.id (Construido.posicao a) = Dados.posicao_id data
  /\ Construido.is_capitao a = is_capitao.
Proof.
  unfold Atleta_from_dict.
  destruct (Dados.pontos_num data) as [p|].
  - intros H. apply Atleta_init_inr in H. tauto.
  - destruct (Dados.pontuacao data) as [p|]; [|discriminate].
    intros H. apply Atleta_init_inr in H. tauto.
Qed.

Lemma Atleta_from_dict_construivel data clubes atleta_id is_capitao :
  (exists a, Atleta_from_dict data clubes atleta_id is_capitao = inr a)
  <-> construivel data.
Proof.
  unfold Atleta_from_dict, Atleta_init, construivel.
  split.
  - intros [a Ha].
    destruct (Dados.pontos_num data) as [p|], (Dados.pontuacao data) as [q|];
      try discriminate;
      (destruct (_posicoes (Dados.posicao_id data)) as [pos|]; [|discriminate]);
      (split; [by (left + right); eexists|]);
      (split; [by eexists|]);
      (destruct (Dados.status_id data) as [s|]; [|done]);
      (destruct (s =? 0) eqn:Hs; [left; lia|]);
      (destruct (_atleta_status s); [right; by eexists|discriminate]).
  - intros (Hpontos & [pos Hpos] & Hstatus).
    rewrite Hpos.
    assert (exists p, match Dados.pontos_num data with
                      | Some p => inr p
                      | None => match Dados.pontuacao data with
                                | Some p => inr p
                                | None => inl (ChaveAusente "pontuacao")
                                end
                      end = (inr p : KeyError + Pontos)) as [p ->].
    { destruct Hpontos as [[p ->]|[p Hp]]; [by eexists|].
      rewrite Hp. destruct (Dados.pontos_num data); by eexists. }
    destruct (Dados.status_id data) as [s|]; [|by eexists].
    destruct Hstatus as [->|[st ->]]; [by eexists|].
    destruct (s =? 0); by eexists.
Qed.

Lemma compreensao_inr {A B E} (f : A -> E + B) (l : list A) (ys : list B) :
  compreensao f l = inr ys -> Forall2 (fun x y => f x = inr y) l ys.
Proof.
  revert ys. induction l as [|x l IH]; intros ys; cbn.
  - intros [= <-]. constructor.
  - destruct (f x) as [e|y] eqn:Hx; [discriminate|].
    destruct (compreensao f l) as [e|ys']; [discriminate|].
    intros [= <-]. constructor; [done|by apply IH].
Qed.

Lemma compreensao_total {A B E} (f : A -> E + B) (l : list A) :
  (exists ys, compreensao f l = inr ys) <-> Forall (fun x => exists y, f x = inr y) l.
Proof.
  induction l as [|x l IH]; cbn.
  - split; [constructor|by eexists].
  - split.
    + intros [ys Hys].
      destruct (f x) as [e|y] eqn:Hx; [discriminate|].
      destruct (compreensao f l) as [e|ys']; [discriminate|].
      constructor; [by eexists|]. apply IH. by eexists.
    + intros H. apply Forall_cons in H as [[y ->] Hl].
      apply IH in Hl as [ys ->]. by eexists.
Qed.

Lemma insere_por_posicao_perm (x : Dados.t) (l : list Dados.t) :
  insere_por_posicao x l ≡ₚ x :: l.
Proof.
  induction l as [|y l IH]; cbn; [done|].
  destruct (Dados.posicao_id x <=? Dados.posicao_id y); [done|].
  rewrite IH. apply Permutation_swap.
Qed.

Lemma sort_por_posicao_perm (l : list Dados.t) : sort_por_posicao l ≡ₚ l.
Proof.
  induction l as [|x l IH]; cbn; [done|].
  by rewrite insere_por_posicao_perm, IH.
Qed.

Lemma crescente_insere (x : Dados.t) (l : list Dados.t) :
  crescente (map Dados.posicao_id l) ->
  crescente (map Dados.posicao_id (insere_por_posicao x l)).
Proof.
  induction l as [|y l IH]; cbn.
  - intros _. split; [constructor|done].
  - intros [Hy Hl].
    destruct (Dados.posicao_id x <=? Dados.posicao_id y) eqn:Hxy; cbn.
    + apply Z.leb_le in Hxy. repeat split; [|done|done].
      constructor; [done|].
      eapply Forall_impl; [exact Hy|]. cbn. intros z Hz. lia.
    + apply Z.leb_gt in Hxy. split; [|by apply IH].
      assert (map Dados.posicao_id (insere_por_posicao x l)
              ≡ₚ Dados.posicao_id x :: map Dados.posicao_id l) as ->.
      { change (Dados.posicao_id x :: map Dados.posicao_id l)
          with (map Dados.posicao_id (x :: l)).
        apply Permutation_map, insere_por_posicao_perm. }
      constructor; [lia|done].
Qed.

Lemma sort_por_posicao_crescente (l : list Dados.t) :
  crescente (map Dados.posicao_id (sort_por_posicao l)).
Proof.
  induction l as [|x l IH]; cbn; [done|]. by apply crescente_insere.
Qed.

Lemma filter_insere_por_posicao (k : Z) (x : Dados.t) (l : list Dados.t) :
  filter (fun d => Dados.posicao_id d = k) (insere_por_posicao x l)
  = filter (fun d => Dados.posicao_id d = k) (x :: l).
Proof.
  induction l as [|y l IH]; cbn; [done|].
  destruct (Dados.posicao_id x <=? Dados.posicao_id y) eqn:Hxy; [done|].
  apply Z.leb_gt in Hxy.
  rewrite (filter_cons _ y (insere_por_posicao x l)), IH.
  rewrite !filter_cons.
  repeat case_decide; try done; lia.
Qed.

Lemma filter_sort_por_posicao (k : Z) (l : list Dados.t) :
  filter (fun d => Dados.posicao_id d = k) (sort_por_posicao l)
  = filter (fun d => Dados.posicao_id d = k) l.
Proof.
  induction l as [|x l IH]; cbn; [done|].
  by rewrite filter_insere_por_posicao, !filter_cons, IH.
Qed.

Section Construcao.

Context (clubes : gmap Z Clube.t) (capitao : option Z).

Let constroi (atleta : Dados.t) :=
  Atleta_from_dict atleta clubes None
                   (Some (bool_decide (Some (Dados.atleta_id atleta) = capitao))).

Lemma construidos_campos (ds : list Dados.t) (objs : list Construido.t) :
  Forall2 (fun d a => constroi d = inr a) ds objs ->
  map Construido.id objs = map Dados.atleta_id ds
  /\ map (fun a => Posicao.id (Construido.posicao a)) objs = map Dados.posicao_id ds
  /\ (forall k : Z,
        map Construido.id
            (filter (fun a => Posicao.id (Construido.posicao a) = k) objs)
        = map Dados.atleta_id (filter (fun d => Dados.posicao_id d = k) ds))
  /\ Forall (fun a => Construido.is_capitao a
                      = Some (bool_decide (Some (Construido.id a) = capitao))) objs.
Proof.
  induction 1 as [|d a ds objs Hda _ IH]; [by repeat split|].
  destruct IH as (Hid & Hpos & Hfil & Hcap).
  apply Atleta_from_dict_inr in Hda as (Hi & Hp & Hc).
  repeat split.
  - cbn. by rewrite Hi, Hid.
  - cbn. by rewrite Hp, Hpos.
  - intros k. rewrite !filter_cons, Hp.
    destruct (decide (Dados.posicao_id d = k)); cbn [map];
      by rewrite ?Hi, Hfil.
  - constructor; [|done]. by rewrite Hc, Hi.
Qed.

Lemma compreensao_construida_de (ds : list Dados.t) (objs : list Construido.t) :
  compreensao constroi (sort_por_posicao ds) = inr objs ->
  construida_de capitao ds objs.
Proof.
  intros H. apply compreensao_inr, construidos_campos in H
    as (Hid & Hpos & Hfil & Hcap).
  repeat split.
  - rewrite Hid. apply Permutation_map, sort_por_posicao_perm.
  - rewrite Hpos. apply sort_por_posicao_crescente.
  - intros k. by rewrite Hfil, filter_sort_por_posicao.
  - done.
Qed.

Lemma compreensao_construivel (ds : list Dados.t) :
  (exists objs, compreensao constroi (sort_por_posicao ds) = inr objs)
  <-> Forall construivel ds.
Proof.
  rewrite compreensao_total.
  rewrite (sort_por_posicao_perm ds).
  apply Forall_iff. intros d. apply Atleta_from_dict_construivel.
Qed.

End Construcao.

(** X13. [Time.from_dict], when it returns, gives the athletes of the
    payload (the same ids, as a permutation), in ascending order of
    position id; the athletes of one position keep the order they have in
    the payload; and [is_capitao] is [True] on the athletes whose id is
    [capitao] and [False] on the others.  The same holds of the bench when
    the payload has the key ['reservas'], and [reservas] is [None] when it
    has not. *)
Theorem X13_from_dict_ordena_por_posicao (data : DadosTime.t) (clubes : gmap Z Clube.t)
        (capitao : option Z) (t : TimeConstruido.t) :
  Time_from_dict data clubes capitao = inr t ->
  construida_de capitao (DadosTime.atletas data) (TimeConstruido.atletas t)
  /\ match DadosTime.reservas data with
     | Some rs =>
         exists reservas, TimeConstruido.reservas t = Some reservas
                          /\ construida_de capitao rs reservas
     | None => TimeConstruido.reservas t = None
     end.
Proof.
  unfold Time_from_dict.
  destruct (compreensao _ (sort_por_posicao (DadosTime.atletas data)))
    as [e|atletas] eqn:Hat; [discriminate|].
  apply compreensao_construida_de in Hat.
  destruct (DadosTime.reservas data) as [rs|].
  - destruct (compreensao _ (sort_por_posicao rs)) as [e|reservas] eqn:Hrs;
      [discriminate|].
    apply compreensao_construida_de in Hrs.
    intros [= <-]. cbn. split; [done|]. by exists reservas.
  - intros [= <-]. by cbn.
Qed.

Lemma X13_from_dict_ordena_por_posicao_witness :
  exists t,
    Time_from_dict Exemplo5.data Exemplo5.clubes (Some 12) = inr t
    /\ map Construido.id (TimeConstruido.atletas t) = [11; 13; 10; 12]
    /\ construida_de (Some 12) (DadosTime.atletas Exemplo5.data)
                     (TimeConstruido.atletas t).
Proof.
  eexists. split; [vm_compute; reflexivity|].
  split; [vm_compute; reflexivity|].
  apply (X13_from_dict_ordena_por_posicao Exemplo5.data Exemplo5.clubes (Some 12)).
  vm_compute; reflexivity.
Defined.

(** X14. [Time.from_dict] returns a roster exactly when every athlete of
    the payload, on the field or on the bench, has the key ['pontos_num']
    or the key ['pontuacao'] (whatever the value, a [null] included), a
    position id of the table [_posicoes] (1 to 6) and a status id that is
    absent, falsy or of the table [_atleta_status]; otherwise it raises
    [KeyError]. *)
Theorem X14_from_dict_KeyError (data : DadosTime.t) (clubes : gmap Z Clube.t)
        (capitao : option Z) :
  (exists t, Time_from_dict data clubes capitao = inr t)
  <-> Forall construivel (DadosTime.atletas data)
      /\ (forall rs, DadosTime.reservas data = Some rs -> Forall construivel rs).
Proof.
  unfold Time_from_dict. split.
  - intros [t Ht].
    destruct (compreensao _ (sort_por_posicao (DadosTime.atletas data)))
      as [e|atletas] eqn:Hat; [discriminate|].
    split.
    + eapply compreensao_construivel. by eexists.
    + intros rs Hrs. rewrite Hrs in Ht.
      destruct (compreensao _ (sort_por_posicao rs)) as [e|reservas] eqn:Hres;
        [discriminate|].
      eapply compreensao_construivel. by eexists.
  - intros [Hat Hres].
    apply (compreensao_construivel clubes capitao) in Hat as [atletas ->].
    destruct (DadosTime.reservas data) as [rs|]; [|by eexists].
    specialize (Hres rs eq_refl).
    apply (compreensao_construivel clubes capitao) in Hres as [reservas ->].
    by eexists.
Qed.

(** A position id outside the table: the constructor of the second
    athlete raises. *)
Example posicao_fora_da_tabela :
  Time_from_dict Exemplo5.data_invalida Exemplo5.clubes None
  = inl (IndiceAusente 9).
Proof. vm_compute; reflexivity. Qed.

(** A score that is [null] and a club id that is not in the table do not
    keep [from_dict] from returning: the athlete is built with [pontos]
    [None], or with [clube] [None]; the scoring pass over such a roster
    raises. *)
Example from_dict_com_nulo :
  exists tc a t',
    Time_from_dict Exemplo5.data_nulo Exemplo5.clubes None = inr tc
    /\ TimeConstruido.atletas tc = [a]
    /\ Construido.pontos a = None
    /\ _calculate_parcial (OTime (time_do_passe tc))
                          {[KInt 18 := VAtleta (atleta_do_passe a)]} []
       = (Levanta TypeError, OTime t').
Proof.
  eexists _, _, _. split; [vm_compute; reflexivity|].
  split; [reflexivity|]. split; [reflexivity|]. vm_compute. reflexivity.
Qed.


Lemma Atleta_init_pontos atleta_id apelido foto pontos scout posicao_id entrou clube
      status_id is_capitao a :
  Atleta_init atleta_id apelido foto pontos scout posicao_id entrou clube
              status_id is_capitao = inr a ->
  Construido.pontos a = pontos.
Proof.
  unfold Atleta_init.
  destruct (_posicoes posicao_id) as [p|]; [|discriminate].
  destruct status_id as [s|].
  - destruct (s =? 0).
    + by intros [= <-].
    + destruct (_atleta_status s); [|discriminate]. by intros [= <-].
  - by intros [= <-].
Qed.

Lemma Atleta_from_dict_campos data clubes is_capitao a :
  Atleta_from_dict data clubes None is_capitao = inr a ->
  Construido.id a = Dados.atleta_id data
  /\ (Construido.pontos a = None
      <-> Dados.pontos_num data = Some None
          \/ (Dados.pontos_num data = None /\ Dados.pontuacao data = Some None))
  /\ (Construido.clube a = ClubeVazio <-> Dados.clube_id data = 1)
  /\ (Construido.clube a = ClubeNone
      <-> Dados.clube_id data <> 1 /\ clubes !! Dados.clube_id data = None)
  /\ Construido.entrou_em_campo a = Dados.entrou_em_campo data.
Proof.
  unfold Atleta_from_dict.
  assert (Hclube : forall c,
             c = (if bool_decide (Dados.clube_id data <> 1)
                  then match clubes !! Dados.clube_id data with
                       | Some c => ClubeDe c
                       | None => ClubeNone
                       end
                  else ClubeVazio) ->
             (c = ClubeVazio <-> Dados.clube_id data = 1)
             /\ (c = ClubeNone
                 <-> Dados.clube_id data <> 1 /\ clubes !! Dados.clube_id data = None)).
  { intros c ->. case_bool_decide as Hid.
    - destruct (clubes !! Dados.clube_id data); split; split;
        try discriminate; try tauto; intros [_ ?]; discriminate.
    - assert (Dados.clube_id data = 1) by lia. split; split; try done.
      by intros [? _]. }
  destruct (Dados.pontos_num data) as [p|].
  - intros H. pose proof (Atleta_init_pontos _ _ _ _ _ _ _ _ _ _ _ H) as Hp.
    apply Atleta_init_inr in H as (Hi & _ & _ & Hc & He).
    split; [exact Hi|]. split.
    + rewrite Hp. split; [by intros ->; left|]. by intros [[= ->]|[? _]].
    + destruct (Hclube _ Hc) as [H1 H2]. done.
  - destruct (Dados.pontuacao data) as [p|]; [|discriminate].
    intros H. pose proof (Atleta_init_pontos _ _ _ _ _ _ _ _ _ _ _ H) as Hp.
    apply Atleta_init_inr in H as (Hi & _ & _ & Hc & He).
    split; [exact Hi|]. split.
    + rewrite Hp. split; [by intros ->; right|]. by intros [?|[_ [= ->]]].
    + destruct (Hclube _ Hc) as [H1 H2]. done.
Qed.

(** X15. [Time.from_dict], when it returns, gives every starter the score
    and the club of its payload as they are found: the score is [None]
    exactly when the key ['pontos_num'] holds a [null], or is absent and
    ['pontuacao'] holds a [null]; the club is the empty string exactly
    for the club id 1, and [None] exactly for a club id other than 1 that
    is not in the table of the clubs; the entered-play flag is that of
    the payload, [None] without the key. *)
Theorem X15_from_dict_nulos (data : DadosTime.t) (clubes : gmap Z Clube.t)
        (capitao : option Z) (t : TimeConstruido.t) :
  Time_from_dict data clubes capitao = inr t ->
  Forall2 (fun d a =>
             Construido.id a = Dados.atleta_id d
             /\ (Construido.pontos a = None
                 <-> Dados.pontos_num d = Some None
                     \/ (Dados.pontos_num d = None /\ Dados.pontuacao d = Some None))
             /\ (Construido.clube a = ClubeVazio <-> Dados.clube_id d = 1)
             /\ (Construido.clube a = ClubeNone
                 <-> Dados.clube_id d <> 1 /\ clubes !! Dados.clube_id d = None)
             /\ Construido.entrou_em_campo a = Dados.entrou_em_campo d)
          (sort_por_posicao (DadosTime.atletas data)) (TimeConstruido.atletas t).
Proof.
  unfold Time_from_dict.
  destruct (compreensao _ (sort_por_posicao (DadosTime.atletas data)))
    as [e|atletas] eqn:Hat; [discriminate|].
  apply compreensao_inr in Hat.
  assert (Hcampos : Forall2 (fun d a =>
             Construido.id a = Dados.atleta_id d
             /\ (Construido.pontos a = None
                 <-> Dados.pontos_num d = Some None
                     \/ (Dados.pontos_num d = None /\ Dados.pontuacao d = Some None))
             /\ (Construido.clube a = ClubeVazio <-> Dados.clube_id d = 1)
             /\ (Construido.clube a = ClubeNone
                 <-> Dados.clube_id d <> 1 /\ clubes !! Dados.clube_id d = None)
             /\ Construido.entrou_em_campo a = Dados.entrou_em_campo d)
          (sort_por_posicao (DadosTime.atletas data)) atletas).
  { eapply Forall2_impl; [exact Hat|]. intros d a Hda.
    by apply Atleta_from_dict_campos in Hda. }
  destruct (DadosTime.reservas data) as [rs|].
  - destruct (compreensao _ (sort_por_posicao rs)) as [e|reservas]; [discriminate|].
    by intros [= <-].
  - by intros [= <-].
Qed.

Lemma X15_from_dict_nulos_witness :
  exists tc a b,
    Time_from_dict Exemplo5.data_sem_clube Exemplo5.clubes (Some 11) = inr tc
    /\ TimeConstruido.atletas tc = [a; b]
    /\ Construido.id b = 17
    /\ Construido.clube b = ClubeNone.
Proof.
  assert (H : exists tc, Time_from_dict Exemplo5.data_sem_clube Exemplo5.clubes (Some 11)
                         = inr tc) by (eexists; vm_compute; reflexivity).
  destruct H as [tc Htc].
  pose proof (X15_from_dict_nulos _ _ _ _ Htc) as Hf.
  change (sort_por_posicao (DadosTime.atletas Exemplo5.data_sem_clube))
    with [Exemplo5.dados 10 "Pedro" 4 262; Exemplo5.dados 17 "Novato" 5 999] in Hf.
  apply Forall2_cons_inv_l in Hf as (a & l1 & _ & Hf & Hl).
  apply Forall2_cons_inv_l in Hf as (b & l2 & Hb & Hf & ->).
  apply Forall2_nil_inv_l in Hf as ->.
  exists tc, a, b. split; [exact Htc|]. split; [exact Hl|].
  destruct Hb as (Hid & _ & _ & Hnone & _). split; [exact Hid|].
  apply Hnone. split; [discriminate|reflexivity].
Defined.
